(** * EduMetrics: the Learning Insights Analyzer

    A shallow embedding of [InsightDashboard/insights_analyzer.py]
    (class [LearningInsightsAnalyzer]) and the properties of it that the
    specification states.

    Conventions of the embedding.
    - A pandas [DataFrame] is the list of its rows, in index order; a row is
      a record with one field per column the analyzer reads.
    - A float64 is idealised as an exact rational ([Q]); the one non-finite
      value the analyzer can produce on schema-valid tables, NaN (the mean
      of an empty column), is explicit in [fnum].  Numeric results are
      stated up to [Qeq] ([==]).  The code computes in binary64, so a
      value it computes is the exact one up to rounding error.  A property
      of a label, of a value rounded to two decimals or of a text printed
      from such a value is therefore stated with a margin (away from the
      thresholds, within 0.005 of the exact value) and not as an equation
      with the exact value.
    - Where the code prints a number or compares it with a threshold right
      after one division of two integers (the recommendation engine), the
      float is the binary64 nearest to the exact value ([to_double]).
    - A sum of an integer column is an int64 and wraps around
      ([wrap_int64]).
    - A standard deviation is the non-negative square root of a rational
      variance; it is kept as that variance ([Root v] stands for sqrt v), so
      that the comparisons the code makes with it are exact.
    - [sort_values] is modelled as a stable sort on the key column.  The
      sort pandas runs by default (quicksort) may order rows with equal
      keys differently; a property that depends on the order of the sorted
      rows is stated for pairwise distinct keys.
    - A frame without rows is a typed one (its columns have the dtypes the
      rows would have), as the frames the dashboard and the generator
      build.
    - The three tables are shared objects: the analyzer keeps references to
      the caller's frames.  Methods are computations in a state monad over
      the three tables. *)

From Stdlib Require Import String Ascii List ZArith QArith Qround Qabs Lia Lqa Bool.
From Stdlib Require Import Sorted Permutation DecimalString OrderedTypeEx Qminmax Qpower.
Import ListNotations.

Local Open Scope Q_scope.

(** ** Numbers *)

(** A float64 result: a finite value or NaN. *)
Inductive fnum : Type :=
| Fin (q : Q)
| NaN.

(** A standard deviation: NaN, or the square root of a variance. *)
Inductive stdnum : Type :=
| StdNaN
| Root (v : Q).

Definition Qltb (a b : Q) : bool := negb (Qle_bool b a).

(** [x < c] on floats: false as soon as [x] is NaN. *)
Definition fnum_ltb (x : fnum) (c : Q) : bool :=
  match x with
  | Fin q => Qltb q c
  | NaN => false
  end.

(** [x * c] on floats. *)
Definition fnum_scale (x : fnum) (c : Q) : fnum :=
  match x with
  | Fin q => Fin (q * c)
  | NaN => NaN
  end.

(** [s < c] for a standard deviation [s] and a constant [c >= 0]:
    sqrt v < c exactly when v < c * c. *)
Definition std_ltb (s : stdnum) (c : Q) : bool :=
  match s with
  | Root v => Qltb v (c * c)
  | StdNaN => false
  end.

Definition Qsum (l : list Q) : Q := fold_right Qplus 0 l.

Definition Qlen {A : Type} (l : list A) : Q := inject_Z (Z.of_nat (length l)).

(** The arithmetic mean of a non-empty column. *)
Definition mean (l : list Q) : Q := Qsum l / Qlen l.

(** [Series.mean()]: NaN on an empty column. *)
Definition Series_mean (l : list Q) : fnum :=
  match l with
  | [] => NaN
  | _ => Fin (mean l)
  end.

(** Sum of squared deviations from the mean. *)
Definition sq_dev (l : list Q) : Q :=
  let m := mean l in Qsum (map (fun x => (x - m) * (x - m)) l).

(** [Series.std()] of pandas: sample standard deviation (ddof = 1). *)
Definition Series_std (l : list Q) : stdnum :=
  if (length l <=? 1)%nat then StdNaN
  else Root (sq_dev l / (Qlen l - 1)).

(** [ndarray.std()] of numpy: population standard deviation (ddof = 0). *)
Definition ndarray_std (l : list Q) : stdnum :=
  match l with
  | [] => StdNaN
  | _ => Root (sq_dev l / Qlen l)
  end.

(** Round half to even, to an integer: [np.rint], and the rounding of the
    last digit kept when a float is printed. *)
Definition round_half_even (q : Q) : Z :=
  let f := Qfloor q in
  let r := q - inject_Z f in
  if Qltb r (1 # 2) then f
  else if Qltb (1 # 2) r then (f + 1)%Z
  else if Z.even f then f else (f + 1)%Z.

(** [round(x, 2)], on the exact value.  The code rounds the float it has
    computed, which can fall on the other side of a tie; the two results
    are both within 0.005 of the exact value. *)
Definition round2 (q : Q) : Q := inject_Z (round_half_even (q * 100)) / 100.

Definition fnum_round2 (x : fnum) : fnum :=
  match x with
  | Fin q => Fin (round2 q)
  | NaN => NaN
  end.

(** The binary64 nearest to a rational (round to nearest, ties to even),
    in the range of normal doubles: the result of one correctly rounded
    operation whose exact result is the rational. *)
Definition to_double (q : Q) : Q :=
  let r := Qred q in
  if Qeq_bool r 0 then 0
  else
    let a := Qabs r in
    let e0 := (Z.log2 (Qnum a) - Z.log2 (Zpos (Qden a)) - 52)%Z in
    let e := if Qltb (a / 2 ^ e0) (2 ^ 52) then (e0 - 1)%Z else e0 in
    let m := round_half_even (a / 2 ^ e) in
    Qred ((if Qltb r 0 then - inject_Z m else inject_Z m) * 2 ^ e).

(** The literal [0.7]. *)
Definition float_0_7 : Q := Eval vm_compute in to_double (7 # 10).

(** [x * c] on float64, for a float [x] and an integer constant [c]. *)
Definition float_scale (x : fnum) (c : Q) : fnum :=
  match x with
  | Fin q => Fin (to_double (q * c))
  | NaN => NaN
  end.

(** [Series.mean()] of a column of booleans or integers, as the float64
    it is: the sum is exact (below 2^53), the division is rounded once. *)
Definition Series_mean_float (l : list Q) : fnum :=
  match Series_mean l with
  | Fin q => Fin (to_double q)
  | NaN => NaN
  end.

(** A sum accumulated in int64 wraps around. *)
Definition wrap_int64 (z : Z) : Z := ((z + 2 ^ 63) mod 2 ^ 64 - 2 ^ 63)%Z.

(** [f"{x:.1f}"] for a finite float [x], given by its exact value. *)
Definition format_1f (q : Q) : string :=
  let n := round_half_even (Qabs q * 10) in
  let sign := if Qltb q 0 then "-"%string else ""%string in
  (sign ++ NilZero.string_of_uint (N.to_uint (Z.to_N (n / 10))) ++ "."
        ++ NilZero.string_of_uint (N.to_uint (Z.to_N (n mod 10))))%string.

(** ** Sorting and grouping *)

Section Sorting.
Context {A : Type} (leb : A -> A -> bool).

Fixpoint insert_sorted (x : A) (l : list A) : list A :=
  match l with
  | [] => [x]
  | y :: l' => if leb x y then x :: l else y :: insert_sorted x l'
  end.

(** Stable: rows with equal keys keep their relative order. *)
Fixpoint sort_by (l : list A) : list A :=
  match l with
  | [] => []
  | x :: l' => insert_sorted x (sort_by l')
  end.

End Sorting.

(** What a call does: it returns a value or raises an exception. *)
Inductive outcome (A : Type) : Type :=
| Returns (a : A)
| Raises (exn : string).
Arguments Returns {A} a.
Arguments Raises {A} exn.

Section Grouping.
Context {A K : Type} (keqb kleb : K -> K -> bool) (key : A -> K).

(** Insertion of a key in a sorted list of distinct keys. *)
Fixpoint insert_unique (k : K) (l : list K) : list K :=
  match l with
  | [] => [k]
  | h :: t =>
      if keqb k h then l
      else if kleb k h then k :: l
      else h :: insert_unique k t
  end.

(** The distinct keys of the rows, sorted. *)
Definition group_keys (rows : list A) : list K :=
  fold_right insert_unique [] (map key rows).

(** [df.groupby(key)]: one group per key present, in key order; the rows
    of a group in frame order. *)
Definition groupby (rows : list A) : list (K * list A) :=
  map (fun k => (k, filter (fun r => keqb (key r) k) rows)) (group_keys rows).

End Grouping.

(** Order on the composite key (subject, topic). *)
Definition pair_eqb (a b : string * string) : bool :=
  ((fst a =? fst b) && (snd a =? snd b))%string.

Definition pair_leb (a b : string * string) : bool :=
  if (fst a =? fst b)%string then String.leb (snd a) (snd b)
  else String.leb (fst a) (fst b).

(** [Series.unique()]: the distinct values, in order of first appearance. *)
Fixpoint unique (l : list string) : list string :=
  match l with
  | [] => []
  | x :: t => x :: filter (fun y => negb (y =? x)%string) (unique t)
  end.

(** [df.tail(n)] *)
Definition tail {A : Type} (n : nat) (l : list A) : list A :=
  skipn (length l - n) l.

(** [Series.median()] *)
Definition Series_median (l : list Q) : fnum :=
  let s := sort_by Qle_bool l in
  let n := length l in
  match l with
  | [] => NaN
  | _ =>
      if Nat.even n
      then Fin ((nth (n / 2 - 1) s 0 + nth (n / 2) s 0) / 2)
      else Fin (nth (n / 2) s 0)
  end.

(** [Series.idxmax()] and [Series.idxmin()] on a series indexed by labels:
    the label of the first extreme value; ValueError on an empty series. *)
Fixpoint idx_first (better : Q -> Q -> bool) (best : string * Q)
    (l : list (string * Q)) : string :=
  match l with
  | [] => fst best
  | kv :: l' =>
      if better (snd kv) (snd best) then idx_first better kv l'
      else idx_first better best l'
  end.

Definition idxmax (l : list (string * Q)) : outcome string :=
  match l with
  | [] => Raises "attempt to get argmax of an empty sequence"
  | kv :: l' => Returns (idx_first (fun v b => Qltb b v) kv l')
  end.

Definition idxmin (l : list (string * Q)) : outcome string :=
  match l with
  | [] => Raises "attempt to get argmin of an empty sequence"
  | kv :: l' => Returns (idx_first (fun v b => Qltb v b) kv l')
  end.

(** ** The three base tables *)

(** A cell of a date column.  A frame read from CSV holds text in it; the
    constructor of the analyzer replaces the column by
    [pd.to_datetime(column)].  The parser is pandas code, so a text cell
    records, next to its characters, the instant [pd.to_datetime] reads
    from them. *)
Inductive date_cell : Type :=
| DateText (text : string) (instant : Z)
| DateTime (instant : Z).

Definition instant_of (c : date_cell) : Z :=
  match c with
  | DateText _ t => t
  | DateTime t => t
  end.

(** [pd.to_datetime] on one cell. *)
Definition to_datetime (c : date_cell) : date_cell := DateTime (instant_of c).

Record Student : Type := mkStudent {
  stu_student_id : string;
  name : string;
  grade_level : Z
}.

Record Assessment : Type := mkAssessment {
  student_id : string;
  subject : string;
  topic : string;
  assessment_date : date_cell;
  score : Q;
  max_score : Z;
  time_spent_minutes : Z;
  attempts : Z;
  difficulty_level : string
}.

Record Session : Type := mkSession {
  ses_student_id : string;
  session_date : date_cell;
  ses_subject : string;
  duration_minutes : Z;
  completed : bool
}.

(** The frames the caller built and the analyzer refers to
    ([self.students], [self.assessments], [self.sessions] are the caller's
    objects, not copies). *)
Record Tables : Type := mkTables {
  students : list Student;
  assessments : list Assessment;
  sessions : list Session
}.

(** ** Computations over the shared tables *)

Definition M (A : Type) : Type := Tables -> outcome A * Tables.

Definition ret {A : Type} (a : A) : M A := fun tb => (Returns a, tb).

Definition bind {A B : Type} (m : M A) (k : A -> M B) : M B :=
  fun tb =>
    match m tb with
    | (Returns a, tb') => k a tb'
    | (Raises e, tb') => (Raises e, tb')
    end.

Definition lift {A : Type} (o : outcome A) : M A := fun tb => (o, tb).

Notation "x <- m ;; k" := (bind m (fun x => k))
  (at level 61, m at next level, right associativity).
Notation "m ;;; k" := (bind m (fun _ => k))
  (at level 61, right associativity).

Fixpoint mapM {A B : Type} (f : A -> M B) (l : list A) : M (list B) :=
  match l with
  | [] => ret []
  | x :: l' => y <- f x ;; ys <- mapM f l' ;; ret (y :: ys)
  end.

Definition get_students : M (list Student) := fun tb => (Returns (students tb), tb).
Definition get_assessments : M (list Assessment) := fun tb => (Returns (assessments tb), tb).
Definition get_sessions : M (list Session) := fun tb => (Returns (sessions tb), tb).

(** A row with another date cell. *)
Definition with_assessment_date (r : Assessment) (d : date_cell) : Assessment :=
  mkAssessment (student_id r) (subject r) (topic r) d (score r)
    (max_score r) (time_spent_minutes r) (attempts r) (difficulty_level r).

Definition with_session_date (r : Session) (d : date_cell) : Session :=
  mkSession (ses_student_id r) d (ses_subject r) (duration_minutes r) (completed r).

(** Assignment to the date column of a frame, in place. *)
Definition set_assessment_dates (col : list date_cell) : M unit :=
  fun tb =>
    (Returns tt,
     mkTables (students tb)
       (map (fun '(r, d) => with_assessment_date r d) (combine (assessments tb) col))
       (sessions tb)).

Definition set_session_dates (col : list date_cell) : M unit :=
  fun tb =>
    (Returns tt,
     mkTables (students tb) (assessments tb)
       (map (fun '(r, d) => with_session_date r d) (combine (sessions tb) col))).

(** The value a call returns and the tables it leaves. *)
Definition run {A : Type} (m : M A) (tb : Tables) : outcome A := fst (m tb).
Definition exec {A : Type} (m : M A) (tb : Tables) : Tables := snd (m tb).

(** ** [LearningInsightsAnalyzer] *)

(** [__init__]: both date columns are present in a schema-valid frame, so
    both assignments run. *)
Definition __init__ : M unit :=
  a <- get_assessments ;;
  set_assessment_dates (map (fun r => to_datetime (assessment_date r)) a) ;;;
  s <- get_sessions ;;
  set_session_dates (map (fun r => to_datetime (session_date r)) s).

(** A date column that already holds datetimes. *)
Definition is_datetime (c : date_cell) : bool :=
  match c with
  | DateTime _ => true
  | DateText _ _ => false
  end.

Definition dates_parsed (tb : Tables) : bool :=
  forallb (fun r => is_datetime (assessment_date r)) (assessments tb)
  && forallb (fun r => is_datetime (session_date r)) (sessions tb).

(** [df.sort_values('assessment_date').reset_index(drop=True)]; rows with
    the same date are kept in frame order here. *)
Definition sort_by_assessment_date (df : list Assessment) : list Assessment :=
  sort_by (fun a b => (instant_of (assessment_date a) <=? instant_of (assessment_date b))%Z) df.

(** [np.arange(n)] as floats. *)
Definition arange (n : nat) : list Q := map (fun i => inject_Z (Z.of_nat i)) (seq 0 n).

(** [LinearRegression().fit(X, y).coef_[0]] for [X = arange(len(y))]: the
    least-squares slope of [y] against the positions 0, 1, 2, ..., as the
    exact value; the coefficient scikit-learn returns is a float64 near
    it. *)
Definition ols_slope (y : list Q) : Q :=
  let x := arange (length y) in
  let xbar := mean x in
  let ybar := mean y in
  Qsum (map (fun '(xi, yi) => (xi - xbar) * (yi - ybar)) (combine x y))
  / Qsum (map (fun xi => (xi - xbar) * (xi - xbar)) x).

(** The chain of tests on the slope (lines 65 to 74). *)
Definition classify_slope (slope : Q) : string :=
  if Qltb (1 # 2) slope then "Strong Improvement"
  else if Qltb (1 # 10) slope then "Moderate Improvement"
  else if Qltb (- (1 # 10)) slope then "Stable"
  else if Qltb (- (1 # 2)) slope then "Slight Decline"
  else "Needs Attention".

Definition _calculate_improvement_trend (assessments_df : list Assessment) : string :=
  if (length assessments_df <? 5)%nat then "Insufficient Data"
  else
    let df := sort_by_assessment_date assessments_df in
    let y := map score df in
    let slope := ols_slope y in
    classify_slope slope.

(** [df[df['student_id'] == student_id]] on either table. *)
Definition assessments_of (sid : string) (df : list Assessment) : list Assessment :=
  filter (fun r => (student_id r =? sid)%string) df.

Definition sessions_of (sid : string) (df : list Session) : list Session :=
  filter (fun r => (ses_student_id r =? sid)%string) df.

(** [df.groupby('subject')['score'].mean()]: a series indexed by subject.
    A group is never empty, so its mean is a number. *)
Definition subject_means (df : list Assessment) : list (string * Q) :=
  map (fun '(k, rows) => (k, mean (map score rows)))
      (groupby String.eqb String.leb subject df).

(** A boolean column as numbers. *)
Definition bool_column (l : list bool) : list Q :=
  map (fun b : bool => if b then 1 else 0) l.

Definition Z_column (l : list Z) : list Q := map inject_Z l.

Record Summary : Type := mkSummary {
  summary_student_id : string;
  total_assessments : nat;
  average_score : fnum;
  median_score : fnum;
  score_std : stdnum;
  best_subject : string;
  weakest_subject : string;
  total_study_time : Z;
  completion_rate : fnum;
  improvement_trend : string
}.

Definition get_student_performance_summary (sid : string) : M (option Summary) :=
  all_assessments <- get_assessments ;;
  all_sessions <- get_sessions ;;
  let student_assessments := assessments_of sid all_assessments in
  let student_sessions := sessions_of sid all_sessions in
  if (length student_assessments =? 0)%nat then ret None
  else
    best <- lift (idxmax (subject_means student_assessments)) ;;
    weakest <- lift (idxmin (subject_means student_assessments)) ;;
    ret (Some {|
      summary_student_id := sid;
      total_assessments := length student_assessments;
      average_score := Series_mean (map score student_assessments);
      median_score := Series_median (map score student_assessments);
      score_std := Series_std (map score student_assessments);
      best_subject := best;
      weakest_subject := weakest;
      total_study_time :=
        wrap_int64 (fold_right Z.add 0%Z (map duration_minutes student_sessions));
      completion_rate :=
        fnum_scale (Series_mean (bool_column (map completed student_sessions))) 100;
      improvement_trend := _calculate_improvement_trend student_assessments
    |}).

(** One row of the per-topic aggregate frame, as [to_dict('records')]
    gives it. *)
Record TopicRecord : Type := mkTopicRecord {
  topic_subject : string;
  topic_name : string;
  avg_score : Q;
  topic_attempts : nat
}.

(** [groupby(['subject', 'topic']).agg({'score': ['mean', 'count']})
    .reset_index()] with the four columns renamed. *)
Definition topic_performance (student_data : list Assessment) : list TopicRecord :=
  map (fun '(k, rows) =>
         mkTopicRecord (fst k) (snd k) (mean (map score rows)) (length rows))
      (groupby pair_eqb pair_leb (fun r => (subject r, topic r)) student_data).

Definition identify_weak_topics (sid : string) (threshold : Q) : M (list TopicRecord) :=
  all_assessments <- get_assessments ;;
  let student_data := assessments_of sid all_assessments in
  let weak_topics :=
    filter (fun r => Qltb (avg_score r) threshold) (topic_performance student_data) in
  ret (sort_by (fun a b => Qle_bool (avg_score a) (avg_score b)) weak_topics).

Definition identify_strong_topics (sid : string) (threshold : Q) : M (list TopicRecord) :=
  all_assessments <- get_assessments ;;
  let student_data := assessments_of sid all_assessments in
  let strong_topics :=
    filter (fun r => Qle_bool threshold (avg_score r)) (topic_performance student_data) in
  ret (sort_by (fun a b => Qle_bool (avg_score b) (avg_score a)) strong_topics).

(** The dictionary [predict_performance] returns; a key that a variant
    does not carry is [None] here, and so is the value [None] of
    ['prediction']. *)
Record Prediction : Type := mkPrediction {
  prediction : option Q;
  confidence : string;
  message : option string;
  recent_trend : option string
}.

Definition weight_vector : list Q := [1 # 10; 15 # 100; 2 # 10; 25 # 100; 3 # 10].

(** [np.average(a, weights=w)] *)
Definition np_average (a w : list Q) : Q :=
  Qsum (map (fun '(x, wi) => x * wi) (combine a w)) / Qsum w.

(** The chain of tests on the dispersion (lines 126 to 131). *)
Definition confidence_label (score_std : stdnum) : string :=
  if std_ltb score_std 5 then "High"
  else if std_ltb score_std 10 then "Medium"
  else "Low".

(** The rows of one student in one subject (the frame is a copy). *)
Definition subject_data (sid subj : string) (df : list Assessment) : list Assessment :=
  filter (fun r => (student_id r =? sid)%string && (subject r =? subj)%string) df.

Definition predict_performance (sid subj : string) : M Prediction :=
  all_assessments <- get_assessments ;;
  let student_data := subject_data sid subj all_assessments in
  if (length student_data <? 3)%nat
  then ret (mkPrediction None "Low" (Some "Insufficient data"%string) None)
  else
    let student_data := sort_by_assessment_date student_data in
    let recent_scores := map score (tail 5 student_data) in
    let weights := firstn (length recent_scores) weight_vector in
    let weights := map (fun w => w / Qsum weights) weights in
    let predicted_score := np_average recent_scores weights in
    let score_std := ndarray_std recent_scores in
    let confidence := confidence_label score_std in
    ret (mkPrediction (Some (round2 predicted_score)) confidence None
           (Some (_calculate_improvement_trend student_data))).

(** A recommendation dictionary; a key a variant does not carry is [None]. *)
Record Recommendation : Type := mkRecommendation {
  priority : string;
  rec_type : string;
  rec_message : string;
  details : option (list TopicRecord);
  suggestion : option string;
  current_avg : option string
}.

Definition format_1f_fnum (x : fnum) : string :=
  match x with
  | Fin q => format_1f q
  | NaN => "nan"
  end.

(** The three dictionaries [get_study_recommendations] can append. *)
Definition skill_gap (top_weak : list TopicRecord) : Recommendation :=
  mkRecommendation "High" "Skill Gap"
    ("Focus on improving: " ++ String.concat ", " (map topic_name top_weak))
    (Some top_weak) None None.

Definition study_habits (completion : fnum) : Recommendation :=
  mkRecommendation "Medium" "Study Habits"
    ("Improve study session completion rate (currently "
       ++ format_1f_fnum (float_scale completion 100) ++ "%)")
    None (Some "Break study sessions into smaller, manageable chunks"%string) None.

Definition time_investment (avg_time : fnum) : Recommendation :=
  mkRecommendation "Low" "Time Investment"
    "Consider spending more time on assessments for better understanding"
    None None (Some (format_1f_fnum avg_time ++ " minutes")%string).

Definition get_study_recommendations (sid : string) : M (list Recommendation) :=
  weak_topics <- identify_weak_topics sid 70 ;;
  all_sessions <- get_sessions ;;
  let student_sessions := sessions_of sid all_sessions in
  let recommendations := [] in
  let recommendations :=
    match weak_topics with
    | [] => recommendations
    | _ => recommendations ++ [skill_gap (firstn 3 weak_topics)]
    end in
  let recommendations :=
    if (0 <? length student_sessions)%nat then
      let completion :=
        Series_mean_float (bool_column (map completed student_sessions)) in
      if fnum_ltb completion float_0_7
      then recommendations ++ [study_habits completion]
      else recommendations
    else recommendations in
  all_assessments <- get_assessments ;;
  let student_data := assessments_of sid all_assessments in
  let recommendations :=
    if (0 <? length student_data)%nat then
      let avg_time :=
        Series_mean_float (Z_column (map time_spent_minutes student_data)) in
      if fnum_ltb avg_time 20
      then recommendations ++ [time_investment avg_time]
      else recommendations
    else recommendations in
  ret recommendations.

(** ** Class level *)

Record StudentAverage : Type := mkStudentAverage {
  avg_student_id : string;
  student_average_score : Q
}.

(** [df.groupby('student_id')['score'].mean()] *)
Definition student_avg (df : list Assessment) : list (string * Q) :=
  map (fun '(k, rows) => (k, mean (map score rows)))
      (groupby String.eqb String.leb student_id df).

(** [Series.nlargest(n)] and [Series.nsmallest(n)] (keep='first') on a
    numeric series.  (On the series of dtype object that the means of a
    frame read from a file with a header and no row make, pandas raises
    TypeError; such a frame is not a [Tables] here.) *)
Definition nlargest (n : nat) (s : list (string * Q)) : list (string * Q) :=
  firstn n (sort_by (fun a b => Qle_bool (snd b) (snd a)) s).

Definition nsmallest (n : nat) (s : list (string * Q)) : list (string * Q) :=
  firstn n (sort_by (fun a b => Qle_bool (snd a) (snd b)) s).

Definition _get_top_students (n : nat) : M (list StudentAverage) :=
  all_assessments <- get_assessments ;;
  let top_students := nlargest n (student_avg all_assessments) in
  ret (map (fun '(sid, sc) => mkStudentAverage sid sc) top_students).

Definition _get_struggling_students (n : nat) : M (list StudentAverage) :=
  all_assessments <- get_assessments ;;
  let struggling := nsmallest n (student_avg all_assessments) in
  ret (map (fun '(sid, sc) => mkStudentAverage sid sc) struggling).

Record SubjectStats : Type := mkSubjectStats {
  stats_mean : Q;
  stats_std : stdnum;
  stats_count : nat
}.

Definition _analyze_subject_difficulty : M (list (string * SubjectStats)) :=
  all_assessments <- get_assessments ;;
  let subject_stats :=
    map (fun '(k, rows) =>
           (k, mkSubjectStats (mean (map score rows)) (Series_std (map score rows))
                 (length rows)))
        (groupby String.eqb String.leb subject all_assessments) in
  ret (sort_by (fun a b => Qle_bool (stats_mean (snd a)) (stats_mean (snd b)))
         subject_stats).

Record Engagement : Type := mkEngagement {
  total_sessions : nat;
  engagement_completion_rate : Q;
  avg_session_duration : fnum
}.

(** [a / b] for a count [a] and a length [b].  With [b = 0] there is no
    quotient: Python raises ZeroDivisionError on its own integers, numpy
    warns and gives nan.  Either way the result is not a number, and the
    call raises here. *)
Definition true_divide (a b : Q) : outcome Q :=
  if Qeq_bool b 0 then Raises "division by zero" else Returns (a / b).

Definition _analyze_engagement : M Engagement :=
  all_sessions <- get_sessions ;;
  let total_sessions := length all_sessions in
  let completed_sessions := Qsum (bool_column (map completed all_sessions)) in
  completion_rate <-
    (if (0 <? total_sessions)%nat
     then
       ratio <- lift (true_divide completed_sessions (Qlen all_sessions)) ;;
       ret (ratio * 100)
     else ret 0) ;;
  let avg_session_duration :=
    Series_mean (Z_column (map duration_minutes all_sessions)) in
  ret (mkEngagement total_sessions (round2 completion_rate)
         (fnum_round2 avg_session_duration)).

Record ClassInsights : Type := mkClassInsights {
  total_students : nat;
  class_total_assessments : nat;
  class_average : fnum;
  top_performers : list StudentAverage;
  struggling_students : list StudentAverage;
  subject_difficulty : list (string * SubjectStats);
  engagement_metrics : Engagement
}.

Definition get_class_insights : M ClassInsights :=
  all_students <- get_students ;;
  all_assessments <- get_assessments ;;
  top <- _get_top_students 5 ;;
  struggling <- _get_struggling_students 5 ;;
  difficulty <- _analyze_subject_difficulty ;;
  engagement <- _analyze_engagement ;;
  ret (mkClassInsights (length all_students) (length all_assessments)
         (Series_mean (map score all_assessments))
         top struggling difficulty engagement).

(** ** The per-student report *)

Record InsightReport : Type := mkInsightReport {
  report_student_id : string;
  generated_at : string;
  performance_summary : Summary;
  weak_topics : list TopicRecord;
  strong_topics : list TopicRecord;
  subject_predictions : list (string * Prediction);
  recommendations : list Recommendation
}.

(** What [generate_insight_report] returns: the dictionary with the single
    key ['error'], or the report. *)
Inductive ReportResult : Type :=
| ReportError (error : string)
| Report (report : InsightReport).

(** [now] is the text [datetime.now().isoformat()] evaluates to. *)
Definition generate_insight_report (now : string) (sid : string) : M ReportResult :=
  summary <- get_student_performance_summary sid ;;
  match summary with
  | None => ret (ReportError "No data available for this student")
  | Some summary =>
      weak <- identify_weak_topics sid 70 ;;
      strong <- identify_strong_topics sid 85 ;;
      recs <- get_study_recommendations sid ;;
      all_assessments <- get_assessments ;;
      let subjects := unique (map subject (assessments_of sid all_assessments)) in
      predictions <-
        mapM (fun subj => p <- predict_performance sid subj ;; ret (subj, p)) subjects ;;
      ret (Report (mkInsightReport sid now summary weak strong predictions recs))
  end.

(** ** Sequences of calls on one analyzer *)

Inductive call : Type :=
| CallSummary (sid : string)
| CallWeakTopics (sid : string) (threshold : Q)
| CallStrongTopics (sid : string) (threshold : Q)
| CallPredict (sid subj : string)
| CallRecommendations (sid : string)
| CallClassInsights
| CallReport (now sid : string).

Definition perform (c : call) : M unit :=
  match c with
  | CallSummary sid => get_student_performance_summary sid ;;; ret tt
  | CallWeakTopics sid th => identify_weak_topics sid th ;;; ret tt
  | CallStrongTopics sid th => identify_strong_topics sid th ;;; ret tt
  | CallPredict sid subj => predict_performance sid subj ;;; ret tt
  | CallRecommendations sid => get_study_recommendations sid ;;; ret tt
  | CallClassInsights => get_class_insights ;;; ret tt
  | CallReport now sid => generate_insight_report now sid ;;; ret tt
  end.

(** The tables after a sequence of calls; a call that raises does not
    stop the caller from making the next one. *)
Fixpoint perform_all (cs : list call) (tb : Tables) : Tables :=
  match cs with
  | [] => tb
  | c :: cs' => perform_all cs' (exec (perform c) tb)
  end.

(** ** The weighting of the forecast, in closed form *)

(** The weighted mean of a window with the first [len(window)] entries of
    the weight vector. *)
Definition prefix_weighted (window : list Q) : Q :=
  let w := firstn (length window) weight_vector in
  Qsum (map (fun '(x, wi) => x * wi) (combine window w)) / Qsum w.

(** The weighted mean of a window with the last [len(window)] entries of
    the weight vector: the weighting the specification describes. *)
Definition suffix_weighted (window : list Q) : Q :=
  let w := tail (length window) weight_vector in
  Qsum (map (fun '(x, wi) => x * wi) (combine window w)) / Qsum w.

(** The most recent scores [predict_performance] averages. *)
Definition recent_window (sid subj : string) (tb : Tables) : list Q :=
  map score (tail 5 (sort_by_assessment_date (subject_data sid subj (assessments tb)))).

(** ** Sample tables *)

Definition sample_row (sid subj top : string) (day : Z) (sc : Q) (minutes : Z)
  : Assessment :=
  mkAssessment sid subj top (DateTime day) sc 100 minutes 1 "Medium".

(** One student, one topic, scores 60, 70, 80; no study session. *)
Definition tables_60_70_80 : Tables :=
  mkTables [mkStudent "STU001" "Student 1" 9]
    [sample_row "STU001" "Mathematics" "Algebra" 1 60 25;
     sample_row "STU001" "Mathematics" "Algebra" 2 70 25;
     sample_row "STU001" "Mathematics" "Algebra" 3 80 25]
    [].

(** Five assessments whose least-squares slope is -1/10, and five whose
    slope is -1/2. *)
Definition series_of (scores : list Q) : list Assessment :=
  map (fun '(d, sc) => sample_row "STU001" "Mathematics" "Algebra" (Z.of_nat d) sc 25)
      (combine (seq 1 (length scores)) scores).

Definition series_slope_minus_tenth : list Assessment := series_of [1; 0; 0; 1; 0].
Definition series_slope_minus_half : list Assessment := series_of [3; 0; 0; 1; 0].

(** Tables as read from CSV: the date columns hold text. *)
Definition tables_from_csv : Tables :=
  mkTables [mkStudent "STU001" "Student 1" 9]
    [mkAssessment "STU001" "Mathematics" "Algebra"
       (DateText "2024-01-15" 19737) 82 100 30 1 "Easy"]
    [mkSession "STU001" (DateText "2024-01-16" 19738) "Mathematics" 45 true].

(** A student with one weak topic, no study session, 25 minutes per
    assessment. *)
Definition tables_one_weak_topic : Tables :=
  mkTables [mkStudent "STU001" "Student 1" 9]
    [sample_row "STU001" "Mathematics" "Algebra" 1 50 25;
     sample_row "STU001" "Mathematics" "Algebra" 2 60 25]
    [].

(** A student with one weak topic, one completed session out of three
    and 399 minutes spent on 20 assessments (19.95 on average). *)
Definition tables_all_rules : Tables :=
  mkTables [mkStudent "STU001" "Student 1" 9]
    (map (fun d =>
            sample_row "STU001" "Mathematics" "Algebra" (Z.of_nat d) 50
              (if (d =? 1)%nat then 19 else 20))
         (seq 1 20))
    [mkSession "STU001" (DateTime 1) "Mathematics" 30 true;
     mkSession "STU001" (DateTime 2) "Mathematics" 30 false;
     mkSession "STU001" (DateTime 3) "Mathematics" 30 false].

(** Three sessions, one of them completed. *)
Definition tables_three_sessions : Tables :=
  mkTables [mkStudent "STU001" "Student 1" 9]
    [sample_row "STU001" "Mathematics" "Algebra" 1 50 25]
    [mkSession "STU001" (DateTime 1) "Mathematics" 30 true;
     mkSession "STU001" (DateTime 2) "Mathematics" 30 false;
     mkSession "STU001" (DateTime 3) "Mathematics" 30 false].

(** ** Calls that only read the tables *)

Definition read_only {A : Type} (m : M A) : Prop :=
  forall tb, snd (m tb) = tb.

(** ** Auxiliary notions for the statements *)

(** The mean score of a student's rows in one subject. *)
Definition subject_mean (df : list Assessment) (subj : string) : Q :=
  mean (map score (filter (fun r => (subject r =? subj)%string) df)).

(** A slope that is at least [margin] away from each of the four
    thresholds of the trend table. *)
Definition away_from_thresholds (margin slope : Q) : Prop :=
  (slope <= (1 # 2) - margin \/ (1 # 2) + margin <= slope)
  /\ (slope <= (1 # 10) - margin \/ (1 # 10) + margin <= slope)
  /\ (slope <= - (1 # 10) - margin \/ - (1 # 10) + margin <= slope)
  /\ (slope <= - (1 # 2) - margin \/ - (1 # 2) + margin <= slope).

(** The scores a, a + d, a + 2d, ... of [n] assessments. *)
Definition arithmetic_series (a d : Q) (n : nat) : list Q :=
  map (fun x => a + d * x) (arange n).

(** Five assessments with the scores 50, 55, 60, 65, 70. *)
Definition series_rising_by_five : list Assessment := series_of [50; 55; 60; 65; 70].

(** One student, three assessments with the score 75. *)
Definition tables_constant_scores : Tables :=
  mkTables [mkStudent "STU001" "Student 1" 9]
    [sample_row "STU001" "Mathematics" "Algebra" 1 75 25;
     sample_row "STU001" "Mathematics" "Geometry" 2 75 25;
     sample_row "STU001" "Mathematics" "Algebra" 3 75 25]
    [].

(** ** The callers: dashboard, data generator, visualizer *)

(** [LearningInsightsDashboard.load_data] (dashboard.py), from the point
    where the three frames have been read: both date columns are
    converted, then the analyzer is constructed on the same frames. *)
Definition load_data : M unit :=
  a <- get_assessments ;;
  set_assessment_dates (map (fun r => to_datetime (assessment_date r)) a) ;;;
  s <- get_sessions ;;
  set_session_dates (map (fun r => to_datetime (session_date r)) s) ;;;
  __init__.

(** The score [StudentDataGenerator.generate_assessment_data]
    (data_generator.py, lines 63 to 71 and 81) records for the
    [assessment_num]-th of [num_assessments] assessments of a student,
    from the student's parameters and the random variation drawn, in
    exact arithmetic. *)
Definition generated_score (base_ability learning_rate random_variation : Q)
    (assessment_num num_assessments : nat) : Q :=
  let progress_factor :=
    inject_Z (Z.of_nat assessment_num) / inject_Z (Z.of_nat num_assessments)
    * learning_rate in
  let base_score := base_ability in
  let improvement := progress_factor * 10 in
  let score := base_score + improvement + random_variation in
  let score := Qmax 0 (Qmin 100 score) in
  round2 score.

(** One entry of the list [student_trends] that
    [InsightsVisualizer.plot_improvement_trends] (visualizer.py, lines 204
    to 224) builds before plotting. *)
Record TrendPoint : Type := mkTrendPoint {
  trend_student_id : string;
  trend_slope : Q;
  trend_avg_score : fnum
}.

Definition student_trends (assessments_df : list Assessment) : list TrendPoint :=
  flat_map
    (fun sid =>
       let student_data :=
         sort_by_assessment_date (assessments_of sid assessments_df) in
       if (length student_data <? 5)%nat then []
       else
         let y := map score student_data in
         [mkTrendPoint sid (ols_slope y) (Series_mean (map score student_data))])
    (unique (map student_id assessments_df)).

(** * Properties *)

(** ** Arithmetic helpers *)

Lemma Qltb_lt (a b : Q) : Qltb a b = true <-> a < b.
Proof.
  unfold Qltb. rewrite negb_true_iff.
  split; intro H.
  - apply Qnot_le_lt. intro Hle. apply Qle_bool_iff in Hle. congruence.
  - destruct (Qle_bool b a) eqn:E; [|reflexivity].
    apply Qle_bool_iff in E. exfalso. apply (Qlt_not_le _ _ H E).
Qed.

Lemma Qltb_ge (a b : Q) : Qltb a b = false <-> b <= a.
Proof.
  unfold Qltb. rewrite negb_false_iff. apply Qle_bool_iff.
Qed.

Example format_1f_ex : format_1f (200 # 3) = "66.7"%string /\ format_1f (1 # 4) = "0.2"%string
  /\ format_1f 18 = "18.0"%string.
Proof. vm_compute. auto. Qed.
Example round2_ex : round2 (650 # 9) == 7222 # 100.
Proof. vm_compute. reflexivity. Qed.

(** The doubles 0.1 and 0.7; 19.95 is not a double, and the double next to
    it prints as 19.9. *)
Example to_double_ex :
  to_double (1 # 10) == 3602879701896397 # 36028797018963968
  /\ float_0_7 == 3152519739159347 # 4503599627370496
  /\ to_double (1 # 2) == 1 # 2
  /\ to_double (- (3 # 4)) == - (3 # 4)
  /\ to_double (1995 # 100) < 1995 # 100
  /\ format_1f (to_double (1995 # 100)) = "19.9"%string
  /\ format_1f_fnum (float_scale (Fin (to_double (1 # 3))) 100) = "33.3"%string.
Proof. repeat split; vm_compute; reflexivity. Qed.

(** ** Sorting *)

Section SortingFacts.
Context {A : Type} (leb : A -> A -> bool).

Lemma insert_sorted_perm (x : A) (l : list A) :
  Permutation (x :: l) (insert_sorted leb x l).
Proof.
  induction l as [|y l IH]; simpl.
  - apply Permutation_refl.
  - destruct (leb x y).
    + apply Permutation_refl.
    + eapply Permutation_trans; [apply perm_swap|].
      apply perm_skip, IH.
Qed.

Lemma sort_by_perm (l : list A) : Permutation l (sort_by leb l).
Proof.
  induction l as [|x l IH]; simpl.
  - constructor.
  - eapply Permutation_trans; [|apply insert_sorted_perm].
    apply perm_skip, IH.
Qed.

Lemma sort_by_length (l : list A) : length (sort_by leb l) = length l.
Proof. symmetry. apply Permutation_length, sort_by_perm. Qed.

Lemma sort_by_In (l : list A) (x : A) : In x (sort_by leb l) <-> In x l.
Proof.
  split; apply Permutation_in;
    [apply Permutation_sym|]; apply sort_by_perm.
Qed.

Hypothesis leb_total : forall a b, leb a b = true \/ leb b a = true.

Lemma insert_sorted_sorted (x : A) (l : list A) :
  Sorted (fun a b => leb a b = true) l ->
  Sorted (fun a b => leb a b = true) (insert_sorted leb x l).
Proof.
  induction 1 as [|y l Hs IH Hhd]; simpl.
  - repeat constructor.
  - destruct (leb x y) eqn:E.
    + constructor; [constructor; assumption|constructor; assumption].
    + constructor; [assumption|].
      destruct l as [|z l]; simpl.
      * constructor. destruct (leb_total x y); congruence.
      * simpl in IH. inversion Hhd; subst.
        destruct (leb x z); constructor;
          [destruct (leb_total x y); congruence|assumption].
Qed.

Lemma sort_by_sorted (l : list A) :
  Sorted (fun a b => leb a b = true) (sort_by leb l).
Proof.
  induction l; simpl; [constructor|].
  apply insert_sorted_sorted; assumption.
Qed.

End SortingFacts.

(** ** Calls that only read the tables *)

Lemma read_only_ret {A : Type} (a : A) : read_only (ret a).
Proof. intro tb. reflexivity. Qed.

Lemma read_only_lift {A : Type} (o : outcome A) : read_only (lift o).
Proof. intro tb. reflexivity. Qed.

Lemma read_only_get_students : read_only get_students.
Proof. intro tb. reflexivity. Qed.

Lemma read_only_get_assessments : read_only get_assessments.
Proof. intro tb. reflexivity. Qed.

Lemma read_only_get_sessions : read_only get_sessions.
Proof. intro tb. reflexivity. Qed.

Lemma read_only_bind {A B : Type} (m : M A) (k : A -> M B) :
  read_only m -> (forall a, read_only (k a)) -> read_only (bind m k).
Proof.
  intros Hm Hk tb. unfold bind.
  specialize (Hm tb). destruct (m tb) as [[a|e] tb']; simpl in *; subst.
  - apply Hk.
  - reflexivity.
Qed.

Lemma read_only_mapM {A B : Type} (f : A -> M B) (l : list A) :
  (forall a, read_only (f a)) -> read_only (mapM f l).
Proof.
  intro Hf. induction l as [|x l IH]; simpl.
  - apply read_only_ret.
  - apply read_only_bind; [apply Hf|intro y].
    apply read_only_bind; [apply IH|intro ys]. apply read_only_ret.
Qed.

Ltac read_only_step :=
  first
    [ apply read_only_ret
    | apply read_only_lift
    | apply read_only_get_students
    | apply read_only_get_assessments
    | apply read_only_get_sessions
    | apply read_only_bind; [|intro]
    | match goal with
      | |- read_only (if ?c then _ else _) => destruct c
      | |- read_only (match ?x with _ => _ end) => destruct x
      end ].

Lemma run_read_only {A : Type} (m : M A) (tb : Tables) :
  read_only m -> m tb = (run m tb, tb).
Proof.
  intro H. unfold run. specialize (H tb).
  destruct (m tb) as [o tb']; simpl in *; congruence.
Qed.

Lemma run_bind {A B : Type} (m : M A) (k : A -> M B) (tb : Tables) :
  read_only m ->
  run (bind m k) tb =
  match run m tb with
  | Returns a => run (k a) tb
  | Raises e => Raises e
  end.
Proof.
  intro H. unfold run at 1. unfold bind.
  rewrite (run_read_only m tb H). destruct (run m tb); reflexivity.
Qed.

Lemma read_only_summary (sid : string) :
  read_only (get_student_performance_summary sid).
Proof. unfold get_student_performance_summary. repeat read_only_step. Qed.

Lemma read_only_weak (sid : string) (th : Q) : read_only (identify_weak_topics sid th).
Proof. unfold identify_weak_topics. repeat read_only_step. Qed.

Lemma read_only_strong (sid : string) (th : Q) :
  read_only (identify_strong_topics sid th).
Proof. unfold identify_strong_topics. repeat read_only_step. Qed.

Lemma read_only_predict (sid subj : string) : read_only (predict_performance sid subj).
Proof. unfold predict_performance. repeat read_only_step. Qed.

Lemma read_only_recommendations (sid : string) :
  read_only (get_study_recommendations sid).
Proof.
  unfold get_study_recommendations.
  apply read_only_bind; [apply read_only_weak|intro].
  repeat read_only_step.
Qed.

Lemma read_only_engagement : read_only _analyze_engagement.
Proof. unfold _analyze_engagement. repeat read_only_step. Qed.

Lemma read_only_class_insights : read_only get_class_insights.
Proof.
  unfold get_class_insights, _get_top_students, _get_struggling_students,
    _analyze_subject_difficulty.
  do 2 (apply read_only_bind; [read_only_step|intro]).
  do 3 (apply read_only_bind; [repeat read_only_step|intro]).
  apply read_only_bind; [apply read_only_engagement|intro].
  apply read_only_ret.
Qed.

Lemma read_only_report (now sid : string) :
  read_only (generate_insight_report now sid).
Proof.
  unfold generate_insight_report.
  apply read_only_bind; [apply read_only_summary|intros [s|]].
  - apply read_only_bind; [apply read_only_weak|intro].
    apply read_only_bind; [apply read_only_strong|intro].
    apply read_only_bind; [apply read_only_recommendations|intro].
    apply read_only_bind; [apply read_only_get_assessments|intro].
    apply read_only_bind; [|intro; apply read_only_ret].
    apply read_only_mapM. intro subj.
    apply read_only_bind; [apply read_only_predict|intro; apply read_only_ret].
  - apply read_only_ret.
Qed.

Lemma read_only_perform (c : call) : read_only (perform c).
Proof.
  destruct c; simpl; (apply read_only_bind; [|intro; apply read_only_ret]).
  - apply read_only_summary.
  - apply read_only_weak.
  - apply read_only_strong.
  - apply read_only_predict.
  - apply read_only_recommendations.
  - apply read_only_class_insights.
  - apply read_only_report.
Qed.

Lemma perform_all_frame (cs : list call) (tb : Tables) : perform_all cs tb = tb.
Proof.
  induction cs as [|c cs IH]; simpl; [reflexivity|].
  unfold exec. rewrite (read_only_perform c tb). apply IH.
Qed.

(** ** Construction *)

Lemma map_combine_map {A B C : Type} (f : A -> B) (g : A -> B -> C) (l : list A) :
  map (fun '(r, d) => g r d) (combine l (map f l)) = map (fun r => g r (f r)) l.
Proof. induction l; simpl; congruence. Qed.

Lemma init_assessments (tb : Tables) :
  assessments (exec __init__ tb) =
  map (fun r => with_assessment_date r (to_datetime (assessment_date r))) (assessments tb).
Proof. unfold exec; simpl. apply map_combine_map. Qed.

Lemma init_sessions (tb : Tables) :
  sessions (exec __init__ tb) =
  map (fun r => with_session_date r (to_datetime (session_date r))) (sessions tb).
Proof. unfold exec; simpl. apply map_combine_map. Qed.

Lemma map_id_on {A : Type} (f : A -> A) (p : A -> bool) (l : list A) :
  (forall x, p x = true -> f x = x) -> forallb p l = true -> map f l = l.
Proof.
  intros Hf. induction l as [|x l IH]; simpl; [reflexivity|].
  rewrite andb_true_iff. intros [Hx Hl]. rewrite (Hf x Hx), (IH Hl). reflexivity.
Qed.

Lemma tables_ext (t1 t2 : Tables) :
  students t1 = students t2 -> assessments t1 = assessments t2 ->
  sessions t1 = sessions t2 -> t1 = t2.
Proof. destruct t1, t2; simpl; congruence. Qed.

Lemma init_parsed (tb : Tables) : dates_parsed tb = true -> exec __init__ tb = tb.
Proof.
  unfold dates_parsed. rewrite andb_true_iff. intros [Ha Hs].
  apply tables_ext.
  - reflexivity.
  - rewrite init_assessments.
    apply (map_id_on _ (fun r => is_datetime (assessment_date r))); [|assumption].
    intros [? ? ? [] ? ? ? ? ?]; cbv; congruence.
  - rewrite init_sessions.
    apply (map_id_on _ (fun r => is_datetime (session_date r))); [|assumption].
    intros [? [] ? ? ?]; cbv; congruence.
Qed.

(** C3, as the code has it: construction rewrites the date cell of every
    assessment and session row in the caller's frames to its datetime and
    changes nothing else (nothing at all when both columns already hold
    datetimes); after construction no sequence of analyzer calls changes
    the three tables. *)
Theorem tables_changed_only_by_construction (tb : Tables) :
  students (exec __init__ tb) = students tb
  /\ assessments (exec __init__ tb) =
     map (fun r => with_assessment_date r (to_datetime (assessment_date r)))
         (assessments tb)
  /\ sessions (exec __init__ tb) =
     map (fun r => with_session_date r (to_datetime (session_date r))) (sessions tb)
  /\ (dates_parsed tb = true -> exec __init__ tb = tb)
  /\ dates_parsed (exec __init__ tb) = true
  /\ (forall cs : list call, perform_all cs (exec __init__ tb) = exec __init__ tb)
  /\ (forall cs : list call, perform_all cs tb = tb).
Proof.
  repeat split.
  - apply init_assessments.
  - apply init_sessions.
  - apply init_parsed.
  - unfold dates_parsed. rewrite init_assessments, init_sessions.
    apply andb_true_iff; split; apply forallb_forall; intros x Hx;
      apply in_map_iff in Hx; destruct Hx as [r [<- _]]; reflexivity.
  - intro cs. apply perform_all_frame.
  - intro cs. apply perform_all_frame.
Qed.

Lemma tables_changed_only_by_construction_witness :
  dates_parsed tables_60_70_80 = true
  /\ exec __init__ tables_60_70_80 = tables_60_70_80.
Proof.
  split; [reflexivity|].
  apply (tables_changed_only_by_construction tables_60_70_80). reflexivity.
Defined.

(** C3 as stated fails: on frames read from CSV, construction replaces the
    text of both date columns in the caller's tables. *)
Lemma construction_mutates_tables :
  map assessment_date (assessments tables_from_csv) = [DateText "2024-01-15" 19737]
  /\ map assessment_date (assessments (exec __init__ tables_from_csv)) = [DateTime 19737]
  /\ map session_date (sessions (exec __init__ tables_from_csv)) = [DateTime 19738]
  /\ exec __init__ tables_from_csv <> tables_from_csv.
Proof.
  repeat split. intro H. apply (f_equal assessments) in H. discriminate H.
Qed.

(** ** Trend estimator *)

Lemma classify_slope_cases (s : Q) :
  (1 # 2 < s /\ classify_slope s = "Strong Improvement"%string)
  \/ (1 # 10 < s /\ s <= 1 # 2 /\ classify_slope s = "Moderate Improvement"%string)
  \/ (- (1 # 10) < s /\ s <= 1 # 10 /\ classify_slope s = "Stable"%string)
  \/ (- (1 # 2) < s /\ s <= - (1 # 10) /\ classify_slope s = "Slight Decline"%string)
  \/ (s <= - (1 # 2) /\ classify_slope s = "Needs Attention"%string).
Proof.
  unfold classify_slope.
  destruct (Qltb (1 # 2) s) eqn:E1.
  { left. apply Qltb_lt in E1. auto. }
  apply Qltb_ge in E1.
  destruct (Qltb (1 # 10) s) eqn:E2.
  { right; left. apply Qltb_lt in E2. auto. }
  apply Qltb_ge in E2.
  destruct (Qltb (- (1 # 10)) s) eqn:E3.
  { right; right; left. apply Qltb_lt in E3. auto. }
  apply Qltb_ge in E3.
  destruct (Qltb (- (1 # 2)) s) eqn:E4.
  { right; right; right; left. apply Qltb_lt in E4. auto. }
  apply Qltb_ge in E4. right; right; right; right. auto.
Qed.

Lemma classify_slope_sufficient (s : Q) : classify_slope s <> "Insufficient Data"%string.
Proof.
  destruct (classify_slope_cases s) as [H|[H|[H|[H|H]]]];
    repeat match goal with H : _ /\ _ |- _ => destruct H end;
    match goal with H : classify_slope _ = _ |- _ => rewrite H end; discriminate.
Qed.

Lemma trend_of_long_series (df : list Assessment) :
  (5 <= length df)%nat ->
  _calculate_improvement_trend df =
  classify_slope (ols_slope (map score (sort_by_assessment_date df))).
Proof.
  intro H. unfold _calculate_improvement_trend.
  destruct (length df <? 5)%nat eqn:E; [|reflexivity].
  apply Nat.ltb_lt in E. lia.
Qed.

Lemma classify_slope_stable (margin slope fitted : Q) :
  0 <= margin ->
  away_from_thresholds margin slope ->
  Qabs (fitted - slope) <= margin / 2 ->
  classify_slope fitted = classify_slope slope.
Proof.
  intros Hm [H1 [H2 [H3 H4]]] Hf.
  apply Qabs_Qle_condition in Hf. destruct Hf as [Hf1 Hf2].
  assert (Hh : margin / 2 == margin * (1 # 2)) by (unfold Qdiv; reflexivity).
  rewrite Hh in Hf1, Hf2.
  destruct (classify_slope_cases slope) as [H|[H|[H|[H|H]]]];
    repeat match goal with H : _ /\ _ |- _ => destruct H end;
    match goal with H : classify_slope slope = _ |- _ => rewrite H end;
    destruct (classify_slope_cases fitted) as [G|[G|[G|[G|G]]]];
    repeat match goal with H : _ /\ _ |- _ => destruct H end;
    match goal with H : classify_slope fitted = _ |- _ => rewrite H end;
    try reflexivity; exfalso;
    destruct H1 as [H1|H1]; destruct H2 as [H2|H2];
    destruct H3 as [H3|H3]; destruct H4 as [H4|H4]; lra.
Qed.

(** C1, as the code has it: the trend label is "Insufficient Data" exactly
    when the series has fewer than 5 points.  With 5 or more points, on
    pairwise distinct dates and with scores between 0 and 100, the label
    is the one the table gives for the least-squares slope of the scores
    in date order whenever that slope is at least 10^-9 away from the four
    thresholds: "Strong Improvement" above 0.5, "Moderate Improvement"
    between 0.1 and 0.5, "Stable" between -0.1 and 0.1, "Slight Decline"
    between -0.5 and -0.1, "Needs Attention" below -0.5.  The code tests
    the fitted coefficient, a float64 near the slope, with strict
    comparisons: every coefficient within 5 * 10^-10 of such a slope gets
    the same label; a coefficient is "Strong Improvement" only above 0.5
    and "Needs Attention" exactly when at or below -0.5.  For a slope at a
    threshold the label is not fixed by the slope: it depends on the
    rounding of the fit. *)
Theorem trend_label_by_slope (df : list Assessment) :
  (_calculate_improvement_trend df = "Insufficient Data"%string <-> (length df < 5)%nat)
  /\ ((5 <= length df)%nat ->
      NoDup (map (fun r => instant_of (assessment_date r)) df) ->
      (forall r, In r df -> 0 <= score r /\ score r <= 100) ->
      let slope := ols_slope (map score (sort_by_assessment_date df)) in
      let label := _calculate_improvement_trend df in
      let margin := 1 # 1000000000 in
      ((1 # 2) + margin <= slope -> label = "Strong Improvement"%string)
      /\ ((1 # 10) + margin <= slope -> slope <= (1 # 2) - margin ->
          label = "Moderate Improvement"%string)
      /\ (- (1 # 10) + margin <= slope -> slope <= (1 # 10) - margin ->
          label = "Stable"%string)
      /\ (- (1 # 2) + margin <= slope -> slope <= - (1 # 10) - margin ->
          label = "Slight Decline"%string)
      /\ (slope <= - (1 # 2) - margin -> label = "Needs Attention"%string)
      /\ (away_from_thresholds margin slope ->
          forall fitted : Q,
            Qabs (fitted - slope) <= margin / 2 -> classify_slope fitted = label))
  /\ (forall fitted : Q,
        (classify_slope fitted = "Strong Improvement"%string <-> 1 # 2 < fitted)
        /\ (classify_slope fitted = "Needs Attention"%string <-> fitted <= - (1 # 2))
        /\ (fitted == 1 # 2 -> classify_slope fitted = "Moderate Improvement"%string)
        /\ (fitted == - (1 # 2) -> classify_slope fitted = "Needs Attention"%string)).
Proof.
  split; [|split].
  - unfold _calculate_improvement_trend.
    destruct (length df <? 5)%nat eqn:E.
    + apply Nat.ltb_lt in E. tauto.
    + apply Nat.ltb_ge in E. split; [|lia].
      intro H. exfalso. exact (classify_slope_sufficient _ H).
  - intros Hlen _ _ slope label margin. subst label.
    rewrite (trend_of_long_series df Hlen). fold slope.
    assert (Em : margin == 1 # 1000000000) by reflexivity.
    split; [|split; [|split; [|split; [|split]]]].
    + intro H.
      destruct (classify_slope_cases slope) as [G|[G|[G|[G|G]]]];
        repeat match goal with H : _ /\ _ |- _ => destruct H end;
        match goal with H : classify_slope _ = _ |- _ => rewrite H end;
        try reflexivity; exfalso; lra.
    + intros H H'.
      destruct (classify_slope_cases slope) as [G|[G|[G|[G|G]]]];
        repeat match goal with H : _ /\ _ |- _ => destruct H end;
        match goal with H : classify_slope _ = _ |- _ => rewrite H end;
        try reflexivity; exfalso; lra.
    + intros H H'.
      destruct (classify_slope_cases slope) as [G|[G|[G|[G|G]]]];
        repeat match goal with H : _ /\ _ |- _ => destruct H end;
        match goal with H : classify_slope _ = _ |- _ => rewrite H end;
        try reflexivity; exfalso; lra.
    + intros H H'.
      destruct (classify_slope_cases slope) as [G|[G|[G|[G|G]]]];
        repeat match goal with H : _ /\ _ |- _ => destruct H end;
        match goal with H : classify_slope _ = _ |- _ => rewrite H end;
        try reflexivity; exfalso; lra.
    + intro H.
      destruct (classify_slope_cases slope) as [G|[G|[G|[G|G]]]];
        repeat match goal with H : _ /\ _ |- _ => destruct H end;
        match goal with H : classify_slope _ = _ |- _ => rewrite H end;
        try reflexivity; exfalso; lra.
    + intros Haway fitted Hf.
      apply (classify_slope_stable margin); [rewrite Em; discriminate|exact Haway|exact Hf].
  - intro fitted.
    destruct (classify_slope_cases fitted) as [G|[G|[G|[G|G]]]];
      repeat match goal with H : _ /\ _ |- _ => destruct H end;
      match goal with H : classify_slope _ = _ |- _ => rewrite H end;
      repeat split; intros; try reflexivity; try discriminate; try assumption;
      try (exfalso; lra).
Qed.

Lemma trend_label_by_slope_witness :
  (5 <= length series_rising_by_five)%nat
  /\ NoDup (map (fun r => instant_of (assessment_date r)) series_rising_by_five)
  /\ (forall r, In r series_rising_by_five -> 0 <= score r /\ score r <= 100)
  /\ (1 # 2) + (1 # 1000000000)
     <= ols_slope (map score (sort_by_assessment_date series_rising_by_five))
  /\ _calculate_improvement_trend series_rising_by_five = "Strong Improvement"%string.
Proof.
  assert (Hlen : (5 <= length series_rising_by_five)%nat) by (simpl; lia).
  assert (Hnd : NoDup (map (fun r => instant_of (assessment_date r))
                         series_rising_by_five)).
  { vm_compute. repeat constructor; simpl; intuition discriminate. }
  assert (Hsc : forall r, In r series_rising_by_five -> 0 <= score r /\ score r <= 100).
  { intros r Hr. simpl in Hr.
    destruct Hr as [<-|[<-|[<-|[<-|[<-|[]]]]]]; split; discriminate. }
  assert (Hs : (1 # 2) + (1 # 1000000000)
               <= ols_slope (map score (sort_by_assessment_date series_rising_by_five)))
    by (vm_compute; discriminate).
  split; [exact Hlen|]. split; [exact Hnd|]. split; [exact Hsc|]. split; [exact Hs|].
  exact (proj1 (proj1 (proj2 (trend_label_by_slope series_rising_by_five))
                  Hlen Hnd Hsc) Hs).
Defined.

(** C1 as stated fails at the two negative boundaries: the scores 1, 0,
    0, 1, 0, whose least-squares slope is exactly -0.1, are labelled
    "Slight Decline", not "Stable", and the scores 3, 0, 0, 1, 0, whose
    slope is exactly -0.5, are labelled "Needs Attention", not "Slight
    Decline".  So is a fitted coefficient that is the double -0.1, or
    -0.5: the tests are strict. *)
Lemma trend_negative_boundaries :
  ols_slope (map score (sort_by_assessment_date series_slope_minus_tenth)) == - (1 # 10)
  /\ _calculate_improvement_trend series_slope_minus_tenth = "Slight Decline"%string
  /\ _calculate_improvement_trend series_slope_minus_tenth <> "Stable"%string
  /\ ols_slope (map score (sort_by_assessment_date series_slope_minus_half)) == - (1 # 2)
  /\ _calculate_improvement_trend series_slope_minus_half = "Needs Attention"%string
  /\ _calculate_improvement_trend series_slope_minus_half <> "Slight Decline"%string
  /\ classify_slope (- to_double (1 # 10)) = "Slight Decline"%string
  /\ classify_slope (- (1 # 2)) = "Needs Attention"%string.
Proof.
  repeat split; try (vm_compute; reflexivity); vm_compute; discriminate.
Qed.

Example trend_end_to_end :
  ols_slope [50; 55; 60; 65; 70] == 5
  /\ _calculate_improvement_trend (series_of [50; 55; 60; 65; 70])
     = "Strong Improvement"%string
  /\ mean [50; 55; 60; 65; 70] == 60.
Proof. repeat split; vm_compute; reflexivity. Qed.

(** ** Performance predictor *)

Lemma Qltb_comp (a a' b b' : Q) : a == a' -> b == b' -> Qltb a b = Qltb a' b'.
Proof. intros Ha Hb. unfold Qltb. rewrite Ha, Hb. reflexivity. Qed.

Lemma round_half_even_comp (q q' : Q) :
  q == q' -> round_half_even q = round_half_even q'.
Proof.
  intro H. unfold round_half_even.
  assert (Hf : Qfloor q = Qfloor q') by (apply Qfloor_comp; exact H).
  rewrite Hf.
  assert (Hr : q - inject_Z (Qfloor q') == q' - inject_Z (Qfloor q'))
    by (rewrite H; reflexivity).
  rewrite (Qltb_comp _ _ (1 # 2) (1 # 2) Hr (Qeq_refl _)).
  rewrite (Qltb_comp (1 # 2) (1 # 2) _ _ (Qeq_refl _) Hr).
  reflexivity.
Qed.

Lemma round2_comp (q q' : Q) : q == q' -> round2 q == round2 q'.
Proof.
  intro H. unfold round2.
  rewrite (round_half_even_comp (q * 100) (q' * 100)) by (rewrite H; reflexivity).
  reflexivity.
Qed.

Lemma round_half_even_near (q : Q) :
  Qabs (inject_Z (round_half_even q) - q) <= 1 # 2.
Proof.
  pose proof (Qfloor_le q) as Hlo. pose proof (Qlt_floor q) as Hhi.
  rewrite inject_Z_plus in Hhi.
  replace (inject_Z 1) with 1 in Hhi by reflexivity.
  unfold round_half_even.
  destruct (Qltb (q - inject_Z (Qfloor q)) (1 # 2)) eqn:E1.
  - apply Qltb_lt in E1. apply Qabs_Qle_condition. split; lra.
  - apply Qltb_ge in E1.
    assert (Hup : Qabs (inject_Z (Qfloor q + 1) - q) <= 1 # 2).
    { rewrite inject_Z_plus. replace (inject_Z 1) with 1 by reflexivity.
      apply Qabs_Qle_condition. split; lra. }
    destruct (Qltb (1 # 2) (q - inject_Z (Qfloor q))) eqn:E2; [exact Hup|].
    apply Qltb_ge in E2.
    destruct (Z.even (Qfloor q)); [|exact Hup].
    apply Qabs_Qle_condition. split; lra.
Qed.

Lemma round2_near (q : Q) : Qabs (round2 q - q) <= 1 # 200.
Proof.
  pose proof (round_half_even_near (q * 100)) as H.
  apply Qabs_Qle_condition in H. destruct H as [H1 H2].
  unfold round2. apply Qabs_Qle_condition.
  set (n := inject_Z (round_half_even (q * 100))) in *.
  split.
  - assert (E : n / 100 - q == (n - q * 100) / 100) by field. rewrite E.
    apply Qle_shift_div_l; [reflexivity|]. lra.
  - assert (E : n / 100 - q == (n - q * 100) / 100) by field. rewrite E.
    apply Qle_shift_div_r; [reflexivity|]. lra.
Qed.

Lemma Qsum_scaled_products (a w : list Q) (c : Q) :
  Qsum (map (fun '(x, wi) => x * wi) (combine a (map (fun x => x / c) w)))
  == Qsum (map (fun '(x, wi) => x * wi) (combine a w)) / c.
Proof.
  revert w. induction a as [|x a IH]; intros [|y w]; simpl;
    try (unfold Qdiv; ring).
  rewrite IH. unfold Qdiv. ring.
Qed.

Lemma Qsum_scaled (w : list Q) (c : Q) :
  Qsum (map (fun x => x / c) w) == Qsum w / c.
Proof.
  induction w as [|y w IH]; simpl; [unfold Qdiv; ring|].
  rewrite IH. unfold Qdiv. ring.
Qed.

(** Dividing the weights by their sum before averaging changes nothing. *)
Lemma np_average_normalized (a w : list Q) :
  ~ Qsum w == 0 ->
  np_average a (map (fun x => x / Qsum w) w)
  == Qsum (map (fun '(x, wi) => x * wi) (combine a w)) / Qsum w.
Proof.
  intro H. unfold np_average.
  rewrite Qsum_scaled_products, Qsum_scaled. field. assumption.
Qed.

Lemma tail_length {A : Type} (n : nat) (l : list A) :
  length (tail n l) = Nat.min n (length l).
Proof. unfold tail. rewrite length_skipn. lia. Qed.

Lemma weight_prefix_positive (n : nat) :
  (1 <= n)%nat -> 0 < Qsum (firstn n weight_vector).
Proof.
  intro H. do 6 (destruct n as [|n]; [try lia; reflexivity|]).
  reflexivity.
Qed.

Lemma predict_short (tb : Tables) (sid subj : string) :
  (length (subject_data sid subj (assessments tb)) < 3)%nat ->
  run (predict_performance sid subj) tb
  = Returns (mkPrediction None "Low" (Some "Insufficient data"%string) None).
Proof.
  intro H. apply Nat.ltb_lt in H.
  unfold run, predict_performance, bind, get_assessments. simpl.
  rewrite H. reflexivity.
Qed.

Lemma predict_long (tb : Tables) (sid subj : string) :
  (3 <= length (subject_data sid subj (assessments tb)))%nat ->
  run (predict_performance sid subj) tb
  = let window := recent_window sid subj tb in
    let w := firstn (length window) weight_vector in
    Returns (mkPrediction
               (Some (round2 (np_average window (map (fun x => x / Qsum w) w))))
               (confidence_label (ndarray_std window)) None
               (Some (_calculate_improvement_trend
                        (sort_by_assessment_date
                           (subject_data sid subj (assessments tb)))))).
Proof.
  intro H. apply Nat.ltb_ge in H.
  unfold run, predict_performance, bind, get_assessments. simpl.
  rewrite H. reflexivity.
Qed.

Lemma recent_window_length (tb : Tables) (sid subj : string) :
  length (recent_window sid subj tb)
  = Nat.min 5 (length (subject_data sid subj (assessments tb))).
Proof.
  unfold recent_window, sort_by_assessment_date.
  rewrite length_map, tail_length, sort_by_length. reflexivity.
Qed.

Lemma np_average_prefix (window : list Q) :
  (1 <= length window)%nat ->
  let w := firstn (length window) weight_vector in
  np_average window (map (fun x => x / Qsum w) w) == prefix_weighted window.
Proof.
  intros H w. unfold prefix_weighted. fold w.
  apply np_average_normalized.
  pose proof (weight_prefix_positive (length window) H) as Hp. fold w in Hp.
  intro E. rewrite E in Hp. discriminate Hp.
Qed.

(** C2, as the code has it: with at least 3 observations, on pairwise
    distinct dates, the prediction is the weighted average of the most
    recent up to 5 scores, rounded to two decimals (so within 0.005 of
    it), where the weights are the first [len(window)] entries of
    [0.1, 0.15, 0.2, 0.25, 0.3] renormalised to sum to 1.  With three
    scores a, b, c the weighted average is (2a + 3b + 4c) / 9. *)
Theorem prediction_uses_weight_prefix (tb : Tables) (sid subj : string) :
  (3 <= length (subject_data sid subj (assessments tb)))%nat ->
  NoDup (map (fun r => instant_of (assessment_date r))
           (subject_data sid subj (assessments tb))) ->
  let window := recent_window sid subj tb in
  length window = Nat.min 5 (length (subject_data sid subj (assessments tb)))
  /\ (exists earlier,
        map score (sort_by_assessment_date (subject_data sid subj (assessments tb)))
        = earlier ++ window)
  /\ (exists p v,
        run (predict_performance sid subj) tb = Returns p
        /\ prediction p = Some v
        /\ Qabs (v - prefix_weighted window) <= 1 # 200)
  /\ (forall a b c : Q, prefix_weighted [a; b; c] == (2 * a + 3 * b + 4 * c) / 9)
  /\ (forall a b c d : Q,
        prefix_weighted [a; b; c; d] == (2 * a + 3 * b + 4 * c + 5 * d) / 14)
  /\ (forall a b c d e : Q,
        prefix_weighted [a; b; c; d; e]
        == (2 * a + 3 * b + 4 * c + 5 * d + 6 * e) / 20).
Proof.
  intros H _ window. split; [apply recent_window_length|]. split; [|split].
  - unfold window, recent_window, tail.
    eexists. rewrite <- map_app. rewrite firstn_skipn. reflexivity.
  - rewrite (predict_long tb sid subj H). cbv zeta. fold window.
    eexists. eexists. split; [reflexivity|]. split; [reflexivity|].
    assert (E : np_average window
                  (map (fun x => x / Qsum (firstn (length window) weight_vector))
                     (firstn (length window) weight_vector))
                == prefix_weighted window).
    { apply np_average_prefix. unfold window. rewrite recent_window_length. lia. }
    rewrite (round2_comp _ _ E). apply round2_near.
  - repeat split; intros; unfold prefix_weighted; simpl; field.
Qed.

Lemma prediction_uses_weight_prefix_witness :
  (3 <= length (subject_data "STU001" "Mathematics" (assessments tables_60_70_80)))%nat
  /\ NoDup (map (fun r => instant_of (assessment_date r))
              (subject_data "STU001" "Mathematics" (assessments tables_60_70_80)))
  /\ exists p v,
       run (predict_performance "STU001" "Mathematics") tables_60_70_80 = Returns p
       /\ prediction p = Some v
       /\ Qabs (v - prefix_weighted
                      (recent_window "STU001" "Mathematics" tables_60_70_80))
          <= 1 # 200.
Proof.
  assert (H : (3 <= length (subject_data "STU001" "Mathematics"
                              (assessments tables_60_70_80)))%nat)
    by (simpl; lia).
  assert (Hnd : NoDup (map (fun r => instant_of (assessment_date r))
                         (subject_data "STU001" "Mathematics"
                            (assessments tables_60_70_80)))).
  { vm_compute. repeat constructor; simpl; intuition discriminate. }
  split; [exact H|]. split; [exact Hnd|].
  exact (proj1 (proj2 (proj2 (prediction_uses_weight_prefix tables_60_70_80
                                "STU001" "Mathematics" H Hnd)))).
Defined.

(** C2 as stated fails on the scores 60, 70, 80: the code weights them
    with the first three entries of the vector and returns 72.22; the last
    three entries would give 71.33 (and the plain mean is 70), more than
    0.005 away. *)
Lemma prediction_is_not_suffix_weighted :
  recent_window "STU001" "Mathematics" tables_60_70_80 = [60; 70; 80]
  /\ run (predict_performance "STU001" "Mathematics") tables_60_70_80
     = Returns (mkPrediction (Some (7222 # 100)) "Medium" None
                  (Some "Insufficient Data"%string))
  /\ suffix_weighted [60; 70; 80] == 214 # 3
  /\ round2 (suffix_weighted [60; 70; 80]) == 7133 # 100
  /\ ~ 7222 # 100 == suffix_weighted [60; 70; 80]
  /\ ~ 7222 # 100 == round2 (suffix_weighted [60; 70; 80])
  /\ ~ Qabs ((7222 # 100) - suffix_weighted [60; 70; 80]) <= 1 # 200
  /\ ~ 7222 # 100 == mean [60; 70; 80].
Proof.
  repeat split; try (vm_compute; reflexivity); try (vm_compute; discriminate).
  intro H. apply H. reflexivity.
Qed.

(** C8: with fewer than 3 observations of the student in the subject,
    [predict_performance] returns (it does not raise) the result whose
    prediction is absent and whose confidence is "Low". *)
Theorem prediction_needs_three_points (tb : Tables) (sid subj : string) :
  (length (subject_data sid subj (assessments tb)) < 3)%nat ->
  exists p,
    run (predict_performance sid subj) tb = Returns p
    /\ prediction p = None
    /\ confidence p = "Low"%string
    /\ message p = Some "Insufficient data"%string
    /\ recent_trend p = None.
Proof.
  intro H. rewrite (predict_short tb sid subj H).
  eexists. split; [reflexivity|]. repeat split.
Qed.

Lemma prediction_needs_three_points_witness :
  (length (subject_data "STU001" "Mathematics" (assessments tables_one_weak_topic)) < 3)%nat
  /\ exists p,
       run (predict_performance "STU001" "Mathematics") tables_one_weak_topic = Returns p
       /\ prediction p = None
       /\ confidence p = "Low"%string
       /\ message p = Some "Insufficient data"%string
       /\ recent_trend p = None.
Proof.
  assert (H : (length (subject_data "STU001" "Mathematics"
                         (assessments tables_one_weak_topic)) < 3)%nat)
    by (simpl; lia).
  split; [exact H|].
  exact (prediction_needs_three_points tables_one_weak_topic "STU001" "Mathematics" H).
Defined.

(** ** Standard deviations *)

Lemma confidence_label_cases (v : Q) :
  (confidence_label (Root v) = "High"%string <-> v < 25)
  /\ (confidence_label (Root v) = "Medium"%string <-> 25 <= v /\ v < 100)
  /\ (confidence_label (Root v) = "Low"%string <-> 100 <= v).
Proof.
  unfold confidence_label, std_ltb.
  assert (E5 : 5 * 5 == 25) by reflexivity.
  assert (E10 : 10 * 10 == 100) by reflexivity.
  rewrite (Qltb_comp v v (5 * 5) 25 (Qeq_refl _) E5).
  rewrite (Qltb_comp v v (10 * 10) 100 (Qeq_refl _) E10).
  destruct (Qltb v 25) eqn:E1.
  - apply Qltb_lt in E1. repeat split; intros; try discriminate; try assumption; lra.
  - apply Qltb_ge in E1. destruct (Qltb v 100) eqn:E2.
    + apply Qltb_lt in E2.
      repeat split; intros; try discriminate; try assumption; lra.
    + apply Qltb_ge in E2.
      repeat split; intros; try discriminate; try assumption; lra.
Qed.



(** ** Grouping *)

Section GroupingFacts.
Context {A K : Type} (keqb kleb : K -> K -> bool) (key : A -> K).
Hypothesis keqb_eq : forall a b, keqb a b = true <-> a = b.

Lemma insert_unique_In (k x : K) (l : list K) :
  In x (insert_unique keqb kleb k l) <-> x = k \/ In x l.
Proof.
  induction l as [|h t IH]; simpl.
  - intuition.
  - destruct (keqb k h) eqn:E.
    + apply keqb_eq in E. subst. simpl. intuition.
    + destruct (kleb k h); simpl; [intuition|].
      rewrite IH. intuition.
Qed.

Lemma group_keys_In (rows : list A) (k : K) :
  In k (group_keys keqb kleb key rows) <-> exists r, In r rows /\ key r = k.
Proof.
  unfold group_keys. induction rows as [|r rows IH]; simpl.
  - split; [tauto|intros [r [[] _]]].
  - rewrite insert_unique_In, IH. split.
    + intros [->|[r' [Hin Hk]]]; [exists r; auto|exists r'; auto].
    + intros [r' [[->|Hin] Hk]]; [left; auto|right; exists r'; auto].
Qed.

Lemma groupby_In (rows : list A) (k : K) (g : list A) :
  In (k, g) (groupby keqb kleb key rows) <->
  (exists r, In r rows /\ key r = k) /\ g = filter (fun r => keqb (key r) k) rows.
Proof.
  unfold groupby. rewrite in_map_iff. split.
  - intros [k' [E Hin]]. inversion E; subst. split; [|reflexivity].
    apply group_keys_In. assumption.
  - intros [Hk ->]. exists k. split; [reflexivity|]. apply group_keys_In. assumption.
Qed.

Lemma groupby_group_nonempty (rows : list A) (k : K) (g : list A) :
  In (k, g) (groupby keqb kleb key rows) -> (1 <= length g)%nat.
Proof.
  intro H. apply groupby_In in H. destruct H as [[r [Hin Hk]] ->].
  assert (Hr : In r (filter (fun r => keqb (key r) k) rows)).
  { apply filter_In. split; [assumption|]. apply keqb_eq. assumption. }
  destruct (filter (fun r => keqb (key r) k) rows); [destruct Hr|simpl; lia].
Qed.

Lemma groupby_nonempty (rows : list A) :
  (1 <= length rows)%nat -> (1 <= length (groupby keqb kleb key rows))%nat.
Proof.
  intro H. destruct rows as [|r rows]; [simpl in H; lia|].
  assert (Hk : In (key r) (group_keys keqb kleb key (r :: rows))).
  { apply group_keys_In. exists r. simpl. auto. }
  unfold groupby. rewrite length_map.
  destruct (group_keys keqb kleb key (r :: rows)); [destruct Hk|simpl; lia].
Qed.

Hypothesis kleb_total : forall a b, kleb a b = true \/ kleb b a = true.
Hypothesis kleb_trans : forall a b c, kleb a b = true -> kleb b c = true -> kleb a c = true.
Hypothesis kleb_antisym : forall a b, kleb a b = true -> kleb b a = true -> a = b.

(** Strictly before, in key order. *)
Let before (a b : K) : Prop := kleb a b = true /\ a <> b.

Lemma insert_unique_sorted (k : K) (l : list K) :
  StronglySorted before l -> StronglySorted before (insert_unique keqb kleb k l).
Proof.
  induction 1 as [|h t Hs IH Hall]; simpl.
  - repeat constructor.
  - destruct (keqb k h) eqn:E; [constructor; assumption|].
    assert (Hne : k <> h).
    { intro Heq. apply keqb_eq in Heq. congruence. }
    destruct (kleb k h) eqn:E'.
    + constructor; [constructor; assumption|].
      constructor; [split; assumption|].
      rewrite Forall_forall in *. intros x Hx. destruct (Hall x Hx) as [Hhx Hnx].
      split; [eapply kleb_trans; eassumption|].
      intro Heq. subst x. apply Hne. apply kleb_antisym; assumption.
    + constructor; [exact IH|].
      rewrite Forall_forall in *. intros x Hx.
      apply insert_unique_In in Hx. destruct Hx as [->|Hx]; [|apply Hall; assumption].
      split; [|congruence].
      destruct (kleb_total k h); congruence.
Qed.

Lemma group_keys_sorted (rows : list A) :
  StronglySorted before (group_keys keqb kleb key rows).
Proof.
  unfold group_keys. induction rows as [|r rows IH]; simpl.
  - constructor.
  - apply insert_unique_sorted. exact IH.
Qed.

Lemma strictly_sorted_NoDup (l : list K) : StronglySorted before l -> NoDup l.
Proof.
  induction 1 as [|h t Hs IH Hall]; constructor; [|exact IH].
  intro Hin. rewrite Forall_forall in Hall. destruct (Hall h Hin) as [_ Hne].
  apply Hne. reflexivity.
Qed.

(** One group per key. *)
Lemma groupby_keys_NoDup (rows : list A) :
  NoDup (map fst (groupby keqb kleb key rows)).
Proof.
  unfold groupby. rewrite map_map. simpl. rewrite map_id.
  apply strictly_sorted_NoDup, group_keys_sorted.
Qed.

End GroupingFacts.

(** The order on strings and on (subject, topic) pairs is total. *)
Lemma string_leb_iff (a b : string) :
  String.leb a b = true <-> a = b \/ String_as_OT.lt a b.
Proof.
  unfold String.leb. destruct (String.compare a b) eqn:E.
  - apply String_as_OT.cmp_eq in E. intuition.
  - apply String_as_OT.cmp_lt in E. intuition.
  - split; [discriminate|]. intros [->|H].
    + assert (E' : String_as_OT.cmp b b = Eq) by (apply String_as_OT.cmp_eq; reflexivity).
      unfold String_as_OT.cmp in E'. congruence.
    + apply String_as_OT.cmp_lt in H. unfold String_as_OT.cmp in H. congruence.
Qed.

Lemma string_leb_trans (a b c : string) :
  String.leb a b = true -> String.leb b c = true -> String.leb a c = true.
Proof.
  rewrite !string_leb_iff. intros [->|H1] [->|H2]; auto.
  right. eapply String_as_OT.lt_trans; eassumption.
Qed.

Lemma pair_leb_total (a b : string * string) :
  pair_leb a b = true \/ pair_leb b a = true.
Proof.
  destruct a as [a1 a2], b as [b1 b2]. unfold pair_leb. simpl.
  rewrite (String.eqb_sym b1 a1).
  destruct (a1 =? b1)%string; apply String.leb_total.
Qed.

Lemma pair_leb_antisym (a b : string * string) :
  pair_leb a b = true -> pair_leb b a = true -> a = b.
Proof.
  destruct a as [a1 a2], b as [b1 b2]. unfold pair_leb. simpl.
  rewrite (String.eqb_sym b1 a1).
  destruct (a1 =? b1)%string eqn:E.
  - apply String.eqb_eq in E. subst. intros H1 H2.
    rewrite (String.leb_antisym _ _ H1 H2). reflexivity.
  - intros H1 H2. apply String.eqb_neq in E.
    exfalso. apply E. apply String.leb_antisym; assumption.
Qed.

Lemma pair_leb_trans (a b c : string * string) :
  pair_leb a b = true -> pair_leb b c = true -> pair_leb a c = true.
Proof.
  destruct a as [a1 a2], b as [b1 b2], c as [c1 c2]. unfold pair_leb. simpl.
  destruct (a1 =? b1)%string eqn:E1.
  - apply String.eqb_eq in E1. subst b1.
    destruct (a1 =? c1)%string; [apply string_leb_trans|auto].
  - apply String.eqb_neq in E1.
    destruct (b1 =? c1)%string eqn:E2.
    + apply String.eqb_eq in E2. subst c1.
      apply String.eqb_neq in E1. rewrite E1. auto.
    + intros H1 H2. destruct (a1 =? c1)%string eqn:E3.
      * apply String.eqb_eq in E3. subst c1.
        exfalso. apply E1. apply String.leb_antisym; assumption.
      * eapply string_leb_trans; eassumption.
Qed.

Lemma pair_eqb_eq (a b : string * string) : pair_eqb a b = true <-> a = b.
Proof.
  destruct a as [a1 a2], b as [b1 b2]. unfold pair_eqb. simpl.
  rewrite andb_true_iff, !String.eqb_eq. split.
  - intros [-> ->]. reflexivity.
  - intro E. inversion E. auto.
Qed.

(** ** Performance summary *)

Lemma subject_means_nonempty (df : list Assessment) :
  (1 <= length df)%nat -> exists kv l, subject_means df = kv :: l.
Proof.
  intro H. unfold subject_means.
  pose proof (groupby_nonempty String.eqb String.leb subject String.eqb_eq df H) as Hg.
  destruct (groupby String.eqb String.leb subject df) as [|[k rows] l];
    [simpl in Hg; lia|].
  simpl. eexists. eexists. reflexivity.
Qed.

Lemma summary_none (tb : Tables) (sid : string) :
  length (assessments_of sid (assessments tb)) = 0%nat ->
  run (get_student_performance_summary sid) tb = Returns None.
Proof.
  intro H. unfold run, get_student_performance_summary, bind, get_assessments,
    get_sessions. simpl. rewrite H. reflexivity.
Qed.

Lemma summary_some (tb : Tables) (sid : string) :
  (1 <= length (assessments_of sid (assessments tb)))%nat ->
  exists s,
    run (get_student_performance_summary sid) tb = Returns (Some s)
    /\ summary_student_id s = sid
    /\ total_assessments s = length (assessments_of sid (assessments tb))
    /\ average_score s = Series_mean (map score (assessments_of sid (assessments tb)))
    /\ score_std s = Series_std (map score (assessments_of sid (assessments tb)))
    /\ total_study_time s
       = wrap_int64
           (fold_right Z.add 0%Z (map duration_minutes (sessions_of sid (sessions tb))))
    /\ completion_rate s
       = fnum_scale
           (Series_mean (bool_column (map completed (sessions_of sid (sessions tb)))))
           100
    /\ improvement_trend s
       = _calculate_improvement_trend (assessments_of sid (assessments tb)).
Proof.
  intro H.
  destruct (subject_means_nonempty _ H) as [kv [l E]].
  unfold run, get_student_performance_summary, bind, get_assessments,
    get_sessions, lift, ret. cbv beta iota.
  destruct (length (assessments_of sid (assessments tb)) =? 0)%nat eqn:E0;
    [apply Nat.eqb_eq in E0; lia|].
  rewrite E. unfold idxmax, idxmin. cbv beta iota.
  eexists. split; [reflexivity|]. repeat split.
Qed.




(** ** Engagement *)

Lemma Qsum_bool_column (l : list bool) :
  Qsum (bool_column l) == Qlen (filter (fun b => b) l).
Proof.
  unfold Qlen. induction l as [|b l IH]; simpl; [reflexivity|].
  rewrite IH. destruct b; simpl length; [|ring].
  rewrite Nat2Z.inj_succ. unfold Z.succ. rewrite inject_Z_plus. ring.
Qed.

Lemma analyze_engagement_value (tb : Tables) :
  _analyze_engagement tb
  = (Returns
       (mkEngagement (length (sessions tb))
          (round2
             (if (0 <? length (sessions tb))%nat
              then Qsum (bool_column (map completed (sessions tb)))
                   / Qlen (sessions tb) * 100
              else 0))
          (fnum_round2 (Series_mean (Z_column (map duration_minutes (sessions tb)))))),
     tb).
Proof.
  unfold _analyze_engagement, bind, get_sessions, lift, ret, true_divide.
  cbv beta iota.
  destruct (sessions tb) as [|s l] eqn:E; [reflexivity|].
  replace (0 <? length (s :: l))%nat with true by reflexivity.
  assert (H : Qeq_bool (Qlen (s :: l)) 0 = false).
  { destruct (Qeq_bool (Qlen (s :: l)) 0) eqn:E0; [|reflexivity].
    apply Qeq_bool_eq in E0. unfold Qlen in E0.
    assert (H0 : inject_Z 0 < inject_Z (Z.of_nat (length (s :: l)))).
    { rewrite <- Zlt_Qlt. simpl length. lia. }
    rewrite E0 in H0. discriminate H0. }
  rewrite H. reflexivity.
Qed.

Lemma run_engagement (tb : Tables) :
  run _analyze_engagement tb
  = Returns
      (mkEngagement (length (sessions tb))
         (round2
            (if (0 <? length (sessions tb))%nat
             then Qsum (bool_column (map completed (sessions tb)))
                  / Qlen (sessions tb) * 100
             else 0))
         (fnum_round2 (Series_mean (Z_column (map duration_minutes (sessions tb)))))).
Proof. unfold run. rewrite analyze_engagement_value. reflexivity. Qed.

(** The number of completed sessions of a table. *)
Lemma completed_sessions_count (l : list Session) :
  Qsum (bool_column (map completed l)) == Qlen (filter completed l).
Proof.
  rewrite Qsum_bool_column. unfold Qlen.
  replace (length (filter (fun b : bool => b) (map completed l)))
    with (length (filter completed l)); [reflexivity|].
  induction l as [|s l IH]; simpl; [reflexivity|].
  destruct (completed s); simpl; rewrite IH; reflexivity.
Qed.

Lemma engagement_no_sessions (tb : Tables) :
  sessions tb = [] ->
  exists e,
    run _analyze_engagement tb = Returns e /\ engagement_completion_rate e == 0.
Proof.
  intro H. rewrite run_engagement, H. eexists. split; [reflexivity|].
  vm_compute. reflexivity.
Qed.

(** C9, as the code has it: the class engagement metrics are always
    returned; with no session the completion rate is 0 (the quotient is
    taken only behind the test [total_sessions > 0]); with sessions it is
    completed / total * 100 rounded to two decimals, so within 0.005 of
    that ratio. *)
Theorem class_completion_rate (tb : Tables) :
  exists e,
    run _analyze_engagement tb = Returns e
    /\ total_sessions e = length (sessions tb)
    /\ (sessions tb = [] -> engagement_completion_rate e == 0)
    /\ ((1 <= length (sessions tb))%nat ->
        let ratio := Qlen (filter completed (sessions tb)) / Qlen (sessions tb) * 100 in
        Qabs (engagement_completion_rate e - ratio) <= 1 # 200).
Proof.
  rewrite run_engagement. eexists. split; [reflexivity|].
  split; [reflexivity|]. cbn [engagement_completion_rate]. split.
  - intros ->. vm_compute. reflexivity.
  - intros H. cbv zeta.
    set (ratio := Qlen (filter completed (sessions tb)) / Qlen (sessions tb) * 100).
    destruct (0 <? length (sessions tb))%nat eqn:E;
      [|apply Nat.ltb_ge in E; lia].
    assert (Hx : Qsum (bool_column (map completed (sessions tb)))
                 / Qlen (sessions tb) * 100 == ratio).
    { unfold ratio. rewrite completed_sessions_count. reflexivity. }
    rewrite (round2_comp _ _ Hx). apply round2_near.
Qed.

Lemma class_completion_rate_witness :
  (1 <= length (sessions tables_three_sessions))%nat
  /\ exists e,
       run _analyze_engagement tables_three_sessions = Returns e
       /\ Qabs (engagement_completion_rate e - 1 / 3 * 100) <= 1 # 200.
Proof.
  split; [simpl; lia|].
  destruct (class_completion_rate tables_three_sessions) as [e [Hr [_ [_ H]]]].
  exists e. split; [exact Hr|].
  assert (Hlen : (1 <= length (sessions tables_three_sessions))%nat) by (simpl; lia).
  exact (H Hlen).
Defined.

(** C9 as stated fails with one completed session out of three: the
    metric is 33.33, not 100/3. *)
Lemma completion_rate_is_rounded :
  length (sessions tables_three_sessions) = 3%nat
  /\ length (filter completed (sessions tables_three_sessions)) = 1%nat
  /\ (exists e,
        run _analyze_engagement tables_three_sessions = Returns e
        /\ engagement_completion_rate e == 3333 # 100
        /\ ~ engagement_completion_rate e == 1 / 3 * 100).
Proof.
  split; [reflexivity|]. split; [reflexivity|].
  eexists. split; [vm_compute; reflexivity|].
  split; [vm_compute; reflexivity|vm_compute; discriminate].
Qed.

(** C10: a student with at least one assessment and no study session
    still gets a summary; its total_study_time is 0 and its
    completion_rate is NaN (the mean of an empty column, times 100), not
    0.  The class-level metric, on a table without sessions, is 0: the
    test it makes is not made per student. *)
Theorem summary_without_sessions (tb : Tables) (sid : string) :
  (1 <= length (assessments_of sid (assessments tb)))%nat ->
  sessions_of sid (sessions tb) = [] ->
  (exists s,
     run (get_student_performance_summary sid) tb = Returns (Some s)
     /\ total_study_time s = 0%Z
     /\ completion_rate s = NaN
     /\ completion_rate s <> Fin 0)
  /\ (sessions tb = [] ->
      exists e,
        run _analyze_engagement tb = Returns e
        /\ engagement_completion_rate e == 0).
Proof.
  intros Ha Hs. split.
  - destruct (summary_some tb sid Ha) as [s [Hrun [_ [_ [_ [_ [Ht [Hc _]]]]]]]].
    exists s. rewrite Hs in Ht, Hc. simpl in Hc.
    split; [exact Hrun|]. split; [rewrite Ht; reflexivity|]. split; [exact Hc|].
    rewrite Hc. discriminate.
  - apply engagement_no_sessions.
Qed.

Lemma summary_without_sessions_witness :
  (1 <= length (assessments_of "STU001" (assessments tables_60_70_80)))%nat
  /\ sessions_of "STU001" (sessions tables_60_70_80) = []
  /\ exists s,
       run (get_student_performance_summary "STU001") tables_60_70_80
       = Returns (Some s)
       /\ total_study_time s = 0%Z
       /\ completion_rate s = NaN
       /\ completion_rate s <> Fin 0.
Proof.
  assert (Ha : (1 <= length (assessments_of "STU001"
                               (assessments tables_60_70_80)))%nat)
    by (simpl; lia).
  assert (Hs : sessions_of "STU001" (sessions tables_60_70_80) = [])
    by reflexivity.
  split; [exact Ha|]. split; [exact Hs|].
  exact (proj1 (summary_without_sessions tables_60_70_80 "STU001" Ha Hs)).
Defined.

(** ** Topic classifier *)

Lemma Sorted_weaken {A : Type} (R R' : A -> A -> Prop) (l : list A) :
  (forall a b, R a b -> R' a b) -> Sorted R l -> Sorted R' l.
Proof.
  intros HR. induction 1 as [|x l Hs IH Hhd]; constructor.
  - exact IH.
  - destruct Hhd; constructor. apply HR. assumption.
Qed.

Lemma Qle_bool_total (a b : Q) : Qle_bool a b = true \/ Qle_bool b a = true.
Proof.
  destruct (Qlt_le_dec b a) as [H|H].
  - right. apply Qle_bool_iff. apply Qlt_le_weak. exact H.
  - left. apply Qle_bool_iff. exact H.
Qed.

Lemma run_weak (tb : Tables) (sid : string) (th : Q) :
  run (identify_weak_topics sid th) tb
  = Returns
      (sort_by (fun a b => Qle_bool (avg_score a) (avg_score b))
         (filter (fun r => Qltb (avg_score r) th)
            (topic_performance (assessments_of sid (assessments tb))))).
Proof. reflexivity. Qed.

Lemma run_strong (tb : Tables) (sid : string) (th : Q) :
  run (identify_strong_topics sid th) tb
  = Returns
      (sort_by (fun a b => Qle_bool (avg_score b) (avg_score a))
         (filter (fun r => Qle_bool th (avg_score r))
            (topic_performance (assessments_of sid (assessments tb))))).
Proof. reflexivity. Qed.

Lemma weak_topics_sorted (tb : Tables) (sid : string) (th : Q) (weak : list TopicRecord) :
  run (identify_weak_topics sid th) tb = Returns weak ->
  Sorted (fun a b => avg_score a <= avg_score b) weak.
Proof.
  rewrite run_weak. intro H. inversion H; subst.
  apply (Sorted_weaken (fun a b => Qle_bool (avg_score a) (avg_score b) = true)).
  - intros a b Hab. apply Qle_bool_iff. exact Hab.
  - apply sort_by_sorted. intros a b. apply Qle_bool_total.
Qed.



(** A row of the per-topic frame is the aggregate of one (subject, topic)
    pair the student has attempted. *)
Lemma topic_performance_In (student_data : list Assessment) (r : TopicRecord) :
  In r (topic_performance student_data) <->
  let rows :=
    filter (fun a => pair_eqb (subject a, topic a) (topic_subject r, topic_name r))
           student_data in
  (1 <= length rows)%nat
  /\ avg_score r = mean (map score rows)
  /\ topic_attempts r = length rows.
Proof.
  unfold topic_performance. rewrite in_map_iff. cbv zeta. split.
  - intros [[k g] [E Hin]]. subst r. simpl.
    pose proof (groupby_group_nonempty _ _ _ pair_eqb_eq _ _ _ Hin) as Hne.
    apply (groupby_In _ _ _ pair_eqb_eq) in Hin. destruct Hin as [_ Hg].
    destruct k as [k1 k2]. simpl. rewrite <- Hg. auto.
  - intros [Hne [Hm Hc]].
    exists ((topic_subject r, topic_name r),
            filter (fun a => pair_eqb (subject a, topic a) (topic_subject r, topic_name r))
              student_data).
    split.
    + destruct r as [s t m c]. simpl in *. subst. reflexivity.
    + apply (groupby_In _ _ _ pair_eqb_eq). split; [|reflexivity].
      destruct (filter (fun a => pair_eqb (subject a, topic a)
                                   (topic_subject r, topic_name r)) student_data)
        as [|a l] eqn:E; [simpl in Hne; lia|].
      assert (Ha : In a (a :: l)) by (left; reflexivity).
      rewrite <- E in Ha. apply filter_In in Ha. destruct Ha as [Ha Hk].
      exists a. split; [exact Ha|]. apply pair_eqb_eq. exact Hk.
Qed.



Example weak_threshold_is_strict :
  run (identify_weak_topics "STU001" 70) tables_60_70_80 = Returns []
  /\ (exists r, topic_performance (assessments_of "STU001" (assessments tables_60_70_80))
                = [r] /\ avg_score r == 70).
Proof.
  split; [reflexivity|]. eexists. split; [reflexivity|]. vm_compute. reflexivity.
Qed.

(** ** Recommendation engine *)

Lemma to_double_comp (q q' : Q) : q == q' -> to_double q = to_double q'.
Proof.
  intro H. unfold to_double. rewrite (Qred_complete q q' H). reflexivity.
Qed.

(** The nearest double is within half a unit in the last place. *)
Lemma log2_bounds (n : Z) :
  (0 < n)%Z -> 2 ^ Z.log2 n <= inject_Z n /\ inject_Z n < 2 * 2 ^ Z.log2 n.
Proof.
  intro H. destruct (Z.log2_spec n H) as [H1 H2].
  pose proof (Z.log2_nonneg n) as H0.
  rewrite Z.pow_succ_r in H2 by exact H0.
  split.
  - rewrite Zle_Qle in H1. rewrite Zpower_Qpower in H1 by exact H0. exact H1.
  - rewrite Zlt_Qlt in H2. rewrite inject_Z_mult, Zpower_Qpower in H2 by exact H0.
    exact H2.
Qed.

Lemma to_double_scaled (a : Q) :
  0 < a ->
  let e0 := (Z.log2 (Qnum a) - Z.log2 (Zpos (Qden a)) - 52)%Z in
  2 ^ 51 <= a / 2 ^ e0.
Proof.
  intros Ha e0.
  assert (Hn : (0 < Qnum a)%Z).
  { unfold Qlt in Ha. simpl in Ha. lia. }
  destruct (log2_bounds (Qnum a) Hn) as [Hn1 _].
  destruct (log2_bounds (Zpos (Qden a)) eq_refl) as [_ Hd2].
  set (x := 2 ^ Z.log2 (Qnum a)) in *.
  set (y := 2 ^ Z.log2 (Zpos (Qden a))) in *.
  assert (Hx : 0 < x) by (apply Qpower_0_lt; reflexivity).
  assert (Hy : 0 < y) by (apply Qpower_0_lt; reflexivity).
  assert (H2 : ~ 2 == 0) by discriminate.
  assert (He : 2 ^ e0 == x / y / 2 ^ 52).
  { unfold e0. rewrite !Qpower_minus by exact H2. reflexivity. }
  rewrite He.
  assert (Ea : a == inject_Z (Qnum a) / inject_Z (Zpos (Qden a))).
  { destruct a as [n d]. simpl. apply Qmake_Qdiv. }
  set (N := inject_Z (Qnum a)) in *. set (D := inject_Z (Zpos (Qden a))) in *.
  assert (HD : 0 < D) by reflexivity.
  rewrite Ea.
  assert (E : N / D / (x / y / 2 ^ 52) == (N / x) * (y / D) * 2 ^ 52).
  { field. repeat split; intro E0; first [lra | discriminate E0]. }
  rewrite E.
  assert (H1 : 1 <= N / x) by (apply Qle_shift_div_l; [exact Hx|lra]).
  assert (H3 : 1 # 2 <= y / D) by (apply Qle_shift_div_l; [exact HD|lra]).
  assert (E52 : (2:Q) ^ 52 == 2 * 2 ^ 51) by reflexivity.
  assert (P51 : 0 < (2:Q) ^ 51) by reflexivity.
  set (u := N / x) in *. set (v := y / D) in *. 
  assert (Hm : 1 # 2 <= u * v).
  { assert (0 <= (u - 1) * v) by (apply Qmult_le_0_compat; lra). lra. }
  rewrite E52. set (w := (2:Q) ^ 51) in *.
  assert (0 <= (u * v - (1 # 2)) * (2 * w)) by (apply Qmult_le_0_compat; lra).
  lra.
Qed.

Lemma to_double_near (q : Q) :
  Qabs (to_double q - q) <= Qabs q * (1 # 9007199254740992).
Proof.
  unfold to_double.
  pose proof (Qred_correct q) as Hr. set (r := Qred q) in *.
  destruct (Qeq_bool r 0) eqn:E0.
  { apply Qeq_bool_eq in E0. rewrite <- Hr, E0. discriminate. }
  assert (Hr0 : ~ r == 0) by (apply Qeq_bool_neq; exact E0).
  set (a := Qabs r).
  assert (Ha : 0 < a).
  { unfold a. destruct (Qlt_le_dec 0 (Qabs r)) as [H|H]; [exact H|].
    exfalso. apply Hr0. apply Qabs_Qle_condition in H. lra. }
  pose proof (to_double_scaled a Ha) as H51. cbv zeta in H51.
  set (e0 := (Z.log2 (Qnum a) - Z.log2 (Z.pos (Qden a)) - 52)%Z) in *.
  set (e := if Qltb (a / 2 ^ e0) (2 ^ 52) then (e0 - 1)%Z else e0).
  assert (Hpe : 0 < 2 ^ e) by (apply Qpower_0_lt; reflexivity).
  assert (H52 : 2 ^ 52 <= a / 2 ^ e).
  { unfold e. destruct (Qltb (a / 2 ^ e0) (2 ^ 52)) eqn:El.
    - assert (E1 : 2 ^ (e0 - 1) == 2 ^ e0 / 2).
      { rewrite Qpower_minus by discriminate. reflexivity. }
      rewrite E1.
      assert (Hp0 : 0 < 2 ^ e0) by (apply Qpower_0_lt; reflexivity).
      assert (E2 : a / (2 ^ e0 / 2) == 2 * (a / 2 ^ e0)).
      { field. intro Z0. rewrite Z0 in Hp0. discriminate. }
      rewrite E2.
      assert (E52 : (2:Q) ^ 52 == 2 * 2 ^ 51) by reflexivity.
      rewrite E52. lra.
    - apply Qltb_ge in El. exact El. }
  set (m := round_half_even (a / 2 ^ e)).
  pose proof (round_half_even_near (a / 2 ^ e)) as Hm. fold m in Hm.
  rewrite Qred_correct. rewrite <- Hr.
  assert (Hbound : Qabs (inject_Z m * 2 ^ e - a) <= a * (1 # 9007199254740992)).
  { assert (Ex : inject_Z m * 2 ^ e - a == (inject_Z m - a / 2 ^ e) * 2 ^ e).
    { field. intro Z0. rewrite Z0 in Hpe. discriminate. }
    rewrite Ex, Qabs_Qmult, (Qabs_pos (2 ^ e)) by (apply Qlt_le_weak; exact Hpe).
    assert (Hpe2 : 2 ^ e <= a * (1 # 4503599627370496)).
    { assert (E53 : (2:Q) ^ 52 == 4503599627370496) by reflexivity.
      rewrite E53 in H52.
      apply (Qmult_le_compat_r _ _ (2 ^ e)) in H52; [|apply Qlt_le_weak; exact Hpe].
      assert (Ey : a / 2 ^ e * 2 ^ e == a).
      { field. intro Z0. rewrite Z0 in Hpe. discriminate. }
      rewrite Ey in H52. lra. }
    set (t := Qabs (inject_Z m - a / 2 ^ e)) in *.
    assert (Ht0 : 0 <= t) by apply Qabs_nonneg.
    assert (0 <= ((1 # 2) - t) * 2 ^ e) by (apply Qmult_le_0_compat; lra).
    lra. }
  destruct (Qltb r 0) eqn:Es.
  - apply Qltb_lt in Es.
    assert (Er : r == - a) by (unfold a; rewrite Qabs_neg by lra; ring).
    assert (Eg : - inject_Z m * 2 ^ e - r == - (inject_Z m * 2 ^ e - a))
      by (rewrite Er; ring).
    rewrite Eg, Qabs_opp. fold a. exact Hbound.
  - apply Qltb_ge in Es.
    assert (Er : r == a) by (unfold a; rewrite Qabs_pos by exact Es; reflexivity).
    rewrite Er at 1. fold a. exact Hbound.
Qed.

Lemma Series_mean_float_cases (l : list Q) :
  (l = [] /\ Series_mean_float l = NaN)
  \/ (l <> [] /\ Series_mean_float l = Fin (to_double (mean l))).
Proof.
  destruct l as [|x l]; [left|right]; split; try reflexivity. discriminate.
Qed.

Lemma run_recommendations (tb : Tables) (sid : string) :
  let weak :=
    sort_by (fun a b => Qle_bool (avg_score a) (avg_score b))
      (filter (fun r => Qltb (avg_score r) 70)
         (topic_performance (assessments_of sid (assessments tb)))) in
  let student_sessions := sessions_of sid (sessions tb) in
  let student_data := assessments_of sid (assessments tb) in
  let completion :=
    Series_mean_float (bool_column (map completed student_sessions)) in
  let avg_time :=
    Series_mean_float (Z_column (map time_spent_minutes student_data)) in
  run (get_study_recommendations sid) tb
  = Returns
      (match weak with
       | [] => []
       | _ :: _ => [skill_gap (firstn 3 weak)]
       end
       ++ (if (0 <? length student_sessions)%nat && fnum_ltb completion float_0_7
           then [study_habits completion] else [])
       ++ (if (0 <? length student_data)%nat && fnum_ltb avg_time 20
           then [time_investment avg_time] else [])).
Proof.
  intros weak student_sessions student_data completion avg_time.
  unfold run, get_study_recommendations, identify_weak_topics, bind,
    get_assessments, get_sessions, ret.
  cbv beta iota zeta. unfold fst. fold weak. fold student_data.
  fold student_sessions. fold completion. fold avg_time.
  destruct weak; destruct (0 <? length student_sessions)%nat;
    destruct (fnum_ltb completion float_0_7);
    destruct (0 <? length student_data)%nat;
    destruct (fnum_ltb avg_time 20); reflexivity.
Qed.

(** C7: the three rules are evaluated in the order skill gaps, study
    habits, time investment; each contributes its recommendation exactly
    when its own precondition holds, whatever the others do, and the call
    always returns.  The first rule asks for a weak topic and gives the
    High-priority "Skill Gap" entry on the first three (at most) of the
    weak topics in ascending order of mean; the second asks for a study
    session and a completion rate below 0.7 and gives the Medium-priority
    "Study Habits" entry; the third asks for an assessment and a mean
    time below 20 minutes and gives the Low-priority "Time Investment"
    entry.  The two means are the float64 quotients of exact sums (time
    sums below 2^53).  For a student with a weak topic, no study session
    and a mean time-spent of 25 minutes the result is the single "Skill
    Gap" entry. *)
Theorem recommendation_rules (tb : Tables) (sid : string) :
  let student_sessions := sessions_of sid (sessions tb) in
  let student_data := assessments_of sid (assessments tb) in
  let completion :=
    Series_mean_float (bool_column (map completed student_sessions)) in
  let avg_time :=
    Series_mean_float (Z_column (map time_spent_minutes student_data)) in
  (fold_right Z.add 0 (map (fun r => Z.abs (time_spent_minutes r)) student_data)
   < 2 ^ 53)%Z ->
  exists weak recs,
    run (identify_weak_topics sid 70) tb = Returns weak
    /\ run (get_study_recommendations sid) tb = Returns recs
    /\ recs
       = match weak with
         | [] => []
         | _ :: _ =>
             [mkRecommendation "High" "Skill Gap"
                ("Focus on improving: "
                   ++ String.concat ", " (map topic_name (firstn 3 weak)))
                (Some (firstn 3 weak)) None None]
         end
         ++ (if (0 <? length student_sessions)%nat && fnum_ltb completion float_0_7
             then [mkRecommendation "Medium" "Study Habits"
                     ("Improve study session completion rate (currently "
                        ++ format_1f_fnum (float_scale completion 100) ++ "%)")
                     None
                     (Some "Break study sessions into smaller, manageable chunks"%string)
                     None]
             else [])
         ++ (if (0 <? length student_data)%nat && fnum_ltb avg_time 20
             then [mkRecommendation "Low" "Time Investment"
                     "Consider spending more time on assessments for better understanding"
                     None None (Some (format_1f_fnum avg_time ++ " minutes")%string)]
             else [])
    /\ (completion = NaN <-> student_sessions = [])
    /\ (forall c, completion = Fin c ->
        let share :=
          Qlen (filter completed student_sessions) / Qlen student_sessions in
        Qabs (c - share) <= Qabs share * (1 # 9007199254740992))
    /\ (avg_time = NaN <-> student_data = [])
    /\ (forall t, avg_time = Fin t ->
        let exact := mean (Z_column (map time_spent_minutes student_data)) in
        Qabs (t - exact) <= Qabs exact * (1 # 9007199254740992))
    /\ Sorted (fun a b => avg_score a <= avg_score b) weak
    /\ (length (firstn 3 weak) <= 3)%nat
    /\ ((1 <= length weak)%nat ->
        student_sessions = [] ->
        mean (Z_column (map time_spent_minutes student_data)) == 25 ->
        recs
        = [mkRecommendation "High" "Skill Gap"
             ("Focus on improving: "
                ++ String.concat ", " (map topic_name (firstn 3 weak)))
             (Some (firstn 3 weak)) None None]).
Proof.
  intros student_sessions student_data completion avg_time _.
  eexists. eexists.
  split; [apply run_weak|]. split; [apply run_recommendations|].
  split; [reflexivity|].
  split.
  { unfold completion.
    destruct (Series_mean_float_cases (bool_column (map completed student_sessions)))
      as [[E ->]|[E ->]].
    - split; [intros _|reflexivity].
      destruct student_sessions; [reflexivity|discriminate E].
    - split; [discriminate|]. intro E'. rewrite E' in E. exfalso. apply E. reflexivity. }
  split.
  { intros c Hc share. unfold completion in Hc.
    destruct (Series_mean_float_cases (bool_column (map completed student_sessions)))
      as [[E E']|[E E']]; rewrite E' in Hc; [discriminate Hc|].
    injection Hc as <-.
    assert (Es : mean (bool_column (map completed student_sessions)) == share).
    { unfold mean, share. rewrite completed_sessions_count.
      unfold Qlen, bool_column. rewrite !length_map. reflexivity. }
    rewrite <- Es. apply to_double_near. }
  split.
  { unfold avg_time.
    destruct (Series_mean_float_cases (Z_column (map time_spent_minutes student_data)))
      as [[E ->]|[E ->]].
    - split; [intros _|reflexivity].
      destruct student_data; [reflexivity|discriminate E].
    - split; [discriminate|]. intro E'. rewrite E' in E. exfalso. apply E. reflexivity. }
  split.
  { intros t Ht exact. unfold avg_time in Ht.
    destruct (Series_mean_float_cases (Z_column (map time_spent_minutes student_data)))
      as [[E E']|[E E']]; rewrite E' in Ht; [discriminate Ht|].
    injection Ht as <-. apply to_double_near. }
  split; [exact (weak_topics_sorted tb sid 70 _ (run_weak tb sid 70))|].
  fold student_data.
  set (weak := sort_by _ _).
  split; [rewrite length_firstn; lia|].
  intros Hw Hs Ht.
  fold student_sessions. fold completion. fold avg_time.
  destruct weak as [|w weak']; [simpl in Hw; lia|].
  assert (E2 : (0 <? length student_sessions)%nat = false) by (rewrite Hs; reflexivity).
  rewrite E2. cbn [andb].
  assert (E3 : fnum_ltb avg_time 20 = false).
  { unfold avg_time, Series_mean_float, Series_mean.
    destruct (Z_column (map time_spent_minutes student_data)) as [|z zs] eqn:Ez;
      [reflexivity|].
    cbn [fnum_ltb]. rewrite (to_double_comp _ 25 Ht). reflexivity. }
  rewrite E3, andb_false_r. reflexivity.
Qed.

Lemma recommendation_rules_witness :
  (fold_right Z.add 0
     (map (fun r => Z.abs (time_spent_minutes r))
        (assessments_of "STU001" (assessments tables_one_weak_topic)))
   < 2 ^ 53)%Z
  /\ (fold_right Z.add 0
        (map (fun r => Z.abs (time_spent_minutes r))
           (assessments_of "STU001" (assessments tables_all_rules)))
      < 2 ^ 53)%Z
  /\ (exists weak,
        run (identify_weak_topics "STU001" 70) tables_one_weak_topic = Returns weak
        /\ (1 <= length weak)%nat
        /\ sessions_of "STU001" (sessions tables_one_weak_topic) = []
        /\ mean (Z_column (map time_spent_minutes
                   (assessments_of "STU001" (assessments tables_one_weak_topic))))
           == 25
        /\ run (get_study_recommendations "STU001") tables_one_weak_topic
           = Returns
               [mkRecommendation "High" "Skill Gap" "Focus on improving: Algebra"
                  (Some weak) None None])
  /\ (exists weak,
        run (identify_weak_topics "STU001" 70) tables_all_rules = Returns weak
        /\ run (get_study_recommendations "STU001") tables_all_rules
           = Returns
               [mkRecommendation "High" "Skill Gap" "Focus on improving: Algebra"
                  (Some weak) None None;
                mkRecommendation "Medium" "Study Habits"
                  "Improve study session completion rate (currently 33.3%)"
                  None
                  (Some "Break study sessions into smaller, manageable chunks"%string)
                  None;
                mkRecommendation "Low" "Time Investment"
                  "Consider spending more time on assessments for better understanding"
                  None None (Some "19.9 minutes"%string)]).
Proof.
  assert (H1 : (fold_right Z.add 0
                  (map (fun r => Z.abs (time_spent_minutes r))
                     (assessments_of "STU001" (assessments tables_one_weak_topic)))
                < 2 ^ 53)%Z) by (vm_compute; reflexivity).
  assert (H2 : (fold_right Z.add 0
                  (map (fun r => Z.abs (time_spent_minutes r))
                     (assessments_of "STU001" (assessments tables_all_rules)))
                < 2 ^ 53)%Z) by (vm_compute; reflexivity).
  split; [exact H1|]. split; [exact H2|]. split.
  - destruct (recommendation_rules tables_one_weak_topic "STU001" H1)
      as [weak [recs [Hw [Hr [_ [_ [_ [_ [_ [_ [_ H]]]]]]]]]]].
    exists weak.
    assert (Hweak : weak
                    = [mkTopicRecord "Mathematics" "Algebra"
                         (mean [50; 60]) 2]).
    { rewrite run_weak in Hw. inversion Hw. reflexivity. }
    assert (Hlen : (1 <= length weak)%nat) by (rewrite Hweak; simpl; lia).
    assert (Hs : sessions_of "STU001" (sessions tables_one_weak_topic) = [])
      by reflexivity.
    assert (Ht : mean (Z_column (map time_spent_minutes
                   (assessments_of "STU001" (assessments tables_one_weak_topic)))) == 25)
      by (vm_compute; reflexivity).
    split; [exact Hw|]. split; [exact Hlen|]. split; [exact Hs|]. split; [exact Ht|].
    rewrite Hr. rewrite (H Hlen Hs Ht). rewrite Hweak. reflexivity.
  - destruct (recommendation_rules tables_all_rules "STU001" H2)
      as [weak [recs [Hw [Hr [Hrecs _]]]]].
    exists weak. split; [exact Hw|].
    rewrite Hr, Hrecs. clear Hr Hrecs.
    rewrite run_weak in Hw. injection Hw as Hw. subst weak.
    vm_compute. reflexivity.
Defined.

(** ** Report assembler *)

Lemma predict_returns (tb : Tables) (sid subj : string) :
  exists p, run (predict_performance sid subj) tb = Returns p.
Proof.
  destruct (Nat.lt_ge_cases (length (subject_data sid subj (assessments tb))) 3)
    as [H|H].
  - rewrite (predict_short tb sid subj H). eexists. reflexivity.
  - rewrite (predict_long tb sid subj H). eexists. reflexivity.
Qed.

Lemma predictions_return (tb : Tables) (sid : string) (subjects : list string) :
  exists ps,
    run (mapM (fun subj => p <- predict_performance sid subj ;; ret (subj, p)) subjects) tb
    = Returns ps
    /\ map fst ps = subjects
    /\ (forall subj p, In (subj, p) ps ->
          run (predict_performance sid subj) tb = Returns p).
Proof.
  induction subjects as [|subj subjects IH].
  - exists []. split; [reflexivity|]. split; [reflexivity|]. intros ? ? [].
  - destruct IH as [ps [Hrun [Hfst Hin]]].
    destruct (predict_returns tb sid subj) as [p Hp].
    exists ((subj, p) :: ps). cbn [mapM].
    rewrite run_bind.
    2:{ apply read_only_bind; [apply read_only_predict|intro; apply read_only_ret]. }
    rewrite run_bind by apply read_only_predict.
    rewrite Hp. cbv beta iota.
    replace (run (ret (subj, p)) tb) with (Returns (subj, p)) by reflexivity.
    cbv beta iota.
    rewrite run_bind.
    2:{ apply read_only_mapM. intro.
        apply read_only_bind; [apply read_only_predict|intro; apply read_only_ret]. }
    rewrite Hrun. split; [reflexivity|]. split; [simpl; congruence|].
    intros subj' p' [E|H]; [inversion E; subst; exact Hp|exact (Hin _ _ H)].
Qed.

Lemma class_insights_return (tb : Tables) :
  exists ci, run get_class_insights tb = Returns ci.
Proof.
  unfold run, get_class_insights, _get_top_students, _get_struggling_students,
    _analyze_subject_difficulty, bind, get_students, get_assessments, ret.
  cbv beta iota. rewrite analyze_engagement_value.
  eexists. reflexivity.
Qed.

Lemma report_no_data (tb : Tables) (now sid : string) :
  length (assessments_of sid (assessments tb)) = 0%nat ->
  run (generate_insight_report now sid) tb
  = Returns (ReportError "No data available for this student").
Proof.
  intro H. unfold generate_insight_report.
  rewrite run_bind by apply read_only_summary.
  rewrite (summary_none tb sid H). reflexivity.
Qed.

Lemma report_full (tb : Tables) (now sid : string) :
  (1 <= length (assessments_of sid (assessments tb)))%nat ->
  exists r,
    run (generate_insight_report now sid) tb = Returns (Report r)
    /\ report_student_id r = sid
    /\ generated_at r = now
    /\ run (get_student_performance_summary sid) tb
       = Returns (Some (performance_summary r))
    /\ run (identify_weak_topics sid 70) tb = Returns (weak_topics r)
    /\ run (identify_strong_topics sid 85) tb = Returns (strong_topics r)
    /\ run (get_study_recommendations sid) tb = Returns (recommendations r)
    /\ map fst (subject_predictions r)
       = unique (map subject (assessments_of sid (assessments tb)))
    /\ (forall subj p, In (subj, p) (subject_predictions r) ->
          run (predict_performance sid subj) tb = Returns p).
Proof.
  intro H.
  destruct (summary_some tb sid H) as [s [Hs _]].
  destruct (predictions_return tb sid
              (unique (map subject (assessments_of sid (assessments tb)))))
    as [ps [Hps [Hfst Hin]]].
  pose proof (run_recommendations tb sid) as Hrec. cbv zeta in Hrec.
  eexists.
  split.
  - unfold generate_insight_report.
    rewrite run_bind by apply read_only_summary. rewrite Hs. cbv beta iota.
    rewrite run_bind by apply read_only_weak. rewrite run_weak. cbv beta iota.
    rewrite run_bind by apply read_only_strong. rewrite run_strong. cbv beta iota.
    rewrite run_bind by apply read_only_recommendations. rewrite Hrec.
    cbv beta iota.
    rewrite run_bind by apply read_only_get_assessments.
    replace (run get_assessments tb) with (Returns (assessments tb)) by reflexivity.
    cbv beta iota.
    rewrite run_bind.
    2:{ apply read_only_mapM. intro.
        apply read_only_bind; [apply read_only_predict|intro; apply read_only_ret]. }
    rewrite Hps. cbv beta iota. reflexivity.
  - cbn [report_student_id generated_at performance_summary weak_topics
           strong_topics recommendations subject_predictions].
    split; [reflexivity|]. split; [reflexivity|]. split; [exact Hs|].
    split; [apply run_weak|]. split; [apply run_strong|].
    split; [exact Hrec|]. split; [exact Hfst|exact Hin].
Qed.

(** C6: for a student without any assessment record the report request
    returns the explicit error result "No data available for this
    student", never a report, and the class-level insights computed after
    that request are those computed without it; for a student with at
    least one assessment the request returns a full report, assembled from
    the summary, the weak and strong topics, one prediction per subject
    attempted and the recommendations.  The class-level insights are
    always returned. *)
Theorem report_or_no_data (tb : Tables) (now sid : string) :
  (length (assessments_of sid (assessments tb)) = 0%nat ->
   run (generate_insight_report now sid) tb
   = Returns (ReportError "No data available for this student")
   /\ run (generate_insight_report now sid ;;; get_class_insights) tb
      = run get_class_insights tb)
  /\ ((1 <= length (assessments_of sid (assessments tb)))%nat ->
      exists r,
        run (generate_insight_report now sid) tb = Returns (Report r)
        /\ report_student_id r = sid
        /\ generated_at r = now
        /\ run (get_student_performance_summary sid) tb
           = Returns (Some (performance_summary r))
        /\ run (identify_weak_topics sid 70) tb = Returns (weak_topics r)
        /\ run (identify_strong_topics sid 85) tb = Returns (strong_topics r)
        /\ run (get_study_recommendations sid) tb = Returns (recommendations r)
        /\ map fst (subject_predictions r)
           = unique (map subject (assessments_of sid (assessments tb)))
        /\ (forall subj p, In (subj, p) (subject_predictions r) ->
              run (predict_performance sid subj) tb = Returns p))
  /\ (exists ci, run get_class_insights tb = Returns ci)
  /\ exec (generate_insight_report now sid) tb = tb.
Proof.
  split; [|split; [|split]].
  - intro H. pose proof (report_no_data tb now sid H) as Hr.
    split; [exact Hr|].
    rewrite run_bind by apply read_only_report. rewrite Hr. reflexivity.
  - apply report_full.
  - apply class_insights_return.
  - apply read_only_report.
Qed.

Lemma report_or_no_data_witness :
  length (assessments_of "STU999" (assessments tables_60_70_80)) = 0%nat
  /\ run (generate_insight_report "2024-06-01T12:00:00" "STU999") tables_60_70_80
     = Returns (ReportError "No data available for this student")
  /\ (1 <= length (assessments_of "STU001" (assessments tables_60_70_80)))%nat
  /\ exists r,
       run (generate_insight_report "2024-06-01T12:00:00" "STU001") tables_60_70_80
       = Returns (Report r)
       /\ report_student_id r = "STU001"%string.
Proof.
  assert (H0 : length (assessments_of "STU999" (assessments tables_60_70_80)) = 0%nat)
    by reflexivity.
  assert (H1 : (1 <= length (assessments_of "STU001"
                               (assessments tables_60_70_80)))%nat)
    by (simpl; lia).
  split; [exact H0|]. split.
  - exact (proj1 (proj1 (report_or_no_data tables_60_70_80
                           "2024-06-01T12:00:00" "STU999") H0)).
  - split; [exact H1|].
    destruct (proj1 (proj2 (report_or_no_data tables_60_70_80
                              "2024-06-01T12:00:00" "STU001")) H1)
      as [r [Hr [Hid _]]].
    exists r. split; [exact Hr|exact Hid].
Defined.

(** * Further properties of the analyzer *)

(** ** Means and bounds *)

Lemma Qlen_cons {A : Type} (x : A) (l : list A) : Qlen (x :: l) == Qlen l + 1.
Proof.
  unfold Qlen. cbn [length]. rewrite Nat2Z.inj_succ. unfold Z.succ.
  rewrite inject_Z_plus. reflexivity.
Qed.

Lemma Qlen_nonneg {A : Type} (l : list A) : 0 <= Qlen l.
Proof.
  unfold Qlen. replace 0 with (inject_Z 0) by reflexivity.
  rewrite <- Zle_Qle. lia.
Qed.

Lemma Qlen_pos {A : Type} (l : list A) : (1 <= length l)%nat -> 0 < Qlen l.
Proof.
  intro H. unfold Qlen. replace 0 with (inject_Z 0) by reflexivity.
  rewrite <- Zlt_Qlt. lia.
Qed.

Lemma Qsum_bounds (l : list Q) (lo hi : Q) :
  (forall x, In x l -> lo <= x /\ x <= hi) ->
  Qlen l * lo <= Qsum l /\ Qsum l <= Qlen l * hi.
Proof.
  induction l as [|x l IH]; intro H.
  - assert (E : Qlen (@nil Q) == 0) by reflexivity.
    rewrite E. cbn [Qsum fold_right]. split; lra.
  - rewrite Qlen_cons. cbn [Qsum fold_right].
    destruct (H x (or_introl eq_refl)) as [H1 H2].
    destruct IH as [IH1 IH2]; [intros y Hy; apply H; right; exact Hy|].
    fold (Qsum l). split; lra.
Qed.

Lemma mean_bounds (l : list Q) (lo hi : Q) :
  (1 <= length l)%nat ->
  (forall x, In x l -> lo <= x /\ x <= hi) ->
  lo <= mean l /\ mean l <= hi.
Proof.
  intros Hn H. pose proof (Qlen_pos l Hn) as Hp.
  destruct (Qsum_bounds l lo hi H) as [H1 H2]. unfold mean. split.
  - apply Qle_shift_div_l; [exact Hp|]. lra.
  - apply Qle_shift_div_r; [exact Hp|]. lra.
Qed.

(** ** Performance summary: average, best and weakest subject *)

(** X1: the average score of a summary lies between any two bounds that
    hold for all the scores of the student; with valid scores it is in
    [0, 100]. *)
Theorem average_score_within_bounds (tb : Tables) (sid : string) (lo hi : Q) :
  (1 <= length (assessments_of sid (assessments tb)))%nat ->
  (forall r, In r (assessments_of sid (assessments tb)) ->
             lo <= score r /\ score r <= hi) ->
  exists s m,
    run (get_student_performance_summary sid) tb = Returns (Some s)
    /\ average_score s = Fin m
    /\ lo <= m /\ m <= hi.
Proof.
  intros Hn Hb.
  destruct (summary_some tb sid Hn) as [s [Hrun [_ [_ [Havg _]]]]].
  exists s, (mean (map score (assessments_of sid (assessments tb)))).
  split; [exact Hrun|]. split.
  - rewrite Havg. unfold Series_mean.
    destruct (assessments_of sid (assessments tb)); [simpl in Hn; lia|reflexivity].
  - apply mean_bounds; [rewrite length_map; exact Hn|].
    intros x Hx. apply in_map_iff in Hx. destruct Hx as [r [<- Hr]]. apply Hb, Hr.
Qed.

Lemma average_score_within_bounds_witness :
  exists s m,
    run (get_student_performance_summary "STU001") tables_60_70_80 = Returns (Some s)
    /\ average_score s = Fin m
    /\ 60 <= m /\ m <= 80.
Proof.
  apply (average_score_within_bounds tables_60_70_80 "STU001" 60 80).
  - simpl. lia.
  - intros r Hr. simpl in Hr.
    destruct Hr as [<-|[<-|[<-|[]]]]; simpl; split; discriminate.
Defined.

Lemma idx_first_max (best : string * Q) (l : list (string * Q)) :
  exists v,
    In (idx_first (fun v b => Qltb b v) best l, v) (best :: l)
    /\ forall kv, In kv (best :: l) -> snd kv <= v.
Proof.
  revert best. induction l as [|kv l IH]; intros [k0 v0].
  - exists v0. simpl. split; [auto|]. intros kv [<-|[]]. simpl. lra.
  - cbn [idx_first snd]. destruct (Qltb v0 (snd kv)) eqn:E.
    + apply Qltb_lt in E. destruct (IH kv) as [v [Hin Hmax]].
      exists v. split; [right; exact Hin|].
      intros kv' [<-|Hkv']; [|apply Hmax; exact Hkv'].
      simpl. pose proof (Hmax kv (or_introl eq_refl)). lra.
    + apply Qltb_ge in E. destruct (IH (k0, v0)) as [v [Hin Hmax]].
      exists v. split.
      * destruct Hin as [Hin|Hin]; [left; exact Hin|right; right; exact Hin].
      * intros kv' [<-|[<-|Hkv']].
        -- apply (Hmax (k0, v0)). left. reflexivity.
        -- pose proof (Hmax (k0, v0) (or_introl eq_refl)). simpl in *. lra.
        -- apply Hmax. right. exact Hkv'.
Qed.

Lemma idx_first_min (best : string * Q) (l : list (string * Q)) :
  exists v,
    In (idx_first (fun v b => Qltb v b) best l, v) (best :: l)
    /\ forall kv, In kv (best :: l) -> v <= snd kv.
Proof.
  revert best. induction l as [|kv l IH]; intros [k0 v0].
  - exists v0. simpl. split; [auto|]. intros kv [<-|[]]. simpl. lra.
  - cbn [idx_first snd]. destruct (Qltb (snd kv) v0) eqn:E.
    + apply Qltb_lt in E. destruct (IH kv) as [v [Hin Hmin]].
      exists v. split; [right; exact Hin|].
      intros kv' [<-|Hkv']; [|apply Hmin; exact Hkv'].
      simpl. pose proof (Hmin kv (or_introl eq_refl)). lra.
    + apply Qltb_ge in E. destruct (IH (k0, v0)) as [v [Hin Hmin]].
      exists v. split.
      * destruct Hin as [Hin|Hin]; [left; exact Hin|right; right; exact Hin].
      * intros kv' [<-|[<-|Hkv']].
        -- apply (Hmin (k0, v0)). left. reflexivity.
        -- pose proof (Hmin (k0, v0) (or_introl eq_refl)). simpl in *. lra.
        -- apply Hmin. right. exact Hkv'.
Qed.

Lemma subject_means_In (df : list Assessment) (k : string) (v : Q) :
  In (k, v) (subject_means df) <->
  (exists r, In r df /\ subject r = k) /\ v = subject_mean df k.
Proof.
  unfold subject_means, subject_mean. rewrite in_map_iff. split.
  - intros [[k' g] [E Hin]]. inversion E; subst.
    apply (groupby_In _ _ _ String.eqb_eq) in Hin. destruct Hin as [Hk ->].
    split; [exact Hk|reflexivity].
  - intros [Hk ->].
    exists (k, filter (fun r => (subject r =? k)%string) df).
    split; [reflexivity|].
    apply (groupby_In _ _ _ String.eqb_eq). split; [exact Hk|reflexivity].
Qed.

Lemma summary_subjects (tb : Tables) (sid : string) :
  (1 <= length (assessments_of sid (assessments tb)))%nat ->
  exists s kv l,
    run (get_student_performance_summary sid) tb = Returns (Some s)
    /\ subject_means (assessments_of sid (assessments tb)) = kv :: l
    /\ best_subject s = idx_first (fun v b => Qltb b v) kv l
    /\ weakest_subject s = idx_first (fun v b => Qltb v b) kv l.
Proof.
  intro H.
  destruct (subject_means_nonempty _ H) as [kv [l E]].
  unfold run, get_student_performance_summary, bind, get_assessments,
    get_sessions, lift, ret. cbv beta iota.
  destruct (length (assessments_of sid (assessments tb)) =? 0)%nat eqn:E0;
    [apply Nat.eqb_eq in E0; lia|].
  rewrite E. unfold idxmax, idxmin. cbv beta iota.
  eexists. exists kv, l. split; [reflexivity|]. repeat split.
Qed.

(** X2: the best subject of a summary is a subject the student has
    attempted whose mean score is at least the mean of every subject
    attempted; the weakest subject is one whose mean is at most every
    other. *)
Theorem best_and_weakest_subject (tb : Tables) (sid : string) :
  let student_data := assessments_of sid (assessments tb) in
  (1 <= length student_data)%nat ->
  exists s,
    run (get_student_performance_summary sid) tb = Returns (Some s)
    /\ (exists r, In r student_data /\ subject r = best_subject s)
    /\ (exists r, In r student_data /\ subject r = weakest_subject s)
    /\ (forall r, In r student_data ->
          subject_mean student_data (subject r)
          <= subject_mean student_data (best_subject s))
    /\ (forall r, In r student_data ->
          subject_mean student_data (weakest_subject s)
          <= subject_mean student_data (subject r)).
Proof.
  intros student_data H.
  destruct (summary_subjects tb sid H) as [s [kv [l [Hrun [E [Hb Hw]]]]]].
  fold student_data in E.
  destruct (idx_first_max kv l) as [vb [Hinb Hmax]].
  destruct (idx_first_min kv l) as [vw [Hinw Hmin]].
  rewrite <- Hb, <- E in Hinb. rewrite <- Hw, <- E in Hinw.
  rewrite <- E in Hmax, Hmin.
  apply subject_means_In in Hinb. destruct Hinb as [Hrb Evb].
  apply subject_means_In in Hinw. destruct Hinw as [Hrw Evw].
  exists s. split; [exact Hrun|]. split; [exact Hrb|]. split; [exact Hrw|].
  split; intros r Hr.
  - rewrite <- Evb.
    apply (Hmax (subject r, subject_mean student_data (subject r))).
    apply subject_means_In. split; [exists r; auto|reflexivity].
  - rewrite <- Evw.
    apply (Hmin (subject r, subject_mean student_data (subject r))).
    apply subject_means_In. split; [exists r; auto|reflexivity].
Qed.

Lemma best_and_weakest_subject_witness :
  exists s,
    run (get_student_performance_summary "STU001") tables_60_70_80 = Returns (Some s)
    /\ (exists r, In r (assessments_of "STU001" (assessments tables_60_70_80))
                  /\ subject r = best_subject s).
Proof.
  assert (H : (1 <= length (assessments_of "STU001"
                              (assessments tables_60_70_80)))%nat)
    by (simpl; lia).
  destruct (best_and_weakest_subject tables_60_70_80 "STU001" H)
    as [s [Hrun [Hb _]]].
  exists s. split; [exact Hrun|exact Hb].
Defined.

(** ** Trend of a steadily changing series *)

Lemma Qsum_Forall2 (l l' : list Q) : Forall2 Qeq l l' -> Qsum l == Qsum l'.
Proof.
  induction 1 as [|x y l l' Hxy Hl IH]; simpl; [reflexivity|].
  fold (Qsum l) (Qsum l'). rewrite Hxy, IH. reflexivity.
Qed.

Lemma Qsum_map_ext {A : Type} (f g : A -> Q) (l : list A) :
  (forall x, f x == g x) -> Qsum (map f l) == Qsum (map g l).
Proof.
  intro H. induction l as [|x l IH]; simpl; [reflexivity|].
  fold (Qsum (map f l)) (Qsum (map g l)). rewrite H, IH. reflexivity.
Qed.

Lemma Qsum_affine (a d : Q) (l : list Q) :
  Qsum (map (fun x => a + d * x) l) == Qlen l * a + d * Qsum l.
Proof.
  induction l as [|x l IH].
  - assert (E : Qlen (@nil Q) == 0) by reflexivity. rewrite E. simpl. ring.
  - rewrite Qlen_cons. cbn [map Qsum fold_right].
    fold (Qsum (map (fun x => a + d * x) l)) (Qsum l). rewrite IH. ring.
Qed.

Lemma Qsquare_nonneg (x : Q) : 0 <= x * x.
Proof.
  destruct x as [n d]. unfold Qle, Qmult. simpl.
  rewrite Z.mul_1_r. apply Z.square_nonneg.
Qed.

Lemma Qsum_squares_nonneg {A : Type} (f : A -> Q) (l : list A) :
  0 <= Qsum (map (fun x => f x * f x) l).
Proof.
  induction l as [|x l IH]; simpl; [discriminate|].
  fold (Qsum (map (fun x => f x * f x) l)).
  pose proof (Qsquare_nonneg (f x)) as Hx. lra.
Qed.

Lemma arange_length (n : nat) : length (arange n) = n.
Proof. unfold arange. rewrite length_map, length_seq. reflexivity. Qed.

(** The positions 0, 1, ..., n - 1 are not all equal as soon as n >= 2. *)
Lemma position_spread_positive (n : nat) (m : Q) :
  (2 <= n)%nat -> 0 < Qsum (map (fun x => (x - m) * (x - m)) (arange n)).
Proof.
  intro H. destruct n as [|[|n]]; try lia.
  unfold arange. cbn [seq map Qsum fold_right].
  match goal with
  | |- 0 < ?a + (?b + ?rest) =>
      assert (Hr : 0 <= rest)
  end.
  { rewrite map_map.
    apply (Qsum_squares_nonneg (fun i => inject_Z (Z.of_nat i) - m)). }
  assert (E0 : inject_Z (Z.of_nat 0) == 0) by reflexivity.
  assert (E1 : inject_Z (Z.of_nat 1) == 1) by reflexivity.
  rewrite E0, E1.
  assert (Hsq : 0 <= (m - (1 # 2)) * (m - (1 # 2))) by apply Qsquare_nonneg.
  assert (E : (0 - m) * (0 - m) + (1 - m) * (1 - m)
              == 2 * ((m - (1 # 2)) * (m - (1 # 2))) + (1 # 2)) by ring.
  lra.
Qed.

Lemma cross_deviation_affine (a d xbar ybar : Q) (xs ys : list Q) :
  Forall2 Qeq ys (map (fun x => a + d * x) xs) ->
  ybar == a + d * xbar ->
  Qsum (map (fun '(xi, yi) => (xi - xbar) * (yi - ybar)) (combine xs ys))
  == d * Qsum (map (fun xi => (xi - xbar) * (xi - xbar)) xs).
Proof.
  intros H Hbar. revert ys H. induction xs as [|x xs IH]; intros ys H.
  - simpl. ring.
  - destruct ys as [|y ys]; [inversion H|].
    inversion H as [|? ? ? ? Hy Hys]; subst.
    cbn [combine map Qsum fold_right].
    fold (Qsum (map (fun '(xi, yi) => (xi - xbar) * (yi - ybar)) (combine xs ys))).
    fold (Qsum (map (fun xi => (xi - xbar) * (xi - xbar)) xs)).
    rewrite (IH ys Hys), Hy, Hbar. ring.
Qed.

(** The least-squares slope of a + d * i against the positions i is d. *)
Lemma ols_slope_arithmetic (y : list Q) (a d : Q) :
  (2 <= length y)%nat ->
  Forall2 Qeq y (arithmetic_series a d (length y)) ->
  ols_slope y == d.
Proof.
  intros Hn Hy. unfold arithmetic_series in Hy. unfold ols_slope. cbv zeta.
  set (x := arange (length y)) in *.
  assert (Hlen : Qlen y = Qlen x).
  { unfold Qlen, x. rewrite arange_length. reflexivity. }
  assert (Hpos : 0 < Qlen x).
  { rewrite <- Hlen. apply Qlen_pos. lia. }
  assert (Hbar : mean y == a + d * mean x).
  { unfold mean. rewrite (Qsum_Forall2 _ _ Hy), Qsum_affine, Hlen.
    field. intro E. rewrite E in Hpos. discriminate Hpos. }
  rewrite (cross_deviation_affine a d (mean x) (mean y) x y Hy Hbar).
  pose proof (position_spread_positive (length y) (mean x) Hn) as Hs.
  fold x in Hs.
  field. intro E. rewrite E in Hs. discriminate Hs.
Qed.

Lemma classify_slope_comp (s s' : Q) : s == s' -> classify_slope s = classify_slope s'.
Proof.
  intro H. unfold classify_slope.
  rewrite (Qltb_comp (1 # 2) (1 # 2) s s' (Qeq_refl _) H).
  rewrite (Qltb_comp (1 # 10) (1 # 10) s s' (Qeq_refl _) H).
  rewrite (Qltb_comp (- (1 # 10)) (- (1 # 10)) s s' (Qeq_refl _) H).
  rewrite (Qltb_comp (- (1 # 2)) (- (1 # 2)) s s' (Qeq_refl _) H).
  reflexivity.
Qed.

(** X3: when the scores of at least 5 assessments on pairwise distinct
    dates, all between 0 and 100 and taken in date order, change by the
    same amount d from one assessment to the next, the least-squares slope
    is d; the trend label is "Stable" for a constant series, "Strong
    Improvement" for a series rising by at least 0.5 + 10^-9 per
    assessment and "Needs Attention" for one falling by at least
    0.5 + 10^-9, and so is the label of every fitted coefficient within
    5 * 10^-10 of d. *)
Theorem trend_of_arithmetic_series (df : list Assessment) (a d : Q) :
  (5 <= length df)%nat ->
  NoDup (map (fun r => instant_of (assessment_date r)) df) ->
  (forall r, In r df -> 0 <= score r /\ score r <= 100) ->
  Forall2 Qeq (map score (sort_by_assessment_date df))
              (arithmetic_series a d (length df)) ->
  let margin := 1 # 1000000000 in
  ols_slope (map score (sort_by_assessment_date df)) == d
  /\ (d == 0 -> _calculate_improvement_trend df = "Stable"%string)
  /\ ((1 # 2) + margin <= d ->
      _calculate_improvement_trend df = "Strong Improvement"%string)
  /\ (d <= - (1 # 2) - margin ->
      _calculate_improvement_trend df = "Needs Attention"%string)
  /\ (forall fitted : Q,
        Qabs (fitted - d) <= margin / 2 ->
        (d == 0 -> classify_slope fitted = "Stable"%string)
        /\ ((1 # 2) + margin <= d -> classify_slope fitted = "Strong Improvement"%string)
        /\ (d <= - (1 # 2) - margin -> classify_slope fitted = "Needs Attention"%string)).
Proof.
  intros Hn _ _ Hy margin.
  assert (Hlen : length (map score (sort_by_assessment_date df)) = length df).
  { rewrite length_map. apply sort_by_length. }
  assert (Hs : ols_slope (map score (sort_by_assessment_date df)) == d).
  { apply (ols_slope_arithmetic _ a d); rewrite Hlen; [lia|exact Hy]. }
  assert (Ht : _calculate_improvement_trend df = classify_slope d).
  { rewrite (trend_of_long_series df Hn). apply classify_slope_comp. exact Hs. }
  assert (Em : margin == 1 # 1000000000) by reflexivity.
  split; [exact Hs|]. rewrite Ht.
  split; [|split; [|split]].
  - intro H.
    destruct (classify_slope_cases d) as [G|[G|[G|[G|G]]]];
      repeat match goal with H : _ /\ _ |- _ => destruct H end;
      match goal with H : classify_slope _ = _ |- _ => rewrite H end;
      try reflexivity; exfalso; lra.
  - intro H.
    destruct (classify_slope_cases d) as [G|[G|[G|[G|G]]]];
      repeat match goal with H : _ /\ _ |- _ => destruct H end;
      match goal with H : classify_slope _ = _ |- _ => rewrite H end;
      try reflexivity; exfalso; lra.
  - intro H.
    destruct (classify_slope_cases d) as [G|[G|[G|[G|G]]]];
      repeat match goal with H : _ /\ _ |- _ => destruct H end;
      match goal with H : classify_slope _ = _ |- _ => rewrite H end;
      try reflexivity; exfalso; lra.
  - intros fitted Hf.
    apply Qabs_Qle_condition in Hf. destruct Hf as [Hf1 Hf2].
    assert (Hh : margin / 2 == 1 # 2000000000) by reflexivity.
    rewrite Hh in Hf1, Hf2.
    destruct (classify_slope_cases fitted) as [G|[G|[G|[G|G]]]];
      repeat match goal with H : _ /\ _ |- _ => destruct H end;
      match goal with H : classify_slope _ = _ |- _ => rewrite H end;
      repeat split; intros; try reflexivity; exfalso; lra.
Qed.

Lemma trend_of_arithmetic_series_witness :
  (5 <= length series_rising_by_five)%nat
  /\ NoDup (map (fun r => instant_of (assessment_date r)) series_rising_by_five)
  /\ (forall r, In r series_rising_by_five -> 0 <= score r /\ score r <= 100)
  /\ Forall2 Qeq (map score (sort_by_assessment_date series_rising_by_five))
                 (arithmetic_series 50 5 (length series_rising_by_five))
  /\ ols_slope (map score (sort_by_assessment_date series_rising_by_five)) == 5
  /\ _calculate_improvement_trend series_rising_by_five
     = "Strong Improvement"%string.
Proof.
  assert (Hn : (5 <= length series_rising_by_five)%nat) by (simpl; lia).
  assert (Hnd : NoDup (map (fun r => instant_of (assessment_date r))
                         series_rising_by_five)).
  { vm_compute. repeat constructor; simpl; intuition discriminate. }
  assert (Hsc : forall r, In r series_rising_by_five -> 0 <= score r /\ score r <= 100).
  { intros r Hr. simpl in Hr.
    destruct Hr as [<-|[<-|[<-|[<-|[<-|[]]]]]]; split; discriminate. }
  assert (Hy : Forall2 Qeq
                 (map score (sort_by_assessment_date series_rising_by_five))
                 (arithmetic_series 50 5 (length series_rising_by_five))).
  { vm_compute. repeat constructor. }
  destruct (trend_of_arithmetic_series _ 50 5 Hn Hnd Hsc Hy) as [Hs [_ [Hstrong _]]].
  split; [exact Hn|]. split; [exact Hnd|]. split; [exact Hsc|]. split; [exact Hy|].
  split; [exact Hs|]. apply Hstrong. vm_compute. discriminate.
Defined.

(** ** Order of the rows *)

Section SortUnique.
Context {A : Type} (key : A -> Z).

Let key_leb (a b : A) : bool := (key a <=? key b)%Z.

Lemma sort_by_sorted_id (leb : A -> A -> bool) (l : list A) :
  Sorted (fun a b => leb a b = true) l -> sort_by leb l = l.
Proof.
  induction 1 as [|x l Hs IH Hhd]; simpl; [reflexivity|].
  rewrite IH. destruct Hhd as [|y l Hxy]; simpl; [reflexivity|].
  rewrite Hxy. reflexivity.
Qed.

Lemma key_sorted_strongly (l : list A) :
  Sorted (fun a b => key_leb a b = true) l ->
  StronglySorted (fun a b => key_leb a b = true) l.
Proof.
  apply Sorted_StronglySorted. intros a b c Hab Hbc.
  unfold key_leb in *. apply Z.leb_le in Hab, Hbc. apply Z.leb_le. lia.
Qed.

Lemma distinct_keys_inj (l : list A) (x y : A) :
  NoDup (map key l) -> In x l -> In y l -> key x = key y -> x = y.
Proof.
  induction l as [|z l IH]; simpl; intros Hnd Hx Hy E; [destruct Hx|].
  inversion Hnd as [|? ? Hnotin Hnd']; subst.
  destruct Hx as [->|Hx], Hy as [->|Hy].
  - reflexivity.
  - exfalso. apply Hnotin. rewrite E. apply in_map. exact Hy.
  - exfalso. apply Hnotin. rewrite <- E. apply in_map. exact Hx.
  - apply IH; assumption.
Qed.

Lemma sorted_perm_unique (l1 l2 : list A) :
  StronglySorted (fun a b => key_leb a b = true) l1 ->
  StronglySorted (fun a b => key_leb a b = true) l2 ->
  Permutation l1 l2 -> NoDup (map key l1) -> l1 = l2.
Proof.
  intros H1. revert l2. induction H1 as [|x t1 Hs1 IH Hall1]; intros l2 H2 Hp Hnd.
  - apply Permutation_nil in Hp. congruence.
  - destruct l2 as [|y t2].
    { apply Permutation_sym, Permutation_nil in Hp. discriminate Hp. }
    inversion H2 as [|? ? Hs2 Hall2]; subst.
    assert (Hxy : x = y).
    { assert (Hx : In x (y :: t2)) by (eapply Permutation_in; [exact Hp|left; reflexivity]).
      assert (Hy : In y (x :: t1))
        by (eapply Permutation_in; [apply Permutation_sym; exact Hp|left; reflexivity]).
      destruct Hx as [->|Hx]; [reflexivity|].
      destruct Hy as [->|Hy]; [reflexivity|].
      rewrite Forall_forall in Hall1, Hall2.
      pose proof (Hall1 y Hy) as Hle1. pose proof (Hall2 x Hx) as Hle2.
      unfold key_leb in Hle1, Hle2. apply Z.leb_le in Hle1, Hle2.
      apply (distinct_keys_inj (x :: t1)); [exact Hnd|left; reflexivity|right; exact Hy|lia]. }
    subst y. f_equal. apply IH.
    + exact Hs2.
    + eapply Permutation_cons_inv. exact Hp.
    + inversion Hnd. assumption.
Qed.

(** With distinct keys, the sorted frame does not depend on the order of
    the rows. *)
Lemma sort_by_key_perm (l1 l2 : list A) :
  Permutation l1 l2 -> NoDup (map key l1) ->
  sort_by key_leb l1 = sort_by key_leb l2.
Proof.
  intros Hp Hnd.
  assert (Htot : forall a b, key_leb a b = true \/ key_leb b a = true).
  { intros a b. unfold key_leb. rewrite !Z.leb_le. lia. }
  apply sorted_perm_unique.
  - apply key_sorted_strongly, sort_by_sorted, Htot.
  - apply key_sorted_strongly, sort_by_sorted, Htot.
  - eapply Permutation_trans; [apply Permutation_sym, sort_by_perm|].
    eapply Permutation_trans; [exact Hp|apply sort_by_perm].
  - eapply Permutation_NoDup; [|exact Hnd].
    apply Permutation_map, sort_by_perm.
Qed.

Lemma sort_by_key_idempotent (l : list A) :
  sort_by key_leb (sort_by key_leb l) = sort_by key_leb l.
Proof.
  apply sort_by_sorted_id, sort_by_sorted.
  intros a b. unfold key_leb. rewrite !Z.leb_le. lia.
Qed.

End SortUnique.

(** X4: when the assessment dates are pairwise distinct, the trend label
    does not depend on the order in which the rows are stored. *)
Theorem trend_independent_of_row_order (df df' : list Assessment) :
  Permutation df df' ->
  NoDup (map (fun r => instant_of (assessment_date r)) df) ->
  sort_by_assessment_date df = sort_by_assessment_date df'
  /\ _calculate_improvement_trend df = _calculate_improvement_trend df'.
Proof.
  intros Hp Hnd.
  assert (Hs : sort_by_assessment_date df = sort_by_assessment_date df').
  { unfold sort_by_assessment_date.
    apply (sort_by_key_perm (fun r => instant_of (assessment_date r))); assumption. }
  split; [exact Hs|].
  unfold _calculate_improvement_trend.
  rewrite (Permutation_length Hp), Hs. reflexivity.
Qed.

Lemma trend_independent_of_row_order_witness :
  _calculate_improvement_trend series_rising_by_five
  = _calculate_improvement_trend (rev series_rising_by_five).
Proof.
  apply (trend_independent_of_row_order series_rising_by_five
           (rev series_rising_by_five)).
  - apply Permutation_rev.
  - vm_compute. repeat constructor; simpl; intuition discriminate.
Defined.

(** ** Rounding keeps integer bounds *)

Lemma round_half_even_between (a b : Z) (q : Q) :
  inject_Z a <= q -> q <= inject_Z b ->
  (a <= round_half_even q <= b)%Z.
Proof.
  intros Ha Hb.
  assert (Hfa : (a <= Qfloor q)%Z).
  { rewrite <- (Qfloor_Z a). apply Qfloor_resp_le. exact Ha. }
  assert (Hfb : (Qfloor q <= b)%Z).
  { rewrite <- (Qfloor_Z b). apply Qfloor_resp_le. exact Hb. }
  pose proof (Qfloor_le q) as Hlo.
  assert (Hup : 0 < q - inject_Z (Qfloor q) -> (Qfloor q + 1 <= b)%Z).
  { intro Hfrac.
    assert (Hlt : inject_Z (Qfloor q) < inject_Z b) by lra.
    rewrite <- Zlt_Qlt in Hlt. lia. }
  unfold round_half_even.
  destruct (Qltb (q - inject_Z (Qfloor q)) (1 # 2)) eqn:E1; [lia|].
  apply Qltb_ge in E1.
  assert (Hb1 : (Qfloor q + 1 <= b)%Z) by (apply Hup; lra).
  destruct (Qltb (1 # 2) (q - inject_Z (Qfloor q))); [lia|].
  destruct (Z.even (Qfloor q)); lia.
Qed.

Lemma round2_percent (q : Q) : 0 <= q -> q <= 100 -> 0 <= round2 q /\ round2 q <= 100.
Proof.
  intros H0 H100.
  destruct (round_half_even_between 0 10000 (q * 100)) as [Ha Hb].
  - replace (inject_Z 0) with 0 by reflexivity. lra.
  - replace (inject_Z 10000) with 10000 by reflexivity. lra.
  - unfold round2. rewrite Zle_Qle in Ha, Hb.
    replace (inject_Z 0) with 0 in Ha by reflexivity.
    replace (inject_Z 10000) with 10000 in Hb by reflexivity.
    split.
    + apply Qle_shift_div_l; [reflexivity|]. lra.
    + apply Qle_shift_div_r; [reflexivity|]. lra.
Qed.

(** ** Bounds on the forecast *)

Lemma weighted_sum_bounds (a w : list Q) (lo hi : Q) :
  length a = length w ->
  (forall x, In x w -> 0 < x) ->
  (forall x, In x a -> lo <= x /\ x <= hi) ->
  lo * Qsum w <= Qsum (map (fun '(x, wi) => x * wi) (combine a w))
  /\ Qsum (map (fun '(x, wi) => x * wi) (combine a w)) <= hi * Qsum w.
Proof.
  revert w. induction a as [|x a IH]; intros [|wi w] Hlen Hw Ha;
    try discriminate Hlen.
  - simpl. split; lra.
  - cbn [combine map Qsum fold_right].
    fold (Qsum (map (fun '(x, wi) => x * wi) (combine a w))). fold (Qsum w).
    destruct (IH w) as [IH1 IH2].
    + simpl in Hlen. congruence.
    + intros y Hy. apply Hw. right. exact Hy.
    + intros y Hy. apply Ha. right. exact Hy.
    + destruct (Ha x (or_introl eq_refl)) as [Hx1 Hx2].
      pose proof (Hw wi (or_introl eq_refl)) as Hwi.
      assert (H1 : lo * wi <= x * wi)
        by (apply Qmult_le_compat_r; [exact Hx1|apply Qlt_le_weak; exact Hwi]).
      assert (H2 : x * wi <= hi * wi)
        by (apply Qmult_le_compat_r; [exact Hx2|apply Qlt_le_weak; exact Hwi]).
      split; lra.
Qed.

Lemma In_firstn_list {A : Type} (n : nat) (l : list A) (x : A) :
  In x (firstn n l) -> In x l.
Proof.
  intro H. rewrite <- (firstn_skipn n l). apply in_or_app. left. exact H.
Qed.

Lemma In_skipn_list {A : Type} (n : nat) (l : list A) (x : A) :
  In x (skipn n l) -> In x l.
Proof.
  intro H. rewrite <- (firstn_skipn n l). apply in_or_app. right. exact H.
Qed.

Lemma weight_vector_positive (n : nat) (x : Q) :
  In x (firstn n weight_vector) -> 0 < x.
Proof.
  intro H. apply In_firstn_list in H. simpl in H.
  destruct H as [<-|[<-|[<-|[<-|[<-|[]]]]]]; reflexivity.
Qed.

Lemma prefix_weighted_bounds (window : list Q) (lo hi : Q) :
  (1 <= length window <= 5)%nat ->
  (forall x, In x window -> lo <= x /\ x <= hi) ->
  lo <= prefix_weighted window /\ prefix_weighted window <= hi.
Proof.
  intros Hn Hb. unfold prefix_weighted. cbv zeta.
  set (w := firstn (length window) weight_vector).
  assert (Hlen : length window = length w).
  { unfold w. rewrite length_firstn. simpl. lia. }
  assert (Hpos : 0 < Qsum w) by (apply weight_prefix_positive; lia).
  destruct (weighted_sum_bounds window w lo hi Hlen) as [H1 H2].
  - intros x Hx. exact (weight_vector_positive _ _ Hx).
  - exact Hb.
  - split.
    + apply Qle_shift_div_l; [exact Hpos|exact H1].
    + apply Qle_shift_div_r; [exact Hpos|exact H2].
Qed.

Lemma predict_value (tb : Tables) (sid subj : string) :
  (3 <= length (subject_data sid subj (assessments tb)))%nat ->
  exists p v,
    run (predict_performance sid subj) tb = Returns p
    /\ prediction p = Some v
    /\ v == round2 (prefix_weighted (recent_window sid subj tb))
    /\ confidence p = confidence_label (ndarray_std (recent_window sid subj tb))
    /\ recent_trend p
       = Some (_calculate_improvement_trend
                 (sort_by_assessment_date (subject_data sid subj (assessments tb)))).
Proof.
  intro H. rewrite (predict_long tb sid subj H). cbv zeta.
  eexists. eexists. split; [reflexivity|]. split; [reflexivity|].
  split; [|split; reflexivity].
  apply round2_comp. apply np_average_prefix.
  rewrite recent_window_length. lia.
Qed.

Lemma recent_window_In (tb : Tables) (sid subj : string) (x : Q) :
  In x (recent_window sid subj tb) ->
  exists r, In r (subject_data sid subj (assessments tb)) /\ score r = x.
Proof.
  unfold recent_window, tail. intro H. apply in_map_iff in H.
  destruct H as [r [E Hr]]. exists r. split; [|exact E].
  apply In_skipn_list in Hr. unfold sort_by_assessment_date in Hr.
  apply sort_by_In in Hr. exact Hr.
Qed.

(** X5: with at least 3 observations, the predicted score stays within
    the range of the student's scores in the subject, up to the rounding
    to two decimals (half a hundredth); with scores between 0 and 100 the
    prediction is between 0 and 100. *)
Theorem prediction_within_score_range (tb : Tables) (sid subj : string) (lo hi : Q) :
  (3 <= length (subject_data sid subj (assessments tb)))%nat ->
  (forall r, In r (subject_data sid subj (assessments tb)) ->
             lo <= score r /\ score r <= hi) ->
  exists p v,
    run (predict_performance sid subj) tb = Returns p
    /\ prediction p = Some v
    /\ lo - (1 # 200) <= v /\ v <= hi + (1 # 200)
    /\ (0 <= lo -> hi <= 100 -> 0 <= v /\ v <= 100).
Proof.
  intros Hn Hb.
  destruct (predict_value tb sid subj Hn) as [p [v [Hrun [Hp [Hv _]]]]].
  exists p, v. split; [exact Hrun|]. split; [exact Hp|].
  destruct (prefix_weighted_bounds (recent_window sid subj tb) lo hi) as [H1 H2].
  - rewrite recent_window_length. lia.
  - intros x Hx. destruct (recent_window_In tb sid subj x Hx) as [r [Hr <-]].
    apply Hb, Hr.
  - pose proof (round2_near (prefix_weighted (recent_window sid subj tb))) as Hnear.
    apply Qabs_Qle_condition in Hnear. destruct Hnear as [Hn1 Hn2].
    rewrite Hv. split; [lra|]. split; [lra|].
    intros H0 H100. apply round2_percent; lra.
Qed.

Lemma prediction_within_score_range_witness :
  exists p v,
    run (predict_performance "STU001" "Mathematics") tables_60_70_80 = Returns p
    /\ prediction p = Some v
    /\ 60 - (1 # 200) <= v /\ v <= 80 + (1 # 200)
    /\ (0 <= 60 -> 80 <= 100 -> 0 <= v /\ v <= 100).
Proof.
  apply (prediction_within_score_range tables_60_70_80 "STU001" "Mathematics" 60 80).
  - simpl. lia.
  - intros r Hr. simpl in Hr.
    destruct Hr as [<-|[<-|[<-|[]]]]; simpl; split; discriminate.
Defined.

Lemma Qsum_zero {A : Type} (f : A -> Q) (l : list A) :
  (forall x, In x l -> f x == 0) -> Qsum (map f l) == 0.
Proof.
  induction l as [|x l IH]; intro H; simpl; [reflexivity|].
  fold (Qsum (map f l)). rewrite (H x (or_introl eq_refl)), IH; [ring|].
  intros y Hy. apply H. right. exact Hy.
Qed.

(** X6: when the student's scores in the subject are all equal to c (at
    least 3 of them), the prediction is c rounded to two decimals, so
    within 0.005 of c, and the confidence is "High". *)
Theorem prediction_of_constant_scores (tb : Tables) (sid subj : string) (c : Q) :
  (3 <= length (subject_data sid subj (assessments tb)))%nat ->
  (forall r, In r (subject_data sid subj (assessments tb)) -> score r == c) ->
  exists p v,
    run (predict_performance sid subj) tb = Returns p
    /\ prediction p = Some v
    /\ Qabs (v - c) <= 1 # 200
    /\ confidence p = "High"%string.
Proof.
  intros Hn Hc.
  destruct (predict_value tb sid subj Hn) as [p [v [Hrun [Hp [Hv [Hconf _]]]]]].
  exists p, v. split; [exact Hrun|]. split; [exact Hp|].
  set (window := recent_window sid subj tb) in *.
  assert (Hlen : (3 <= length window <= 5)%nat).
  { unfold window. rewrite recent_window_length. lia. }
  assert (Hw : forall x, In x window -> c <= x /\ x <= c).
  { intros x Hx. destruct (recent_window_In tb sid subj x Hx) as [r [Hr <-]].
    pose proof (Hc r Hr) as E. rewrite E. split; apply Qle_refl. }
  split.
  - assert (E : prefix_weighted window == c).
    { destruct (prefix_weighted_bounds window c c) as [H1 H2]; [lia|exact Hw|].
      apply Qle_antisym; assumption. }
    rewrite Hv, (round2_comp _ _ E). apply round2_near.
  - rewrite Hconf. unfold ndarray_std.
    destruct window as [|x0 window'] eqn:Ew; [simpl in Hlen; lia|].
    apply confidence_label_cases.
    assert (Hm : mean (x0 :: window') == c).
    { destruct (mean_bounds (x0 :: window') c c) as [H1 H2];
        [simpl; lia|exact Hw|]. apply Qle_antisym; assumption. }
    assert (Hsq : sq_dev (x0 :: window') == 0).
    { unfold sq_dev. cbv zeta. apply Qsum_zero. intros x Hx.
      destruct (Hw x Hx) as [Hx1 Hx2].
      assert (Ex : x == c) by (apply Qle_antisym; assumption).
      rewrite Ex, Hm. ring. }
    rewrite Hsq. reflexivity.
Qed.

Lemma prediction_of_constant_scores_witness :
  exists p v,
    run (predict_performance "STU001" "Mathematics") tables_constant_scores = Returns p
    /\ prediction p = Some v
    /\ Qabs (v - 75) <= 1 # 200
    /\ confidence p = "High"%string.
Proof.
  apply (prediction_of_constant_scores tables_constant_scores "STU001" "Mathematics" 75).
  - simpl. lia.
  - intros r Hr. simpl in Hr.
    destruct Hr as [<-|[<-|[<-|[]]]]; reflexivity.
Defined.

Lemma trend_of_sorted (df : list Assessment) :
  _calculate_improvement_trend (sort_by_assessment_date df)
  = _calculate_improvement_trend df.
Proof.
  unfold _calculate_improvement_trend, sort_by_assessment_date.
  rewrite sort_by_length.
  rewrite (sort_by_key_idempotent (fun r => instant_of (assessment_date r))).
  reflexivity.
Qed.

(** X7: with 3 or 4 observations a numeric prediction is returned
    together with the recent trend "Insufficient Data"; when the dates of
    the student's assessments in the subject are pairwise distinct, the
    recent trend attached to a prediction is the trend label of all those
    assessments, not of the window of five. *)
Theorem prediction_recent_trend (tb : Tables) (sid subj : string) :
  (3 <= length (subject_data sid subj (assessments tb)))%nat ->
  exists p,
    run (predict_performance sid subj) tb = Returns p
    /\ (NoDup (map (fun r => instant_of (assessment_date r))
                 (subject_data sid subj (assessments tb))) ->
        recent_trend p
        = Some (_calculate_improvement_trend (subject_data sid subj (assessments tb))))
    /\ ((length (subject_data sid subj (assessments tb)) < 5)%nat ->
        recent_trend p = Some "Insufficient Data"%string
        /\ prediction p <> None).
Proof.
  intro Hn.
  destruct (predict_value tb sid subj Hn) as [p [v [Hrun [Hp [_ [_ Ht]]]]]].
  rewrite trend_of_sorted in Ht.
  exists p. split; [exact Hrun|]. split; [intros _; exact Ht|].
  intro H5. split; [|rewrite Hp; discriminate].
  rewrite Ht. unfold _calculate_improvement_trend.
  apply Nat.ltb_lt in H5. rewrite H5. reflexivity.
Qed.

Lemma prediction_recent_trend_witness :
  (3 <= length (subject_data "STU001" "Mathematics" (assessments tables_60_70_80)))%nat
  /\ NoDup (map (fun r => instant_of (assessment_date r))
              (subject_data "STU001" "Mathematics" (assessments tables_60_70_80)))
  /\ exists p,
       run (predict_performance "STU001" "Mathematics") tables_60_70_80 = Returns p
       /\ recent_trend p
          = Some (_calculate_improvement_trend
                    (subject_data "STU001" "Mathematics" (assessments tables_60_70_80)))
       /\ recent_trend p = Some "Insufficient Data"%string
       /\ prediction p <> None.
Proof.
  assert (H3 : (3 <= length (subject_data "STU001" "Mathematics"
                               (assessments tables_60_70_80)))%nat)
    by (simpl; lia).
  assert (H5 : (length (subject_data "STU001" "Mathematics"
                          (assessments tables_60_70_80)) < 5)%nat)
    by (simpl; lia).
  assert (Hnd : NoDup (map (fun r => instant_of (assessment_date r))
                         (subject_data "STU001" "Mathematics"
                            (assessments tables_60_70_80)))).
  { vm_compute. repeat constructor; simpl; intuition discriminate. }
  destruct (prediction_recent_trend tables_60_70_80 "STU001" "Mathematics" H3)
    as [p [Hrun [Hall H]]].
  split; [exact H3|]. split; [exact Hnd|].
  exists p. split; [exact Hrun|]. split; [exact (Hall Hnd)|]. exact (H H5).
Defined.

Lemma Permutation_filter {A : Type} (f : A -> bool) (l l' : list A) :
  Permutation l l' -> Permutation (filter f l) (filter f l').
Proof.
  induction 1 as [|x l l' Hp IH|x y l|l l' l'' H1 IH1 H2 IH2]; simpl.
  - constructor.
  - destruct (f x); [constructor|]; exact IH.
  - destruct (f x), (f y); try apply Permutation_refl. apply perm_swap.
  - eapply Permutation_trans; eassumption.
Qed.

Lemma NoDup_map_filter {A B : Type} (key : A -> B) (f : A -> bool) (l : list A) :
  NoDup (map key l) -> NoDup (map key (filter f l)).
Proof.
  induction l as [|x l IH]; simpl; intro H; [constructor|].
  inversion H as [|? ? Hnotin Hnd]; subst.
  destruct (f x); simpl; [|apply IH; exact Hnd].
  constructor; [|apply IH; exact Hnd].
  intro Hin. apply Hnotin. apply in_map_iff in Hin.
  destruct Hin as [y [E Hy]]. apply filter_In in Hy.
  apply in_map_iff. exists y. split; [exact E|apply Hy].
Qed.

(** X8: when the assessment dates are pairwise distinct, a prediction
    does not depend on the order in which the assessment rows are
    stored. *)
Theorem prediction_independent_of_row_order (tb tb' : Tables) (sid subj : string) :
  Permutation (assessments tb) (assessments tb') ->
  NoDup (map (fun r => instant_of (assessment_date r)) (assessments tb)) ->
  run (predict_performance sid subj) tb = run (predict_performance sid subj) tb'.
Proof.
  intros Hp Hnd.
  assert (Hpf : Permutation (subject_data sid subj (assessments tb))
                            (subject_data sid subj (assessments tb'))).
  { unfold subject_data. apply Permutation_filter. exact Hp. }
  assert (Hs : sort_by_assessment_date (subject_data sid subj (assessments tb))
               = sort_by_assessment_date (subject_data sid subj (assessments tb'))).
  { unfold sort_by_assessment_date.
    apply (sort_by_key_perm (fun r => instant_of (assessment_date r))); [exact Hpf|].
    unfold subject_data. apply NoDup_map_filter. exact Hnd. }
  pose proof (Permutation_length Hpf) as Hlen.
  destruct (Nat.lt_ge_cases (length (subject_data sid subj (assessments tb))) 3)
    as [H|H].
  - rewrite (predict_short tb sid subj H).
    rewrite (predict_short tb' sid subj); [reflexivity|lia].
  - rewrite (predict_long tb sid subj H).
    rewrite (predict_long tb' sid subj); [|lia].
    unfold recent_window. rewrite Hs. reflexivity.
Qed.

Lemma prediction_independent_of_row_order_witness :
  run (predict_performance "STU001" "Mathematics") tables_60_70_80
  = run (predict_performance "STU001" "Mathematics")
        (mkTables (students tables_60_70_80) (rev (assessments tables_60_70_80))
                  (sessions tables_60_70_80)).
Proof.
  apply prediction_independent_of_row_order.
  - apply Permutation_rev.
  - vm_compute. repeat constructor; simpl; intuition discriminate.
Defined.

(** ** Groups partition the rows *)

Lemma list_sum_cons_nat (x : nat) (l : list nat) :
  list_sum (x :: l) = (x + list_sum l)%nat.
Proof. reflexivity. Qed.

Section GroupCounts.
Context {A K : Type} (keqb kleb : K -> K -> bool) (key : A -> K).
Hypothesis keqb_eq : forall a b, keqb a b = true <-> a = b.

Lemma key_counted_once (k0 : K) (ks : list K) :
  NoDup ks -> In k0 ks ->
  list_sum (map (fun k => if keqb k0 k then 1 else 0)%nat ks) = 1%nat.
Proof.
  induction ks as [|k ks IH]; intros Hnd Hin; [destruct Hin|].
  inversion Hnd as [|? ? Hnotin Hnd']; subst. simpl.
  destruct (keqb k0 k) eqn:E.
  - apply keqb_eq in E. subst k.
    assert (Hz : list_sum (map (fun k => if keqb k0 k then 1 else 0)%nat ks) = 0%nat).
    { clear IH Hin Hnd Hnd'. induction ks as [|k ks IH]; [reflexivity|]. simpl.
      destruct (keqb k0 k) eqn:E.
      - apply keqb_eq in E. subst k. exfalso. apply Hnotin. left. reflexivity.
      - apply IH. intro H. apply Hnotin. right. exact H. }
    rewrite Hz. reflexivity.
  - destruct Hin as [->|Hin].
    + assert (Ht : keqb k0 k0 = true) by (apply keqb_eq; reflexivity). congruence.
    + rewrite (IH Hnd' Hin). reflexivity.
Qed.

Lemma group_sizes_cons (r : A) (rows : list A) (ks : list K) :
  list_sum (map (fun k => length (filter (fun x => keqb (key x) k) (r :: rows))) ks)
  = (list_sum (map (fun k => if keqb (key r) k then 1 else 0) ks)
     + list_sum (map (fun k => length (filter (fun x => keqb (key x) k) rows)) ks))%nat.
Proof.
  induction ks as [|k ks IH]; [reflexivity|].
  cbn [map]. rewrite !list_sum_cons_nat, IH. cbn [filter].
  destruct (keqb (key r) k); simpl; lia.
Qed.

Lemma group_sizes_total (rows : list A) (ks : list K) :
  NoDup ks -> (forall r, In r rows -> In (key r) ks) ->
  list_sum (map (fun k => length (filter (fun x => keqb (key x) k) rows)) ks)
  = length rows.
Proof.
  intros Hnd. induction rows as [|r rows IH]; intro Hin.
  - clear Hnd Hin. induction ks as [|k ks IH]; simpl; [reflexivity|exact IH].
  - rewrite group_sizes_cons.
    rewrite key_counted_once; [|exact Hnd|apply Hin; left; reflexivity].
    rewrite IH; [reflexivity|]. intros x Hx. apply Hin. right. exact Hx.
Qed.

End GroupCounts.

Lemma map_fst_groupby {A K : Type} (keqb kleb : K -> K -> bool) (key : A -> K)
    (rows : list A) :
  map fst (groupby keqb kleb key rows) = group_keys keqb kleb key rows.
Proof. unfold groupby. rewrite map_map. simpl. apply map_id. Qed.

Lemma topic_keys_NoDup (student_data : list Assessment) :
  NoDup (group_keys pair_eqb pair_leb (fun r => (subject r, topic r)) student_data).
Proof.
  rewrite <- map_fst_groupby. apply groupby_keys_NoDup.
  - apply pair_eqb_eq.
  - apply pair_leb_total.
  - apply pair_leb_trans.
  - apply pair_leb_antisym.
Qed.

Lemma string_keys_NoDup {A : Type} (key : A -> string) (rows : list A) :
  NoDup (group_keys String.eqb String.leb key rows).
Proof.
  rewrite <- map_fst_groupby. apply groupby_keys_NoDup.
  - apply String.eqb_eq.
  - apply String.leb_total.
  - apply string_leb_trans.
  - apply String.leb_antisym.
Qed.

(** X9: the per-topic frame accounts for every assessment of the student
    exactly once: the attempt counts of its rows add up to the number of
    the student's assessments, and every assessment's (subject, topic) pair
    has a row. *)
Theorem topic_attempts_cover_assessments (student_data : list Assessment) :
  list_sum (map topic_attempts (topic_performance student_data)) = length student_data
  /\ (forall a, In a student_data ->
        exists r, In r (topic_performance student_data)
                  /\ topic_subject r = subject a /\ topic_name r = topic a)
  /\ (forall r, In r (topic_performance student_data) -> (1 <= topic_attempts r)%nat).
Proof.
  split; [|split].
  - unfold topic_performance, groupby. rewrite !map_map. cbn [topic_attempts].
    apply (group_sizes_total pair_eqb (fun r => (subject r, topic r)) pair_eqb_eq).
    + apply topic_keys_NoDup.
    + intros r Hr. apply (group_keys_In _ _ _ pair_eqb_eq). exists r. auto.
  - intros a Ha.
    exists (mkTopicRecord (subject a) (topic a)
              (mean (map score (filter (fun x => pair_eqb (subject x, topic x)
                                                   (subject a, topic a)) student_data)))
              (length (filter (fun x => pair_eqb (subject x, topic x)
                                          (subject a, topic a)) student_data))).
    split; [|split; reflexivity].
    apply topic_performance_In. cbv zeta. cbn [topic_subject topic_name avg_score topic_attempts].
    split; [|split; reflexivity].
    assert (Hin : In a (filter (fun x => pair_eqb (subject x, topic x)
                                            (subject a, topic a)) student_data)).
    { apply filter_In. split; [exact Ha|]. apply pair_eqb_eq. reflexivity. }
    destruct (filter (fun x => pair_eqb (subject x, topic x) (subject a, topic a))
                student_data); [destruct Hin|simpl; lia].
  - intros r Hr. apply topic_performance_In in Hr. cbv zeta in Hr.
    destruct Hr as [Hn [_ Hc]]. rewrite Hc. exact Hn.
Qed.

(** ** Thresholds of the topic classifier *)




(** ** The topics a recommendation names *)

Lemma strongly_sorted_app {A : Type} (R : A -> A -> Prop) (l1 l2 : list A) :
  StronglySorted R (l1 ++ l2) ->
  forall x y, In x l1 -> In y l2 -> R x y.
Proof.
  induction l1 as [|a l1 IH]; simpl; intros Hs x y Hx Hy; [destruct Hx|].
  inversion Hs as [|? ? Hs' Hall]; subst.
  destruct Hx as [->|Hx].
  - rewrite Forall_forall in Hall. apply Hall. apply in_or_app. right. exact Hy.
  - apply IH; assumption.
Qed.

(** X11: a student gets at most three recommendations.  When there is a
    weak topic the first one is the Skill Gap recommendation; it names at
    most three topics, and every weak topic it leaves out has a mean score
    at least as high as each topic it names. *)
Theorem skill_gap_names_lowest_topics (tb : Tables) (sid : string) :
  exists weak recs,
    run (identify_weak_topics sid 70) tb = Returns weak
    /\ run (get_study_recommendations sid) tb = Returns recs
    /\ (length recs <= 3)%nat
    /\ ((1 <= length weak)%nat ->
        exists rest, recs = skill_gap (firstn 3 weak) :: rest)
    /\ (length (firstn 3 weak) <= 3)%nat
    /\ (forall named other,
          In named (firstn 3 weak) -> In other (skipn 3 weak) ->
          avg_score named <= avg_score other)
    /\ (forall r, In r weak -> In r (firstn 3 weak) \/ In r (skipn 3 weak)).
Proof.
  pose proof (run_recommendations tb sid) as Hrec. cbv zeta in Hrec.
  pose proof (weak_topics_sorted tb sid 70 _ (run_weak tb sid 70)) as Hsorted.
  eexists. eexists. split; [apply run_weak|]. split; [exact Hrec|].
  set (weak := sort_by _ _) in *.
  split; [|split; [|split; [|split]]].
  - rewrite !length_app.
    destruct weak; destruct (_ && _); destruct (_ && _); simpl; lia.
  - intro H. destruct weak as [|w weak']; [simpl in H; lia|].
    eexists. reflexivity.
  - rewrite length_firstn. lia.
  - intros named other Hn Ho.
    apply (strongly_sorted_app (fun a b => avg_score a <= avg_score b)
             (firstn 3 weak) (skipn 3 weak)); [|exact Hn|exact Ho].
    rewrite firstn_skipn. apply Sorted_StronglySorted; [|exact Hsorted].
    intros a b c Hab Hbc. eapply Qle_trans; eassumption.
  - intros r Hr. rewrite <- (firstn_skipn 3 weak) in Hr.
    apply in_app_or in Hr. exact Hr.
Qed.

(** ** Completion rates are percentages *)

Lemma bool_column_bounds (l : list bool) (x : Q) :
  In x (bool_column l) -> 0 <= x /\ x <= 1.
Proof.
  unfold bool_column. intro H. apply in_map_iff in H.
  destruct H as [[|] [<- _]]; split; discriminate.
Qed.

Lemma completion_ratio_bounds (l : list bool) :
  (1 <= length l)%nat ->
  0 <= Qsum (bool_column l) / Qlen l * 100
  /\ Qsum (bool_column l) / Qlen l * 100 <= 100.
Proof.
  intro H.
  assert (Hlen : Qlen l = Qlen (bool_column l)).
  { unfold Qlen, bool_column. rewrite length_map. reflexivity. }
  destruct (mean_bounds (bool_column l) 0 1) as [H0 H1].
  - unfold bool_column. rewrite length_map. exact H.
  - apply bool_column_bounds.
  - unfold mean in H0, H1. rewrite <- Hlen in H0, H1. split; lra.
Qed.

(** X12: the class completion rate is always a percentage: between 0 and
    100, also after the rounding to two decimals. *)
Theorem class_completion_rate_is_percentage (tb : Tables) :
  exists e,
    run _analyze_engagement tb = Returns e
    /\ 0 <= engagement_completion_rate e
    /\ engagement_completion_rate e <= 100.
Proof.
  rewrite run_engagement. eexists. split; [reflexivity|].
  cbn [engagement_completion_rate].
  apply round2_percent.
  - destruct (0 <? length (sessions tb))%nat eqn:E; [|discriminate].
    apply Nat.ltb_lt in E.
    assert (Hl : Qlen (sessions tb) = Qlen (map completed (sessions tb))).
    { unfold Qlen. rewrite length_map. reflexivity. }
    rewrite Hl. apply completion_ratio_bounds. rewrite length_map. lia.
  - destruct (0 <? length (sessions tb))%nat eqn:E; [|discriminate].
    apply Nat.ltb_lt in E.
    assert (Hl : Qlen (sessions tb) = Qlen (map completed (sessions tb))).
    { unfold Qlen. rewrite length_map. reflexivity. }
    rewrite Hl. apply completion_ratio_bounds. rewrite length_map. lia.
Qed.

Lemma Series_mean_nonempty (l : list Q) :
  (1 <= length l)%nat -> Series_mean l = Fin (mean l).
Proof. destruct l; simpl; [lia|reflexivity]. Qed.

Lemma wrap_int64_small (z : Z) :
  (- 2 ^ 63 <= z < 2 ^ 63)%Z -> wrap_int64 z = z.
Proof.
  intro H. unfold wrap_int64. rewrite Z.mod_small; lia.
Qed.

Lemma wrap_int64_range (z : Z) : (- 2 ^ 63 <= wrap_int64 z < 2 ^ 63)%Z.
Proof.
  unfold wrap_int64.
  pose proof (Z.mod_pos_bound (z + 2 ^ 63) (2 ^ 64) eq_refl). lia.
Qed.

(** X13: for a student with at least one assessment and at least one
    study session, the completion rate of the summary is a number between
    0 and 100, namely 100 times the share of completed sessions (not
    rounded), and the total study time is the sum of the session
    durations as an int64: the sum itself, and non-negative, when the
    durations are non-negative and their sum is below 2^63; the sum
    reduced modulo 2^64 into the int64 range otherwise. *)
Theorem summary_session_figures (tb : Tables) (sid : string) :
  let student_sessions := sessions_of sid (sessions tb) in
  (1 <= length (assessments_of sid (assessments tb)))%nat ->
  (1 <= length student_sessions)%nat ->
  exists s q,
    run (get_student_performance_summary sid) tb = Returns (Some s)
    /\ completion_rate s = Fin q
    /\ q == Qlen (filter completed student_sessions) / Qlen student_sessions * 100
    /\ 0 <= q /\ q <= 100
    /\ total_study_time s
       = wrap_int64 (fold_right Z.add 0%Z (map duration_minutes student_sessions))
    /\ (- 2 ^ 63 <= total_study_time s < 2 ^ 63)%Z
    /\ ((forall r, In r student_sessions -> (0 <= duration_minutes r)%Z) ->
        (fold_right Z.add 0%Z (map duration_minutes student_sessions) < 2 ^ 63)%Z ->
        total_study_time s = fold_right Z.add 0%Z (map duration_minutes student_sessions)
        /\ (0 <= total_study_time s)%Z).
Proof.
  intros student_sessions Ha Hs.
  destruct (summary_some tb sid Ha) as [s [Hrun [_ [_ [_ [_ [Ht [Hc _]]]]]]]].
  fold student_sessions in Ht, Hc.
  assert (Hb : (1 <= length (map completed student_sessions))%nat)
    by (rewrite length_map; exact Hs).
  assert (Hl : Qlen student_sessions = Qlen (bool_column (map completed student_sessions))).
  { unfold Qlen, bool_column. rewrite !length_map. reflexivity. }
  exists s, (mean (bool_column (map completed student_sessions)) * 100).
  split; [exact Hrun|]. split.
  { rewrite Hc, Series_mean_nonempty; [reflexivity|].
    unfold bool_column. rewrite length_map. exact Hb. }
  split; [|split; [|split; [|split; [|split]]]].
  - unfold mean. rewrite <- Hl, completed_sessions_count. reflexivity.
  - unfold mean. rewrite <- Hl.
    assert (Hl' : Qlen student_sessions = Qlen (map completed student_sessions)).
    { unfold Qlen. rewrite length_map. reflexivity. }
    rewrite Hl'. apply completion_ratio_bounds. exact Hb.
  - unfold mean. rewrite <- Hl.
    assert (Hl' : Qlen student_sessions = Qlen (map completed student_sessions)).
    { unfold Qlen. rewrite length_map. reflexivity. }
    rewrite Hl'. apply completion_ratio_bounds. exact Hb.
  - exact Ht.
  - rewrite Ht. apply wrap_int64_range.
  - intros Hd Hsum.
    assert (H0 : (0 <= fold_right Z.add 0 (map duration_minutes student_sessions))%Z).
    { clear -Hd.
      induction student_sessions as [|r l IH]; simpl; [lia|].
      pose proof (Hd r (or_introl eq_refl)).
      assert (0 <= fold_right Z.add 0 (map duration_minutes l))%Z
        by (apply IH; intros x Hx; apply Hd; right; exact Hx).
      lia. }
    rewrite Ht, wrap_int64_small; [split; [reflexivity|exact H0]|lia].
Qed.

Lemma summary_session_figures_witness :
  exists s q,
    run (get_student_performance_summary "STU001") tables_three_sessions
    = Returns (Some s)
    /\ completion_rate s = Fin q
    /\ 0 <= q /\ q <= 100
    /\ total_study_time s = 90%Z.
Proof.
  destruct (summary_session_figures tables_three_sessions "STU001")
    as [s [q [Hrun [Hc [_ [H0 [H100 [Ht _]]]]]]]].
  - simpl. lia.
  - simpl. lia.
  - exists s, q. split; [exact Hrun|]. split; [exact Hc|].
    split; [exact H0|]. split; [exact H100|]. rewrite Ht. reflexivity.
Defined.

(** ** Top performers and struggling students *)

Section Selection.
Context {A : Type} (leb : A -> A -> bool) (key : A -> string).
Hypothesis leb_total : forall a b, leb a b = true \/ leb b a = true.
Hypothesis leb_trans : forall a b c, leb a b = true -> leb b c = true -> leb a c = true.

Lemma strongly_sorted_prefix (R : A -> A -> Prop) (l1 l2 : list A) :
  StronglySorted R (l1 ++ l2) -> StronglySorted R l1.
Proof.
  induction l1 as [|a l1 IH]; simpl; intro H; [constructor|].
  inversion H as [|? ? Hs Hall]; subst. constructor; [apply IH; exact Hs|].
  rewrite Forall_forall in *. intros x Hx. apply Hall. apply in_or_app. left. exact Hx.
Qed.

Lemma sort_by_strongly_sorted (l : list A) :
  StronglySorted (fun a b => leb a b = true) (sort_by leb l).
Proof.
  apply Sorted_StronglySorted; [|apply sort_by_sorted; exact leb_total].
  intros a b c. apply leb_trans.
Qed.

Lemma selection_facts (n : nat) (l : list A) :
  NoDup (map key l) ->
  let sel := firstn n (sort_by leb l) in
  length sel = Nat.min n (length l)
  /\ StronglySorted (fun a b => leb a b = true) sel
  /\ NoDup (map key sel)
  /\ (forall x, In x sel -> In x l)
  /\ (forall x y, In x sel -> In y l -> ~ In (key y) (map key sel) -> leb x y = true)
  /\ ((length l <= n)%nat -> Permutation l sel).
Proof.
  intros Hnd sel.
  pose proof (sort_by_strongly_sorted l) as Hss.
  pose proof (firstn_skipn n (sort_by leb l)) as Hsplit. fold sel in Hsplit.
  split; [|split; [|split; [|split; [|split]]]].
  - unfold sel. rewrite length_firstn, sort_by_length. reflexivity.
  - rewrite <- Hsplit in Hss. apply strongly_sorted_prefix in Hss. exact Hss.
  - assert (Hnd' : NoDup (map key (sort_by leb l))).
    { eapply Permutation_NoDup; [apply Permutation_map, sort_by_perm|exact Hnd]. }
    rewrite <- Hsplit, map_app in Hnd'. apply NoDup_app_remove_r in Hnd'. exact Hnd'.
  - intros x Hx. apply (sort_by_In leb). apply In_firstn_list in Hx. exact Hx.
  - intros x y Hx Hy Hout.
    assert (Hy' : In y (sort_by leb l)) by (apply sort_by_In; exact Hy).
    rewrite <- Hsplit in Hy'. apply in_app_or in Hy'. destruct Hy' as [Hy'|Hy'].
    + exfalso. apply Hout. apply in_map. exact Hy'.
    + rewrite <- Hsplit in Hss.
      exact (strongly_sorted_app _ _ _ Hss x y Hx Hy').
  - intro Hle. unfold sel. rewrite firstn_all2; [apply sort_by_perm|].
    rewrite sort_by_length. exact Hle.
Qed.

End Selection.

Lemma student_avg_In (df : list Assessment) (k : string) (v : Q) :
  In (k, v) (student_avg df) <->
  (exists r, In r df /\ student_id r = k) /\ v = mean (map score (assessments_of k df)).
Proof.
  unfold student_avg, assessments_of. rewrite in_map_iff. split.
  - intros [[k' g] [E Hin]]. inversion E; subst.
    apply (groupby_In _ _ _ String.eqb_eq) in Hin. destruct Hin as [Hk ->].
    split; [exact Hk|reflexivity].
  - intros [Hk ->].
    exists (k, filter (fun r => (student_id r =? k)%string) df).
    split; [reflexivity|].
    apply (groupby_In _ _ _ String.eqb_eq). split; [exact Hk|reflexivity].
Qed.

Lemma student_avg_keys (df : list Assessment) : NoDup (map fst (student_avg df)).
Proof.
  unfold student_avg. rewrite map_map.
  rewrite (map_ext _ fst); [|intros [k rows]; reflexivity].
  rewrite map_fst_groupby. apply string_keys_NoDup.
Qed.

Lemma StronglySorted_map {A B : Type} (f : A -> B) (R : B -> B -> Prop) (l : list A) :
  StronglySorted (fun a b => R (f a) (f b)) l -> StronglySorted R (map f l).
Proof.
  induction 1 as [|a l Hs IH Hall]; simpl; constructor; [exact IH|].
  rewrite Forall_forall in *. intros y Hy. apply in_map_iff in Hy.
  destruct Hy as [x [<- Hx]]. apply Hall. exact Hx.
Qed.

Lemma ranking_facts (cmp : Q -> Q -> bool) (n : nat) (df : list Assessment) :
  (forall a b, cmp a b = true \/ cmp b a = true) ->
  (forall a b c, cmp a b = true -> cmp b c = true -> cmp a c = true) ->
  let ranked :=
    map (fun '(sid, sc) => mkStudentAverage sid sc)
        (firstn n (sort_by (fun a b => cmp (snd a) (snd b)) (student_avg df))) in
  length ranked = Nat.min n (length (student_avg df))
  /\ NoDup (map avg_student_id ranked)
  /\ StronglySorted
       (fun a b => cmp (student_average_score a) (student_average_score b) = true) ranked
  /\ (forall s, In s ranked ->
        (exists r, In r df /\ student_id r = avg_student_id s)
        /\ student_average_score s
           = mean (map score (assessments_of (avg_student_id s) df)))
  /\ (forall s r, In s ranked -> In r df ->
        ~ In (student_id r) (map avg_student_id ranked) ->
        cmp (student_average_score s)
            (mean (map score (assessments_of (student_id r) df))) = true)
  /\ ((length (student_avg df) <= n)%nat ->
      Permutation
        (map (fun '(sid, sc) => mkStudentAverage sid sc) (student_avg df)) ranked).
Proof.
  intros Htot Htrans ranked.
  destruct (selection_facts (fun a b : string * Q => cmp (snd a) (snd b)) fst
              (fun a b => Htot (snd a) (snd b))
              (fun a b c => Htrans (snd a) (snd b) (snd c))
              n (student_avg df) (student_avg_keys df))
    as [Hlen [Hss [Hnd [Hin [Hout Hall]]]]].
  set (sel := firstn n (sort_by (fun a b => cmp (snd a) (snd b)) (student_avg df))) in *.
  assert (Hids : map avg_student_id ranked = map fst sel).
  { unfold ranked. rewrite map_map. apply map_ext. intros [k v]. reflexivity. }
  split; [|split; [|split; [|split; [|split]]]].
  - unfold ranked. rewrite length_map. exact Hlen.
  - rewrite Hids. exact Hnd.
  - unfold ranked. apply StronglySorted_map.
    eapply StronglySorted_ind with (P := fun l => StronglySorted _ l);
      [constructor| |exact Hss].
    intros [k v] l Hs IH Hfa. constructor; [exact IH|].
    rewrite Forall_forall in *. intros [k' v'] Hx. exact (Hfa _ Hx).
  - intros s Hs. unfold ranked in Hs. apply in_map_iff in Hs.
    destruct Hs as [[k v] [<- Hkv]]. cbn [avg_student_id student_average_score].
    apply student_avg_In. apply Hin. exact Hkv.
  - intros s r Hs Hr Hnot. unfold ranked in Hs. apply in_map_iff in Hs.
    destruct Hs as [[k v] [<- Hkv]]. cbn [student_average_score].
    apply (Hout (k, v)
             (student_id r, mean (map score (assessments_of (student_id r) df)))).
    + exact Hkv.
    + apply student_avg_In. split; [exists r; auto|reflexivity].
    + rewrite <- Hids. exact Hnot.
  - intro Hle. unfold ranked. apply Permutation_map. apply Hall. exact Hle.
Qed.

(** X14: the top performers are at most n students with assessments,
    each listed once with the mean of all its scores, in descending order
    of that mean, and no student left out has a higher mean than a listed
    one; the struggling students are the same with the order reversed. *)
Theorem top_and_struggling_students (tb : Tables) (n : nat) :
  let df := assessments tb in
  let average sid := mean (map score (assessments_of sid df)) in
  exists top struggling,
    run (_get_top_students n) tb = Returns top
    /\ run (_get_struggling_students n) tb = Returns struggling
    /\ length top = Nat.min n (length (student_avg df))
    /\ length struggling = Nat.min n (length (student_avg df))
    /\ NoDup (map avg_student_id top)
    /\ NoDup (map avg_student_id struggling)
    /\ StronglySorted
         (fun a b => student_average_score b <= student_average_score a) top
    /\ StronglySorted
         (fun a b => student_average_score a <= student_average_score b) struggling
    /\ (forall s, In s top \/ In s struggling ->
          (exists r, In r df /\ student_id r = avg_student_id s)
          /\ student_average_score s = average (avg_student_id s))
    /\ (forall s r, In s top -> In r df ->
          ~ In (student_id r) (map avg_student_id top) ->
          average (student_id r) <= student_average_score s)
    /\ (forall s r, In s struggling -> In r df ->
          ~ In (student_id r) (map avg_student_id struggling) ->
          student_average_score s <= average (student_id r)).
Proof.
  intros df average.
  assert (Htot1 : forall a b, Qle_bool b a = true \/ Qle_bool a b = true)
    by (intros; apply Qle_bool_total).
  assert (Htr1 : forall a b c,
             Qle_bool b a = true -> Qle_bool c b = true -> Qle_bool c a = true).
  { intros a b c H1 H2. apply Qle_bool_iff in H1, H2. apply Qle_bool_iff.
    eapply Qle_trans; eassumption. }
  assert (Htr2 : forall a b c,
             Qle_bool a b = true -> Qle_bool b c = true -> Qle_bool a c = true).
  { intros a b c H1 H2. apply Qle_bool_iff in H1, H2. apply Qle_bool_iff.
    eapply Qle_trans; eassumption. }
  destruct (ranking_facts (fun a b => Qle_bool b a) n df Htot1 Htr1)
    as [T1 [T2 [T3 [T4 [T5 _]]]]].
  destruct (ranking_facts Qle_bool n df Qle_bool_total Htr2)
    as [S1 [S2 [S3 [S4 [S5 _]]]]].
  eexists. eexists.
  split; [reflexivity|]. split; [reflexivity|].
  unfold nlargest, nsmallest.
  split; [exact T1|]. split; [exact S1|]. split; [exact T2|]. split; [exact S2|].
  split; [|split; [|split; [|split]]].
  - eapply StronglySorted_ind with (P := fun l => StronglySorted _ l);
      [constructor| |exact T3].
    intros a l Hs IH Hfa. constructor; [exact IH|].
    rewrite Forall_forall in *. intros x Hx. apply Qle_bool_iff. exact (Hfa x Hx).
  - eapply StronglySorted_ind with (P := fun l => StronglySorted _ l);
      [constructor| |exact S3].
    intros a l Hs IH Hfa. constructor; [exact IH|].
    rewrite Forall_forall in *. intros x Hx. apply Qle_bool_iff. exact (Hfa x Hx).
  - intros s [Hs|Hs]; [apply T4|apply S4]; exact Hs.
  - intros s r Hs Hr Hnot. apply Qle_bool_iff. exact (T5 s r Hs Hr Hnot).
  - intros s r Hs Hr Hnot. apply Qle_bool_iff. exact (S5 s r Hs Hr Hnot).
Qed.

(** ** Class insights *)

Lemma run_class_insights (tb : Tables) :
  exists difficulty engagement,
    run _analyze_subject_difficulty tb = Returns difficulty
    /\ run _analyze_engagement tb = Returns engagement
    /\ run get_class_insights tb
       = Returns
           (mkClassInsights (length (students tb)) (length (assessments tb))
              (Series_mean (map score (assessments tb)))
              (map (fun '(sid, sc) => mkStudentAverage sid sc)
                   (nlargest 5 (student_avg (assessments tb))))
              (map (fun '(sid, sc) => mkStudentAverage sid sc)
                   (nsmallest 5 (student_avg (assessments tb))))
              difficulty engagement).
Proof.
  eexists. eexists. split; [reflexivity|]. split; [apply run_engagement|].
  unfold run, get_class_insights, _get_top_students, _get_struggling_students,
    _analyze_subject_difficulty, bind, get_students, get_assessments, ret.
  cbv beta iota. rewrite analyze_engagement_value. reflexivity.
Qed.

(** X15: when at most five students have assessments, the class insights
    list every one of them both as a top performer and as a struggling
    student: the two lists hold the same entries. *)
Theorem few_students_are_top_and_struggling (tb : Tables) :
  (length (student_avg (assessments tb)) <= 5)%nat ->
  exists ci,
    run get_class_insights tb = Returns ci
    /\ Permutation (top_performers ci) (struggling_students ci)
    /\ length (top_performers ci) = length (student_avg (assessments tb))
    /\ (forall r, In r (assessments tb) ->
          In (student_id r) (map avg_student_id (top_performers ci))
          /\ In (student_id r) (map avg_student_id (struggling_students ci))).
Proof.
  intro H.
  destruct (run_class_insights tb) as [d [e [_ [_ Hrun]]]].
  eexists. split; [exact Hrun|].
  cbn [top_performers struggling_students]. unfold nlargest, nsmallest.
  assert (Htot1 : forall a b, Qle_bool b a = true \/ Qle_bool a b = true)
    by (intros; apply Qle_bool_total).
  assert (Htr1 : forall a b c,
             Qle_bool b a = true -> Qle_bool c b = true -> Qle_bool c a = true).
  { intros a b c H1 H2. apply Qle_bool_iff in H1, H2. apply Qle_bool_iff.
    eapply Qle_trans; eassumption. }
  assert (Htr2 : forall a b c,
             Qle_bool a b = true -> Qle_bool b c = true -> Qle_bool a c = true).
  { intros a b c H1 H2. apply Qle_bool_iff in H1, H2. apply Qle_bool_iff.
    eapply Qle_trans; eassumption. }
  destruct (ranking_facts (fun a b => Qle_bool b a) 5 (assessments tb) Htot1 Htr1)
    as [T1 [_ [_ [_ [_ T6]]]]].
  destruct (ranking_facts Qle_bool 5 (assessments tb) Qle_bool_total Htr2)
    as [_ [_ [_ [_ [_ S6]]]]].
  pose proof (T6 H) as PT. pose proof (S6 H) as PS.
  assert (Hall : forall r, In r (assessments tb) ->
            In (student_id r)
               (map avg_student_id
                  (map (fun '(sid, sc) => mkStudentAverage sid sc)
                       (student_avg (assessments tb))))).
  { intros r Hr. rewrite map_map.
    apply in_map_iff.
    exists (student_id r, mean (map score (assessments_of (student_id r) (assessments tb)))).
    split; [reflexivity|]. apply student_avg_In. split; [exists r; auto|reflexivity]. }
  split; [|split].
  - eapply Permutation_trans; [apply Permutation_sym; exact PT|exact PS].
  - rewrite T1. lia.
  - intros r Hr. split.
    + eapply Permutation_in; [apply Permutation_map; exact PT|apply Hall; exact Hr].
    + eapply Permutation_in; [apply Permutation_map; exact PS|apply Hall; exact Hr].
Qed.

Lemma few_students_are_top_and_struggling_witness :
  exists ci,
    run get_class_insights tables_60_70_80 = Returns ci
    /\ Permutation (top_performers ci) (struggling_students ci).
Proof.
  destruct (few_students_are_top_and_struggling tables_60_70_80)
    as [ci [Hrun [Hp _]]].
  - vm_compute. lia.
  - exists ci. split; [exact Hrun|exact Hp].
Defined.

Lemma list_sum_perm (l l' : list nat) : Permutation l l' -> list_sum l = list_sum l'.
Proof.
  induction 1 as [|x l l' Hp IH|x y l|l l' l'' H1 IH1 H2 IH2];
    rewrite ?list_sum_cons_nat; lia.
Qed.

(** X17: the subject statistics hold one entry per subject present in the
    assessments, with the mean, the sample standard deviation and the
    number of that subject's scores; the entries are in ascending order of
    mean, and their counts add up to the number of assessments. *)
Theorem subject_difficulty_table (tb : Tables) :
  let df := assessments tb in
  let rows subj := filter (fun r => (subject r =? subj)%string) df in
  exists difficulty,
    run _analyze_subject_difficulty tb = Returns difficulty
    /\ NoDup (map fst difficulty)
    /\ Sorted (fun a b => stats_mean (snd a) <= stats_mean (snd b)) difficulty
    /\ list_sum (map (fun e => stats_count (snd e)) difficulty) = length df
    /\ (forall subj st,
          In (subj, st) difficulty <->
          (exists r, In r df /\ subject r = subj)
          /\ st = mkSubjectStats (mean (map score (rows subj)))
                    (Series_std (map score (rows subj))) (length (rows subj))).
Proof.
  intros df rows.
  set (stats :=
         map (fun '(k, g) =>
                (k, mkSubjectStats (mean (map score g)) (Series_std (map score g))
                      (length g)))
             (groupby String.eqb String.leb subject df)).
  assert (Hperm : Permutation stats
            (sort_by (fun a b => Qle_bool (stats_mean (snd a)) (stats_mean (snd b)))
               stats)) by apply sort_by_perm.
  assert (Hkeys : map fst stats = group_keys String.eqb String.leb subject df).
  { unfold stats. rewrite map_map.
    rewrite (map_ext _ fst); [|intros [k g]; reflexivity].
    apply map_fst_groupby. }
  eexists. split; [reflexivity|]. fold stats.
  split; [|split; [|split]].
  - eapply Permutation_NoDup; [apply Permutation_map; exact Hperm|].
    rewrite Hkeys. apply string_keys_NoDup.
  - apply (Sorted_weaken
             (fun a b => Qle_bool (stats_mean (snd a)) (stats_mean (snd b)) = true)).
    + intros a b Hab. apply Qle_bool_iff. exact Hab.
    + apply sort_by_sorted. intros a b. apply Qle_bool_total.
  - rewrite <- (list_sum_perm _ _ (Permutation_map _ Hperm)).
    unfold stats, groupby. rewrite !map_map. cbn [snd stats_count].
    apply (group_sizes_total String.eqb subject String.eqb_eq).
    + apply string_keys_NoDup.
    + intros r Hr. apply (group_keys_In _ _ _ String.eqb_eq). exists r. auto.
  - intros subj st. rewrite sort_by_In. unfold stats. rewrite in_map_iff. split.
    + intros [[k g] [E Hin]]. inversion E; subst.
      apply (groupby_In _ _ _ String.eqb_eq) in Hin. destruct Hin as [Hk ->].
      split; [exact Hk|reflexivity].
    + intros [Hk ->]. exists (subj, rows subj). split; [reflexivity|].
      apply (groupby_In _ _ _ String.eqb_eq). split; [exact Hk|reflexivity].
Qed.

(** ** One prediction per subject attempted *)

Lemma unique_In (l : list string) (x : string) : In x (unique l) <-> In x l.
Proof.
  induction l as [|y l IH]; simpl; [tauto|].
  rewrite filter_In, IH, negb_true_iff, String.eqb_neq.
  destruct (string_dec y x) as [->|Hne]; [tauto|].
  split; [intros [H|[H _]]; auto|intros [H|H]; auto].
Qed.

Lemma NoDup_filter_list {A : Type} (f : A -> bool) (l : list A) :
  NoDup l -> NoDup (filter f l).
Proof.
  induction 1 as [|x l Hnotin Hnd IH]; simpl; [constructor|].
  destruct (f x); [|exact IH].
  constructor; [|exact IH]. intro H. apply filter_In in H. apply Hnotin, H.
Qed.

Lemma unique_NoDup (l : list string) : NoDup (unique l).
Proof.
  induction l as [|y l IH]; simpl; constructor.
  - intro H. apply filter_In in H. destruct H as [_ H].
    rewrite String.eqb_refl in H. discriminate H.
  - apply NoDup_filter_list. exact IH.
Qed.

(** X18: a report holds exactly one prediction per subject the student
    has attempted, and the prediction of a subject is numeric exactly when
    the student has at least 3 assessments in it. *)
Theorem report_predictions_per_subject (tb : Tables) (now sid : string) :
  (1 <= length (assessments_of sid (assessments tb)))%nat ->
  exists r,
    run (generate_insight_report now sid) tb = Returns (Report r)
    /\ NoDup (map fst (subject_predictions r))
    /\ (forall subj,
          In subj (map fst (subject_predictions r)) <->
          exists a, In a (assessments tb) /\ student_id a = sid /\ subject a = subj)
    /\ (forall subj p,
          In (subj, p) (subject_predictions r) ->
          (prediction p <> None <->
           (3 <= length (subject_data sid subj (assessments tb)))%nat)).
Proof.
  intro H.
  destruct (report_full tb now sid H) as [r [Hrun [_ [_ [_ [_ [_ [_ [Hkeys Hp]]]]]]]]].
  exists r. split; [exact Hrun|]. rewrite Hkeys.
  split; [apply unique_NoDup|]. split.
  - intro subj. rewrite unique_In, in_map_iff. unfold assessments_of. split.
    + intros [a [E Ha]]. apply filter_In in Ha. destruct Ha as [Ha Hs].
      apply String.eqb_eq in Hs. exists a. auto.
    + intros [a [Ha [Hs E]]]. exists a. split; [exact E|].
      apply filter_In. split; [exact Ha|]. apply String.eqb_eq. exact Hs.
  - intros subj p Hin. pose proof (Hp subj p Hin) as Hrunp.
    destruct (Nat.lt_ge_cases (length (subject_data sid subj (assessments tb))) 3)
      as [Hlt|Hge].
    + rewrite (predict_short tb sid subj Hlt) in Hrunp. inversion Hrunp; subst.
      simpl. split; [congruence|lia].
    + destruct (predict_value tb sid subj Hge) as [p' [v [Hrun' [Hv _]]]].
      rewrite Hrun' in Hrunp. inversion Hrunp; subst.
      split; [intros _; exact Hge|intros _; rewrite Hv; discriminate].
Qed.

Lemma report_predictions_per_subject_witness :
  exists r,
    run (generate_insight_report "2024-06-01T12:00:00" "STU001") tables_60_70_80
    = Returns (Report r)
    /\ NoDup (map fst (subject_predictions r)).
Proof.
  destruct (report_predictions_per_subject tables_60_70_80
              "2024-06-01T12:00:00" "STU001")
    as [r [Hrun [Hnd _]]].
  - simpl. lia.
  - exists r. split; [exact Hrun|exact Hnd].
Defined.

(** ** Loading the data *)

(** X19: in [load_data] the dashboard has already converted both date
    columns when it constructs the analyzer, so the constructor changes
    nothing there: the frames are those a bare construction would leave,
    with both date columns holding datetimes; constructing a second
    analyzer on the same frames changes nothing either. *)
Theorem load_data_then_construct (tb : Tables) :
  exec load_data tb = exec __init__ tb
  /\ dates_parsed (exec load_data tb) = true
  /\ exec __init__ (exec __init__ tb) = exec __init__ tb
  /\ run load_data tb = Returns tt.
Proof.
  assert (Hparsed : dates_parsed (exec __init__ tb) = true).
  { unfold dates_parsed. rewrite init_assessments, init_sessions.
    apply andb_true_iff; split; apply forallb_forall; intros x Hx;
      apply in_map_iff in Hx; destruct Hx as [r [<- _]]; reflexivity. }
  assert (Hidem : exec __init__ (exec __init__ tb) = exec __init__ tb)
    by (apply init_parsed; exact Hparsed).
  assert (Hload : exec load_data tb = exec __init__ (exec __init__ tb))
    by reflexivity.
  split; [rewrite Hload; exact Hidem|].
  split; [rewrite Hload, Hidem; exact Hparsed|].
  split; [exact Hidem|reflexivity].
Qed.

(** ** Generated scores *)

(** X20: whatever the student's parameters and the random variation, a
    generated score is between 0 and 100; when the raw score is already
    in that range the generated score is within 0.005 of it (it is the
    raw score rounded to two decimals). *)
Theorem generated_score_in_range
    (base_ability learning_rate random_variation : Q) (k n : nat) :
  0 <= generated_score base_ability learning_rate random_variation k n
  /\ generated_score base_ability learning_rate random_variation k n <= 100
  /\ (let raw :=
        base_ability
        + inject_Z (Z.of_nat k) / inject_Z (Z.of_nat n) * learning_rate * 10
        + random_variation in
      0 <= raw -> raw <= 100 ->
      Qabs (generated_score base_ability learning_rate random_variation k n - raw)
      <= 1 # 200).
Proof.
  unfold generated_score. cbv zeta.
  set (raw := base_ability
              + inject_Z (Z.of_nat k) / inject_Z (Z.of_nat n) * learning_rate * 10
              + random_variation).
  assert (Hb : 0 <= Qmax 0 (Qmin 100 raw) /\ Qmax 0 (Qmin 100 raw) <= 100).
  { split; [apply Q.le_max_l|].
    apply Q.max_lub; [discriminate|apply Q.le_min_l]. }
  split; [apply round2_percent; apply Hb|].
  split; [apply round2_percent; apply Hb|].
  intros H0 H100.
  assert (E : Qmax 0 (Qmin 100 raw) == raw).
  { rewrite (Q.min_r 100 raw H100). apply Q.max_r. exact H0. }
  rewrite (round2_comp _ _ E). apply round2_near.
Qed.

(** ** The trend points of the class plot *)

Lemma Qsum_perm (l l' : list Q) : Permutation l l' -> Qsum l == Qsum l'.
Proof.
  induction 1 as [|x l l' Hp IH|x y l|l l' l'' H1 IH1 H2 IH2]; simpl.
  - reflexivity.
  - fold (Qsum l) (Qsum l'). rewrite IH. reflexivity.
  - fold (Qsum l). ring.
  - rewrite IH1. exact IH2.
Qed.

Lemma mean_perm (l l' : list Q) : Permutation l l' -> mean l == mean l'.
Proof.
  intro H. unfold mean, Qlen. rewrite (Qsum_perm _ _ H), (Permutation_length H).
  reflexivity.
Qed.

Lemma student_trends_In (df : list Assessment) (pt : TrendPoint) :
  In pt (student_trends df) <->
  let student_data := sort_by_assessment_date (assessments_of (trend_student_id pt) df) in
  (5 <= length student_data)%nat
  /\ pt = mkTrendPoint (trend_student_id pt) (ols_slope (map score student_data))
            (Series_mean (map score student_data)).
Proof.
  unfold student_trends. rewrite in_flat_map. cbv zeta. split.
  - intros [sid [Hsid Hpt]].
    destruct (length (sort_by_assessment_date (assessments_of sid df)) <? 5)%nat eqn:E;
      [destruct Hpt|].
    destruct Hpt as [<-|[]]. cbn [trend_student_id].
    apply Nat.ltb_ge in E. split; [exact E|reflexivity].
  - intros [Hn Hpt]. exists (trend_student_id pt). split.
    + apply unique_In.
      assert (Hlen : (1 <= length (assessments_of (trend_student_id pt) df))%nat).
      { unfold sort_by_assessment_date in Hn. rewrite sort_by_length in Hn. lia. }
      destruct (assessments_of (trend_student_id pt) df) as [|a l] eqn:E;
        [simpl in Hlen; lia|].
      assert (Ha : In a (assessments_of (trend_student_id pt) df))
        by (rewrite E; left; reflexivity).
      unfold assessments_of in Ha. apply filter_In in Ha. destruct Ha as [Ha Hs].
      apply String.eqb_eq in Hs. rewrite <- Hs. apply in_map. exact Ha.
    + apply Nat.ltb_ge in Hn. rewrite Hn. left. symmetry. exact Hpt.
Qed.

Lemma student_trends_ids_NoDup (df : list Assessment) :
  NoDup (map trend_student_id (student_trends df)).
Proof.
  unfold student_trends.
  pose proof (unique_NoDup (map student_id df)) as Hnd.
  induction (unique (map student_id df)) as [|sid ids IH]; simpl; [constructor|].
  inversion Hnd as [|? ? Hnotin Hnd']; subst.
  destruct (length (sort_by_assessment_date (assessments_of sid df)) <? 5)%nat;
    simpl; [apply IH; exact Hnd'|].
  constructor; [|apply IH; exact Hnd'].
  intro Hin. apply in_map_iff in Hin. destruct Hin as [pt [E Hpt]].
  apply in_flat_map in Hpt. destruct Hpt as [sid' [Hsid' Hpt]].
  destruct (length (sort_by_assessment_date (assessments_of sid' df)) <? 5)%nat;
    [destruct Hpt|].
  destruct Hpt as [<-|[]]. simpl in E. subst sid'. contradiction.
Qed.

(** X21: the trend points of the class plot agree with the analyzer: a
    student has a point exactly when it has at least 5 assessments, that
    is, when its summary's trend is not "Insufficient Data"; there is at
    most one point per student; the slope of the point is the slope the
    summary's trend label classifies, and its average is the summary's
    average.  When no student has 5 assessments the list is empty. *)
Theorem trend_points_match_analyzer (tb : Tables) :
  let points := student_trends (assessments tb) in
  NoDup (map trend_student_id points)
  /\ (forall sid,
        In sid (map trend_student_id points) <->
        (5 <= length (assessments_of sid (assessments tb)))%nat)
  /\ (forall pt, In pt points ->
        exists s m m',
          run (get_student_performance_summary (trend_student_id pt)) tb
          = Returns (Some s)
          /\ improvement_trend s = classify_slope (trend_slope pt)
          /\ improvement_trend s <> "Insufficient Data"%string
          /\ trend_avg_score pt = Fin m /\ average_score s = Fin m' /\ m == m')
  /\ ((forall sid, (length (assessments_of sid (assessments tb)) < 5)%nat) ->
      points = []).
Proof.
  intro points. split; [apply student_trends_ids_NoDup|].
  assert (Hiff : forall sid,
             In sid (map trend_student_id points) <->
             (5 <= length (assessments_of sid (assessments tb)))%nat).
  { intro sid. rewrite in_map_iff. split.
    - intros [pt [<- Hpt]]. apply student_trends_In in Hpt. cbv zeta in Hpt.
      destruct Hpt as [Hn _]. unfold sort_by_assessment_date in Hn.
      rewrite sort_by_length in Hn. exact Hn.
    - intro Hn.
      exists (mkTrendPoint sid
                (ols_slope (map score (sort_by_assessment_date
                                         (assessments_of sid (assessments tb)))))
                (Series_mean (map score (sort_by_assessment_date
                                           (assessments_of sid (assessments tb)))))).
      split; [reflexivity|]. apply student_trends_In. cbv zeta.
      cbn [trend_student_id]. split; [|reflexivity].
      unfold sort_by_assessment_date. rewrite sort_by_length. exact Hn. }
  split; [exact Hiff|]. split.
  - intros pt Hpt. apply student_trends_In in Hpt. cbv zeta in Hpt.
    destruct Hpt as [Hn Hpt].
    set (sid := trend_student_id pt) in *.
    assert (Hlen : (5 <= length (assessments_of sid (assessments tb)))%nat).
    { unfold sort_by_assessment_date in Hn. rewrite sort_by_length in Hn. exact Hn. }
    destruct (summary_some tb sid) as [s [Hrun [_ [_ [Havg [_ [_ [_ Htrend]]]]]]]];
      [lia|].
    exists s.
    exists (mean (map score (sort_by_assessment_date (assessments_of sid (assessments tb))))).
    exists (mean (map score (assessments_of sid (assessments tb)))).
    split; [exact Hrun|].
    assert (Hslope : improvement_trend s = classify_slope (trend_slope pt)).
    { rewrite Htrend, (trend_of_long_series _ Hlen), Hpt. reflexivity. }
    split; [exact Hslope|]. split.
    { rewrite Hslope. apply classify_slope_sufficient. }
    split.
    { rewrite Hpt. cbn [trend_avg_score]. apply Series_mean_nonempty.
      rewrite length_map. lia. }
    split.
    { rewrite Havg. apply Series_mean_nonempty. rewrite length_map. lia. }
    apply mean_perm. apply Permutation_map, Permutation_sym.
    unfold sort_by_assessment_date. apply sort_by_perm.
  - intro Hnone. destruct points as [|pt pts] eqn:E; [reflexivity|].
    exfalso.
    assert (Hin : In (trend_student_id pt) (map trend_student_id (pt :: pts)))
      by (left; reflexivity).
    apply Hiff in Hin. pose proof (Hnone (trend_student_id pt)). lia.
Qed.

Lemma trend_points_match_analyzer_witness :
  student_trends (assessments tables_60_70_80) = [].
Proof.
  apply (trend_points_match_analyzer tables_60_70_80).
  intro sid. unfold assessments_of.
  pose proof (filter_length_le (fun r => (student_id r =? sid)%string)
                (assessments tables_60_70_80)) as H.
  simpl in H. simpl. lia.
Defined.

(** ** Edge cases of the per-student methods *)

(** X22: for an identifier without any assessment and any session, every
    per-student method returns its empty result and none raises: no
    summary, no weak or strong topic, no recommendation, and for every
    subject the prediction without a number. *)
Theorem unknown_student_results (tb : Tables) (sid : string) (tw ts : Q) :
  assessments_of sid (assessments tb) = [] ->
  sessions_of sid (sessions tb) = [] ->
  run (get_student_performance_summary sid) tb = Returns None
  /\ run (identify_weak_topics sid tw) tb = Returns []
  /\ run (identify_strong_topics sid ts) tb = Returns []
  /\ run (get_study_recommendations sid) tb = Returns []
  /\ (forall subj,
        run (predict_performance sid subj) tb
        = Returns (mkPrediction None "Low" (Some "Insufficient data"%string) None)).
Proof.
  intros Ha Hs. split; [|split; [|split; [|split]]].
  - apply summary_none. rewrite Ha. reflexivity.
  - rewrite run_weak, Ha. reflexivity.
  - rewrite run_strong, Ha. reflexivity.
  - pose proof (run_recommendations tb sid) as H. cbv zeta in H.
    rewrite H, Ha, Hs. reflexivity.
  - intro subj. apply predict_short.
    assert (E : subject_data sid subj (assessments tb) = []).
    { unfold subject_data. unfold assessments_of in Ha.
      induction (assessments tb) as [|r l IH]; [reflexivity|].
      simpl in *. destruct (student_id r =? sid)%string; [discriminate Ha|].
      simpl. apply IH. exact Ha. }
    rewrite E. simpl. lia.
Qed.

Lemma unknown_student_results_witness :
  run (get_study_recommendations "STU999") tables_60_70_80 = Returns []
  /\ run (get_student_performance_summary "STU999") tables_60_70_80 = Returns None.
Proof.
  destruct (unknown_student_results tables_60_70_80 "STU999" 70 85 eq_refl eq_refl)
    as [H1 [_ [_ [H4 _]]]].
  split; [exact H4|exact H1].
Defined.

Lemma median_bounds (l : list Q) (lo hi : Q) :
  (1 <= length l)%nat ->
  (forall x, In x l -> lo <= x /\ x <= hi) ->
  exists m, Series_median l = Fin m /\ lo <= m /\ m <= hi.
Proof.
  intros Hn Hb. unfold Series_median. cbv zeta.
  assert (Hs : forall i, (i < length l)%nat ->
             lo <= nth i (sort_by Qle_bool l) 0 /\ nth i (sort_by Qle_bool l) 0 <= hi).
  { intros i Hi. apply Hb. apply (sort_by_In Qle_bool). apply nth_In.
    rewrite sort_by_length. exact Hi. }
  assert (Hhalf : (length l / 2 < length l)%nat)
    by (apply Nat.div_lt; lia).
  destruct l as [|x l']; [simpl in Hn; lia|].
  set (l := x :: l') in *.
  destruct (Nat.even (length l)).
  - eexists. split; [reflexivity|].
    destruct (Hs (length l / 2 - 1)%nat) as [A1 A2]; [lia|].
    destruct (Hs (length l / 2)%nat Hhalf) as [B1 B2].
    split.
    + apply Qle_shift_div_l; [reflexivity|]. lra.
    + apply Qle_shift_div_r; [reflexivity|]. lra.
  - eexists. split; [reflexivity|]. apply Hs. exact Hhalf.
Qed.

Lemma summary_median (tb : Tables) (sid : string) :
  (1 <= length (assessments_of sid (assessments tb)))%nat ->
  exists s,
    run (get_student_performance_summary sid) tb = Returns (Some s)
    /\ median_score s = Series_median (map score (assessments_of sid (assessments tb))).
Proof.
  intro H.
  destruct (subject_means_nonempty _ H) as [kv [l E]].
  unfold run, get_student_performance_summary, bind, get_assessments,
    get_sessions, lift, ret. cbv beta iota.
  destruct (length (assessments_of sid (assessments tb)) =? 0)%nat eqn:E0;
    [apply Nat.eqb_eq in E0; lia|].
  rewrite E. unfold idxmax, idxmin. cbv beta iota.
  eexists. split; reflexivity.
Qed.

(** X23: the median score of a summary lies between any two bounds that
    hold for all the scores of the student. *)
Theorem median_score_within_bounds (tb : Tables) (sid : string) (lo hi : Q) :
  (1 <= length (assessments_of sid (assessments tb)))%nat ->
  (forall r, In r (assessments_of sid (assessments tb)) ->
             lo <= score r /\ score r <= hi) ->
  exists s m,
    run (get_student_performance_summary sid) tb = Returns (Some s)
    /\ median_score s = Fin m
    /\ lo <= m /\ m <= hi.
Proof.
  intros Hn Hb.
  destruct (summary_median tb sid Hn) as [s [Hrun Hmed]].
  destruct (median_bounds (map score (assessments_of sid (assessments tb))) lo hi)
    as [m [Hm Hbounds]].
  - rewrite length_map. exact Hn.
  - intros x Hx. apply in_map_iff in Hx. destruct Hx as [r [<- Hr]]. apply Hb, Hr.
  - exists s, m. split; [exact Hrun|]. split; [rewrite Hmed; exact Hm|exact Hbounds].
Qed.

Lemma median_score_within_bounds_witness :
  exists s m,
    run (get_student_performance_summary "STU001") tables_60_70_80 = Returns (Some s)
    /\ median_score s = Fin m
    /\ 60 <= m /\ m <= 80.
Proof.
  apply (median_score_within_bounds tables_60_70_80 "STU001" 60 80).
  - simpl. lia.
  - intros r Hr. simpl in Hr.
    destruct Hr as [<-|[<-|[<-|[]]]]; simpl; split; discriminate.
Defined.

(** X24: the summary of a student with a single assessment: the average
    and the median are that score, the standard deviation is NaN (the
    sample estimator needs two values), best and weakest subject are both
    the subject of the assessment, and the trend is "Insufficient
    Data". *)
Theorem single_assessment_summary (tb : Tables) (sid : string) (a : Assessment) :
  assessments_of sid (assessments tb) = [a] ->
  exists s m,
    run (get_student_performance_summary sid) tb = Returns (Some s)
    /\ total_assessments s = 1%nat
    /\ average_score s = Fin m /\ m == score a
    /\ median_score s = Fin (score a)
    /\ score_std s = StdNaN
    /\ best_subject s = subject a
    /\ weakest_subject s = subject a
    /\ improvement_trend s = "Insufficient Data"%string.
Proof.
  intro E.
  unfold run, get_student_performance_summary, bind, get_assessments,
    get_sessions, lift, ret. cbv beta iota. rewrite E.
  assert (Hm : subject_means [a] = [(subject a, mean [score a])]).
  { unfold subject_means, groupby, group_keys. simpl.
    rewrite String.eqb_refl. reflexivity. }
  cbn [length Nat.eqb]. rewrite Hm. unfold idxmax, idxmin. cbv beta iota.
  eexists. exists (mean [score a]). split; [reflexivity|].
  cbn [total_assessments average_score median_score score_std best_subject
         weakest_subject improvement_trend idx_first fst map length].
  split; [reflexivity|]. split; [reflexivity|].
  split; [unfold mean, Qlen; simpl; field|].
  repeat split.
Qed.

Lemma single_assessment_summary_witness :
  exists s,
    run (get_student_performance_summary "STU001") tables_three_sessions
    = Returns (Some s)
    /\ score_std s = StdNaN
    /\ improvement_trend s = "Insufficient Data"%string.
Proof.
  destruct (single_assessment_summary tables_three_sessions "STU001"
              (sample_row "STU001" "Mathematics" "Algebra" 1 50 25) eq_refl)
    as [s [m [Hrun [_ [_ [_ [_ [Hstd [_ [_ Ht]]]]]]]]]].
  exists s. split; [exact Hrun|]. split; [exact Hstd|exact Ht].
Defined.
